(** * PIOS virtual-memory core: page tables, copy-on-write, merge, usercopy

    A shallow embedding of [kern/pmap.c] and of the user-memory access
    discipline of [kern/syscall.c], followed by the text display of
    [dev/video.c] and the input ring and output path of [kern/cons.c].

    Physical memory is an array of 32-bit cells addressed by byte address
    (the kernel is identity mapped, so a kernel pointer is a physical
    address).  Page frames carry a reference count kept by the frame
    allocator, which also owns the free list.  Kernel code that can
    panic on an [assert], dereference a null pointer or loop is given a
    result in the [outcome] type. *)

From Stdlib Require Import ZArith List Lia Bool String.
Import ListNotations.
Local Open Scope Z_scope.

(* ================================================================== *)
(** ** Machine words and the paging macros                             *)
(* ================================================================== *)

(** Arithmetic on [uint32_t] wraps modulo 2^32. *)
Definition wrap32 (x : Z) : Z := x mod 2 ^ 32.

(** Modelled from the spec: [inc/mmu.h] is not available.  A frame has
    4096 bytes, a page table and a page directory have 1024 entries
    each, so a page table spans 4 MiB. *)
Definition PAGESIZE : Z := 4096.
Definition NPTENTRIES : Z := 1024.
Definition PTSIZE : Z := PAGESIZE * NPTENTRIES.
Definition PDXSHIFT : Z := 22.
Definition PTXSHIFT : Z := 12.

(** Modelled from the spec: the hardware flags P, W, U, A, PS and G
    of an entry, at the bit positions the x86 gives them. *)
Definition PTE_P : Z := 1.
Definition PTE_W : Z := 2.
Definition PTE_U : Z := 4.
Definition PTE_A : Z := 32.
Definition PTE_PS : Z := 128.
Definition PTE_G : Z := 256.

(** Modelled from the spec: [inc/syscall.h] is not available; the
    nominal permissions [SYS_READ] and [SYS_WRITE] live in the low bits
    of a PTE that the hardware leaves to software (mask 0xE00). *)
Definition SYS_READ : Z := 512.
Definition SYS_WRITE : Z := 1024.
Definition SYS_RW : Z := 1536.

(** Modelled from the spec: the page-fault vector [T_PGFLT] of
    [inc/trap.h], number 14 among the architectural exceptions. *)
Definition T_PGFLT : Z := 14.

(** Modelled from the spec: the top 10 bits of a linear address select
    the PDE, the middle 10 bits the PTE, the low 12 bits are the
    offset in the page; an entry holds a frame address in its high 20
    bits and flags in its low 12 bits. *)
Definition PDX (la : Z) : Z := Z.land (Z.shiftr la PDXSHIFT) 1023.
Definition PTX (la : Z) : Z := Z.land (Z.shiftr la PTXSHIFT) 1023.
Definition PGOFF (la : Z) : Z := Z.land la 4095.
Definition PGADDR (la : Z) : Z := Z.land la 4294963200.      (* & ~0xFFF *)
Definition PTOFF (la : Z) : Z := Z.land la 4194303.

(** [~m] on a 32-bit word. *)
Definition not32 (m : Z) : Z := Z.lxor m 4294967295.

(** Modelled from the spec: rounding an address down and up to a
    multiple of [n] (the 4 MiB boundaries of [pmap_remove]), in 32-bit
    arithmetic. *)
Definition ROUNDDOWN (a n : Z) : Z := a - a mod n.
Definition ROUNDUP (a n : Z) : Z := ROUNDDOWN (wrap32 (a + n - 1)) n.

(** The 1024 entries of a table (or words of a page) as a loop count. *)
Definition nptentries : nat := Z.to_nat NPTENTRIES.

Definition testflag (x flag : Z) : bool := negb (Z.land x flag =? 0).

(** Address-space layout.  [inc/vm.h] and the linker decide these three
    numbers; the code only relies on the properties in [layout_ok]. *)
Class Layout : Type := {
  VM_USERLO : Z;
  VM_USERHI : Z;
  PTE_ZERO : Z          (* physical address of the page [pmap_zero] *)
}.

Definition layout_ok (L : Layout) : Prop :=
  0 <= VM_USERLO /\ VM_USERLO < VM_USERHI /\ VM_USERHI + PTSIZE < 2 ^ 32 /\
  VM_USERLO mod PTSIZE = 0 /\ VM_USERHI mod PTSIZE = 0 /\
  0 <= PTE_ZERO < 2 ^ 32 /\ PTE_ZERO mod PAGESIZE = 0.

(* ================================================================== *)
(** ** Results of kernel code                                          *)
(* ================================================================== *)

Inductive outcome (A : Type) : Type :=
| Done (a : A)            (* ran to completion *)
| Panic (why : string)    (* a failed [assert] *)
| NullDeref               (* read or write through a null pointer *)
| Diverge.                (* loop budget exhausted *)
Arguments Done {A} a.
Arguments Panic {A} why.
Arguments NullDeref {A}.
Arguments Diverge {A}.

Definition bind {A B} (c : outcome A) (k : A -> outcome B) : outcome B :=
  match c with
  | Done a => k a
  | Panic w => Panic w
  | NullDeref => NullDeref
  | Diverge => Diverge
  end.

Notation "x <- c ;; k" := (bind c (fun x => k))
  (at level 61, c at next level, right associativity).
Notation "' p <- c ;; k" := (bind c (fun x => let p := x in k))
  (at level 61, p pattern, c at next level, right associativity).

Definition assert {A} (b : bool) (why : string) (k : outcome A) : outcome A :=
  if b then k else Panic why.

(* ================================================================== *)
(** ** Kernel state                                                    *)
(* ================================================================== *)

(** A line sent to the console by [cprintf]: format and arguments. *)
Record cmsg : Type := Msg { fmt : string; args : list Z }.

Record kstate : Type := mkState {
  mem : Z -> Z;              (* physical memory, one 32-bit cell per address *)
  refcount : Z -> Z;         (* [mem_pageinfo[i].refcount] *)
  freelist : list Z;         (* [mem_freelist], as frame numbers *)
  alloc_calls : nat;         (* how many times [mem_alloc] has been entered *)
  console : list cmsg        (* console output, latest first *)
}.

Definition upd (f : Z -> Z) (a v : Z) : Z -> Z :=
  fun x => if x =? a then v else f x.

Definition store (a v : Z) (st : kstate) : kstate :=
  mkState (upd (mem st) a v) (refcount st) (freelist st)
          (alloc_calls st) (console st).

Definition set_refcount (pi v : Z) (st : kstate) : kstate :=
  mkState (mem st) (upd (refcount st) pi v) (freelist st)
          (alloc_calls st) (console st).

Definition cprintf (m : cmsg) (st : kstate) : kstate :=
  mkState (mem st) (refcount st) (freelist st)
          (alloc_calls st) (m :: console st).

(** [memmove(dst, src, n)] on a memory: cells of the destination block
    take the values the source block had before the call. *)
Definition memmove_mem (m : Z -> Z) (dst src n : Z) : Z -> Z :=
  fun x => if (dst <=? x) && (x <? dst + n) then m (src + (x - dst)) else m x.

Definition memmove (dst src n : Z) (st : kstate) : kstate :=
  mkState (memmove_mem (mem st) dst src n) (refcount st) (freelist st)
          (alloc_calls st) (console st).

(* ================================================================== *)
(** ** The frame allocator ([kern/mem.h], a collaborator)              *)
(* ================================================================== *)

(** Modelled from the spec: a [pageinfo*] is the index of the frame in
    [mem_pageinfo], the null pointer is [None]; frame [i] is the memory
    from [i * PAGESIZE] on, and kernel pointers are physical addresses. *)
Definition mem_pi2phys (pi : Z) : Z := pi * PAGESIZE.
Definition mem_phys2pi (phys : Z) : Z := phys / PAGESIZE.
Definition mem_pi2ptr (pi : Z) : Z := mem_pi2phys pi.

(** Modelled from the spec: [mem_alloc] of the frame allocator is not
    available.
    It hands out a frame of the free list, or none when the list is
    empty; it leaves the reference count alone. *)
Definition mem_alloc (st : kstate) : option Z * kstate :=
  match freelist st with
  | [] => (None, mkState (mem st) (refcount st) [] (S (alloc_calls st)) (console st))
  | pi :: rest =>
      (Some pi, mkState (mem st) (refcount st) rest (S (alloc_calls st)) (console st))
  end.

(** Modelled from the spec: [mem_free] of the frame allocator is not
    available.
    It returns a frame to the free list. *)
Definition mem_free (pi : Z) (st : kstate) : kstate :=
  mkState (mem st) (refcount st) (pi :: freelist st) (alloc_calls st) (console st).

(** Modelled from the spec: [mem_incref] of the frame allocator is not
    available.
    It adds one to the frame's reference count. *)
Definition mem_incref (pi : Z) (st : kstate) : kstate :=
  set_refcount pi (refcount st pi + 1) st.

(** Modelled from the spec: [mem_decref] of the frame allocator is not
    available.
    It takes one from the frame's reference count and calls [freefun] on
    the frame when the count reaches zero. *)
Definition mem_decref (pi : Z) (freefun : Z -> kstate -> kstate) (st : kstate)
  : kstate :=
  let st1 := set_refcount pi (refcount st pi - 1) st in
  if refcount st1 pi =? 0 then freefun pi st1 else st1.

(* ================================================================== *)
(** ** [kern/pmap.c]                                                   *)
(* ================================================================== *)

Section Pmap.
Context {L : Layout}.

(** Write [v] into the [n] consecutive entries of the table at [base],
    lowest index first. *)
Fixpoint store_entries (n : nat) (base v : Z) (st : kstate) : kstate :=
  match n with
  | O => st
  | S k => store (base + 4 * Z.of_nat k) v (store_entries k base v st)
  end.

(** [pmap_walk(pdir, va, writing)]: the address of the PTE of [va], or
    the null pointer. *)
Definition pmap_walk (pdir va : Z) (writing : bool) (st : kstate)
  : outcome (option Z * kstate) :=
  assert ((VM_USERLO <=? va) && (va <? VM_USERHI)) "va >= VM_USERLO && va < VM_USERHI"
  (let pdentry := pdir + 4 * PDX va in
   if mem st pdentry =? PTE_ZERO then
     if writing then
       match mem_alloc st with
       | (None, st1) => Done (None, st1)
       | (Some pi, st1) =>
           let st2 := mem_incref pi st1 in
           let ptable := mem_pi2ptr pi in
           let st3 := store_entries nptentries ptable PTE_ZERO st2 in
           let st4 :=
             store pdentry
               (Z.lor (Z.lor (Z.lor (Z.lor (mem_pi2phys pi) PTE_A) PTE_P) PTE_W) PTE_U)
               st3 in
           assert (negb (mem st4 pdentry =? PTE_ZERO)) "*pdentry != PTE_ZERO"
             (Done (Some (ptable + 4 * PTX va), st4))
       end
     else Done (None, st)
   else
     let ptable := PGADDR (mem st pdentry) in
     Done (Some (ptable + 4 * PTX va), st)).

(** The loop of [pmap_freeptab] over the first [n] entries of a table. *)
Fixpoint freeptab_entries (n : nat) (base : Z) (st : kstate) : kstate :=
  match n with
  | O => st
  | S k =>
      let st1 := freeptab_entries k base st in
      let pgaddr := PGADDR (mem st1 (base + 4 * Z.of_nat k)) in
      if pgaddr =? PTE_ZERO then st1
      else mem_decref (mem_phys2pi pgaddr) mem_free st1
  end.

Definition pmap_freeptab (ptabpi : Z) (st : kstate) : kstate :=
  mem_free ptabpi (freeptab_entries nptentries (mem_pi2ptr ptabpi) st).

(** Body of the head and tail loops of [pmap_remove]: unmap one page. *)
Definition remove_page (pdir va : Z) (st : kstate) : outcome kstate :=
  let pdentry := pdir + 4 * PDX va in
  if mem st pdentry =? PTE_ZERO then Done st
  else
    '(pte, st1) <- pmap_walk pdir va true st ;;
    match pte with
    | None => NullDeref
    | Some p =>
        let addr := PGADDR (mem st1 p) in
        if addr =? PTE_ZERO then Done st1
        else Done (store p PTE_ZERO (mem_decref (mem_phys2pi addr) mem_free st1))
    end.

(** Body of the bulk loop of [pmap_remove]: drop one whole page table. *)
Definition remove_ptab (pdir va : Z) (st : kstate) : kstate :=
  let pdentry := pdir + 4 * PDX va in
  if mem st pdentry =? PTE_ZERO then st
  else
    let addr := PGADDR (mem st pdentry) in
    store pdentry PTE_ZERO (mem_decref (mem_phys2pi addr) pmap_freeptab st).

Fixpoint remove_head (fuel : nat) (pdir va toppage : Z) (st : kstate)
  : outcome (Z * kstate) :=
  if (va <? ROUNDUP va PTSIZE) && (va <? toppage) then
    match fuel with
    | O => Diverge
    | S f =>
        st1 <- remove_page pdir va st ;;
        remove_head f pdir (wrap32 (va + PAGESIZE)) toppage st1
    end
  else Done (va, st).

Fixpoint remove_bulk (fuel : nat) (pdir va toppage : Z) (st : kstate)
  : outcome (Z * kstate) :=
  if wrap32 (va + PTSIZE) <=? ROUNDDOWN toppage PTSIZE then
    match fuel with
    | O => Diverge
    | S f =>
        if wrap32 (toppage - va) >=? PTSIZE then
          remove_bulk f pdir (wrap32 (va + PTSIZE)) toppage (remove_ptab pdir va st)
        else Done (va, st)
    end
  else Done (va, st).

Fixpoint remove_tail (fuel : nat) (pdir va toppage : Z) (st : kstate)
  : outcome (Z * kstate) :=
  if va <? toppage then
    match fuel with
    | O => Diverge
    | S f =>
        st1 <- remove_page pdir va st ;;
        remove_tail f pdir (wrap32 (va + PAGESIZE)) toppage st1
    end
  else Done (va, st).

(** [pmap_remove(pdir, va, size)].  The TLB is not part of the state, so
    [pmap_inval] leaves no trace here. *)
Definition pmap_remove (pdir va size : Z) (st : kstate) : outcome kstate :=
  assert (PGOFF size =? 0) "PGOFF(size) == 0"
  (assert ((VM_USERLO <=? va) && (va <? VM_USERHI)) "va >= VM_USERLO && va < VM_USERHI"
  (assert (size <=? wrap32 (VM_USERHI - va)) "size <= VM_USERHI - va"
  (assert (PGOFF va =? 0) "PGOFF(va) == 0"
  (let toppage := wrap32 (va + size) in
   let fuel := S (Z.to_nat (size / PAGESIZE)) in
   '(va1, st1) <- remove_head fuel pdir va toppage st ;;
   '(va2, st2) <- remove_bulk fuel pdir va1 toppage st1 ;;
   '(_, st3) <- remove_tail fuel pdir va2 toppage st2 ;;
   Done st3)))).

(** [pmap_insert(pdir, pi, va, perm)]. *)
Definition pmap_insert (pdir pi va perm : Z) (st : kstate)
  : outcome (option Z * kstate) :=
  '(pte, st1) <- pmap_walk pdir va true st ;;
  match pte with
  | None => Done (None, st1)
  | Some p =>
      let st2 := mem_incref pi st1 in
      st3 <- (if negb (mem st2 p =? PTE_ZERO)
              then pmap_remove pdir va PAGESIZE st2 else Done st2) ;;
      Done (Some p, store p (Z.lor (Z.lor (mem_pi2phys pi) perm) PTE_P) st3)
  end.

(** The value that the inner loop of [pmap_copy] stores back into a
    source entry [e]: ([PGADDR(e) | perm]). *)
Definition cow_entry (e : Z) : Z :=
  let perm := Z.lor (PGOFF e) SYS_READ in
  let perm :=
    if testflag perm PTE_W || testflag perm SYS_WRITE
    then Z.lor (Z.land perm (not32 PTE_W)) SYS_WRITE
    else perm in
  Z.lor (PGADDR e) perm.

(** One step of the inner loop of [pmap_copy], on the entry at [entry]. *)
Definition copy_entry (entry : Z) (st : kstate) : kstate :=
  if PGADDR (mem st entry) =? PGADDR PTE_ZERO then st
  else
    let st1 := store entry (cow_entry (mem st entry)) st in
    mem_incref (mem_phys2pi (PGADDR (mem st1 entry))) st1.

Fixpoint copy_entries (n : nat) (base : Z) (st : kstate) : kstate :=
  match n with
  | O => st
  | S k => copy_entry (base + 4 * Z.of_nat k) (copy_entries k base st)
  end.

(** Body of the outer loop of [pmap_copy] for one pair of PDEs;
    the boolean is [false] on the early [return 0]. *)
Definition copy_pde (spentry dpentry : Z) (st : kstate) : outcome (bool * kstate) :=
  if PGADDR (mem st spentry) =? PTE_ZERO then
    Done (true, store dpentry (mem st spentry) st)
  else
    match mem_alloc st with
    | (None, st1) => Done (false, st1)
    | (Some pi, st1) =>
        let st2 := copy_entries nptentries (PGADDR (mem st1 spentry)) st1 in
        let st3 := memmove (mem_pi2ptr pi) (PGADDR (mem st2 spentry)) PAGESIZE st2 in
        let st4 :=
          store dpentry
            (Z.lor (PGADDR (mem_pi2phys pi)) (PGOFF (mem st3 spentry))) st3 in
        assert (negb (PGADDR (mem st4 spentry) =? PGADDR (mem st4 dpentry)))
          "PGADDR(*spentry) != PGADDR(*dpentry)"
          (Done (true, set_refcount pi 1 st4))
    end.

Fixpoint copy_loop (fuel : nat) (sva end_ spentry dpentry : Z) (st : kstate)
  : outcome (Z * kstate) :=
  if sva <? end_ then
    match fuel with
    | O => Diverge
    | S f =>
        '(ok, st1) <- copy_pde spentry dpentry st ;;
        if ok
        then copy_loop f (wrap32 (sva + PTSIZE)) end_ (spentry + 4) (dpentry + 4) st1
        else Done (0, st1)
    end
  else Done (1, st).

(** [pmap_copy(spdir, sva, dpdir, dva, size)]; the result is 1 on
    success and 0 when a page table could not be allocated. *)
Definition pmap_copy (spdir sva dpdir dva size : Z) (st : kstate)
  : outcome (Z * kstate) :=
  assert (PTOFF sva =? 0) "PTOFF(sva) == 0"
  (assert (PTOFF dva =? 0) "PTOFF(dva) == 0"
  (assert (PTOFF size =? 0) "PTOFF(size) == 0"
  (assert ((VM_USERLO <=? sva) && (sva <? VM_USERHI)) "sva >= VM_USERLO && sva < VM_USERHI"
  (assert ((VM_USERLO <=? dva) && (dva <? VM_USERHI)) "dva >= VM_USERLO && dva < VM_USERHI"
  (assert (size <=? wrap32 (VM_USERHI - sva)) "size <= VM_USERHI - sva"
  (assert (size <=? wrap32 (VM_USERHI - dva)) "size <= VM_USERHI - dva"
  (copy_loop (Z.to_nat (size / PTSIZE)) sva (wrap32 (sva + size))
     (spdir + 4 * PDX sva) (dpdir + 4 * PDX dva) st))))))).

(** The saved register frame of a trap, as far as this code reads it. *)
Record trapframe : Type := mkTrapframe {
  tf_trapno : Z;
  tf_err : Z;
  tf_eip : Z;
  tf_cs : Z;
  tf_eflags : Z;
  tf_esp : Z
}.

Definition set_trapno (n : Z) (tf : trapframe) : trapframe :=
  mkTrapframe n (tf_err tf) (tf_eip tf) (tf_cs tf) (tf_eflags tf) (tf_esp tf).

Definition set_err (e : Z) (tf : trapframe) : trapframe :=
  mkTrapframe (tf_trapno tf) e (tf_eip tf) (tf_cs tf) (tf_eflags tf) (tf_esp tf).

(** How a handler leaves: by [trap_return(tf)], which resumes the
    interrupted code at [tf_eip tf], or by returning to its caller. *)
Inductive handler_exit : Type :=
| TrapReturn (tf : trapframe)
| Returned (tf : trapframe).

Definition msg_outside : cmsg :=
  Msg "pmap_pagefault - outside of userspace!!" [].
Definition msg_badperm (w s : Z) : cmsg :=
  Msg "pmap_pagefault - permissions not good %d %d" [w; s].
Definition msg_conflict (s r d : Z) : cmsg :=
  Msg "pmap_mergepage: conflicting write: %x %x %x" [s; r; d].

(** The copy step shared by the fault handler and the merge: give the
    slot at [pte] a private copy of its page.  [mem_alloc]'s result is
    used unchecked. *)
Definition cow_copy (pte : Z) (st : kstate) : outcome kstate :=
  match mem_alloc st with
  | (None, _) => NullDeref                       (* pi_new->refcount = 1 *)
  | (Some pi_new, st1) =>
      let st2 := set_refcount pi_new 1 st1 in
      let st3 := memmove (mem_pi2ptr pi_new) (PGADDR (mem st2 pte)) PAGESIZE st2 in
      let st4 :=
        if negb (PGADDR (mem st3 pte) =? PTE_ZERO)
        then mem_decref (mem_phys2pi (PGADDR (mem st3 pte))) mem_free st3
        else st3 in
      Done (store pte (mem_pi2phys pi_new) st4)
  end.

(** [pmap_pagefault(tf)], with the faulting address [fva] read from CR2
    and [pdir] the page directory of the current process. *)
Definition pmap_pagefault (pdir fva : Z) (tf : trapframe) (st : kstate)
  : outcome (handler_exit * kstate) :=
  let tf := set_trapno T_PGFLT tf in
  if (fva <? VM_USERLO) || (fva >=? VM_USERHI) then
    Done (Returned tf, cprintf msg_outside st)
  else
    '(pte, st1) <- pmap_walk pdir fva true st ;;
    match pte with
    | None => NullDeref                          (* pte_t oldpte = *pte; *)
    | Some p =>
        let oldpte := mem st1 p in
        let permissions := PGOFF (mem st1 p) in
        let pi := mem_phys2pi (PGADDR (mem st1 p)) in
        if negb (testflag permissions PTE_W) && testflag permissions SYS_WRITE then
          st2 <- (if (mem_pi2phys pi =? PTE_ZERO) || (refcount st1 pi >? 1) then
                    st' <- cow_copy p st1 ;;
                    assert (negb (mem st' p =? oldpte)) "*pte != oldpte" (Done st')
                  else Done st1) ;;
          let permissions :=
            Z.land (Z.lor (Z.lor permissions PTE_W) PTE_P) (not32 SYS_RW) in
          Done (TrapReturn tf, store p (Z.lor (PGADDR (mem st2 p)) permissions) st2)
        else if tf_eip tf =? 1050952 then        (* 0x100948 *)
          Done (TrapReturn tf,
                store p (Z.lor (mem st1 p) (Z.lor PTE_P PTE_W)) st1)
        else
          Done (Returned tf,
                cprintf (msg_badperm (Z.land permissions PTE_W)
                                     (Z.land permissions SYS_WRITE)) st1)
    end.

(** The word loop of [pmap_mergepage], from word [i] on, for [n] words. *)
Fixpoint merge_words (n : nat) (i rpg spg dpg dpte : Z) (st : kstate) : kstate :=
  match n with
  | O => st
  | S k =>
      let r := mem st (rpg + 4 * i) in
      let s := mem st (spg + 4 * i) in
      let d := mem st (dpg + 4 * i) in
      if negb (r =? s) then
        if negb (r =? d) && negb (s =? d) then
          let st1 := cprintf (msg_conflict s r d) st in
          let st2 := mem_decref (mem_phys2pi (PGADDR (mem st1 dpte))) mem_free st1 in
          store dpte PTE_ZERO st2
        else merge_words k (i + 1) rpg spg dpg dpte (store (dpg + 4 * i) s st)
      else merge_words k (i + 1) rpg spg dpg dpte st
  end.

(** The first part of [pmap_mergepage]: make a read-shared destination
    private and writable. *)
Definition merge_unshare (dpte : Z) (st : kstate) : outcome kstate :=
  let d_perm := PGOFF (mem st dpte) in
  if testflag d_perm PTE_P && negb (testflag d_perm PTE_W) && testflag d_perm SYS_WRITE
     && ((PGADDR (mem st dpte) =? PTE_ZERO)
         || (refcount st (mem_phys2pi (PGADDR (mem st dpte))) >=? 1))
  then
    let perm := Z.land (Z.lor (PGOFF (mem st dpte)) PTE_W) (not32 SYS_RW) in
    st1 <- (if refcount st (mem_phys2pi (PGADDR (mem st dpte))) >? 1
            then cow_copy dpte st else Done st) ;;
    Done (store dpte (Z.lor (PGADDR (mem st1 dpte)) perm) st1)
  else Done st.

(** [pmap_mergepage(rpte, spte, dpte, dva)]. *)
Definition pmap_mergepage (rpte spte dpte dva : Z) (st : kstate) : outcome kstate :=
  st1 <- merge_unshare dpte st ;;
  let rpg := PGADDR (mem st1 rpte) in
  let spg := PGADDR (mem st1 spte) in
  let dpg := PGADDR (mem st1 dpte) in
  Done (merge_words nptentries 0 rpg spg dpg dpte st1).

Fixpoint setperm_loop (fuel : nat) (pdir a lim perm : Z) (st : kstate)
  : outcome kstate :=
  if a <? lim then
    match fuel with
    | O => Diverge
    | S f =>
        '(pte, st1) <- pmap_walk pdir a true st ;;
        match pte with
        | None => Panic "pte != NULL"
        | Some p =>
            setperm_loop f pdir (wrap32 (a + PAGESIZE)) lim perm
              (store p (Z.lor (mem st1 p) (Z.lor perm PTE_U)) st1)
        end
    end
  else Done st.

(** [pmap_setperm(pdir, va, size, perm)]; the result is [size]. *)
Definition pmap_setperm (pdir va size perm : Z) (st : kstate)
  : outcome (Z * kstate) :=
  assert (PGOFF va =? 0) "PGOFF(va) == 0"
  (assert (PGOFF size =? 0) "PGOFF(size) == 0"
  (assert ((VM_USERLO <=? va) && (va <? VM_USERHI)) "va >= VM_USERLO && va < VM_USERHI"
  (assert (size <=? wrap32 (VM_USERHI - va)) "size <= VM_USERHI - va"
  (assert (Z.land perm (not32 SYS_RW) =? 0) "(perm & ~(SYS_RW)) == 0"
  (st1 <- setperm_loop (Z.to_nat (size / PAGESIZE)) pdir va (wrap32 (va + size)) perm st ;;
   Done (size, st1)))))).

End Pmap.

(* ================================================================== *)
(** ** [kern/syscall.c]: validated access to user memory               *)
(* ================================================================== *)

(** The handlers that can sit in the per-CPU recovery slot. *)
Inductive recover_fn : Type := sysrecover | trap_check_recover.

(** The part of [struct cpu] and of memory that [usercopy] touches.
    [recoverdata] is the user's trap frame when [usercopy] has set it.
    [access w a] tells how an access to the linear address [a] (a
    write when [w] is set) ends under the page tables in force:
    [None] when it goes through, at once or after [pmap_pagefault] has
    resolved its fault, and [Some ktf] when it traps with frame [ktf]
    and the dispatcher gets as far as the recovery slot. *)
Record cstate : Type := mkCstate {
  recover : option recover_fn;
  recoverdata : option trapframe;
  lmem : Z -> Z;           (* linear memory, shared by kernel and user *)
  access : bool -> Z -> option trapframe
}.

(** Modelled from the spec: [memmove] of [lib/string.c] is not
    available.  The first trap of [memmove(dst, src, n)], if any: for
    each byte, here from offset [off] upward, the source is read and
    the destination written.  The order matters only for which of
    several trapping accesses is reported. *)
Fixpoint memmove_trap (n : nat) (acc : bool -> Z -> option trapframe)
    (dst src off : Z) : option trapframe :=
  match n with
  | O => None
  | S k =>
      match acc false (src + off) with
      | Some ktf => Some ktf
      | None =>
          match acc true (dst + off) with
          | Some ktf => Some ktf
          | None => memmove_trap k acc dst src (off + 1)
          end
      end
  end.

(** A system-call helper either returns to its caller or hands the
    frame [utf] to the parent through [proc_ret(utf, entry)], which
    does not return. *)
Inductive sys_exit (A : Type) : Type :=
| ProcRet (utf : trapframe) (entry : Z)
| Back (a : A).
Arguments ProcRet {A} utf entry.
Arguments Back {A} a.

Section Syscall.
Context {L : Layout}.

(** [systrap(utf, trapno, err)]. *)
Definition systrap {A} (utf : trapframe) (trapno err : Z) : sys_exit A :=
  ProcRet (set_err err (set_trapno trapno utf)) 0.

(** [checkva(utf, uva, size)]. *)
Definition checkva (utf : trapframe) (uva size : Z) : sys_exit unit :=
  if (uva <? VM_USERLO) || (uva >=? VM_USERHI) || (size >? wrap32 (VM_USERHI - uva))
  then systrap utf T_PGFLT 0
  else Back tt.

(** [sysrecover(ktf, recoverdata)], the handler that the dispatcher
    calls for a trap taken while it sits in the recovery slot: it
    blames the trap of the kernel's frame [ktf] on the user's frame.
    It also clears the slot; an exit through [proc_ret] carries the
    frame only, so the cleared slot does not show here. *)
Definition sysrecover_run {A} (ktf recoverdata : trapframe) : sys_exit A :=
  systrap recoverdata (tf_trapno ktf) (tf_err ktf).

(** [memmove(dst, src, size)] inside [usercopy], with [sysrecover] and
    the user's frame [utf] in the recovery slot: the copy, or the exit
    of [sysrecover] at its first trap. *)
Definition guarded_memmove (utf : trapframe) (dst src size : Z) (cs : cstate)
  : sys_exit cstate :=
  match memmove_trap (Z.to_nat size) (access cs) dst src 0 with
  | Some ktf => sysrecover_run ktf utf
  | None =>
      Back (mkCstate (recover cs) (recoverdata cs)
              (memmove_mem (lmem cs) dst src size) (access cs))
  end.

(** [usercopy(utf, copyout, kva, uva, size)]. *)
Definition usercopy (utf : trapframe) (copyout : bool) (kva uva size : Z)
  (cs : cstate) : sys_exit cstate :=
  match checkva utf uva size with
  | ProcRet f e => ProcRet f e
  | Back _ =>
      let temp := recover cs in
      let cs1 := mkCstate (Some sysrecover) (Some utf) (lmem cs) (access cs) in
      match (if copyout
             then guarded_memmove utf uva kva size cs1
             else guarded_memmove utf kva uva size cs1) with
      | ProcRet f e => ProcRet f e
      | Back cs2 => Back (mkCstate temp (recoverdata cs2) (lmem cs2) (access cs2))
      end
  end.

End Syscall.

(* ================================================================== *)
(** ** [kern/pmap.c]: directories, lookup and merge                    *)
(* ================================================================== *)

Section PmapDirs.
Context {L : Layout}.

(** The entry that the loop of [pmap_init] gives slot [i] of the
    bootstrap directory. *)
Definition bootpdir_entry (i : Z) : Z :=
  let addr := wrap32 (i * PTSIZE) in
  if (VM_USERLO <=? addr) && (addr <? VM_USERHI) then PTE_ZERO
  else Z.lor (Z.lor (Z.lor (Z.lor (Z.shiftl i PDXSHIFT) PTE_P) PTE_W) PTE_PS) PTE_G.

(** The loop of [pmap_init] over the first [n] slots of the directory
    at [bootpdir]. *)
Fixpoint init_bootpdir (n : nat) (bootpdir : Z) (st : kstate) : kstate :=
  match n with
  | O => st
  | S k =>
      store (bootpdir + 4 * Z.of_nat k) (bootpdir_entry (Z.of_nat k))
        (init_bootpdir k bootpdir st)
  end.

(** [pmap_newpdir()], with [bootpdir] the address of [pmap_bootpdir]. *)
Definition pmap_newpdir (bootpdir : Z) (st : kstate) : option Z * kstate :=
  match mem_alloc st with
  | (None, st1) => (None, st1)
  | (Some pi, st1) =>
      let st2 := mem_incref pi st1 in
      let pdir := mem_pi2ptr pi in
      (Some pdir, memmove pdir bootpdir PAGESIZE st2)
  end.

(** [pmap_freepdir(pdirpi)]. *)
Definition pmap_freepdir (pdirpi : Z) (st : kstate) : outcome kstate :=
  st1 <- pmap_remove (mem_pi2ptr pdirpi) VM_USERLO (wrap32 (VM_USERHI - VM_USERLO)) st ;;
  Done (mem_free pdirpi st1).

(** [va2pa(pdir, va)]: the frame address that the directory gives
    [va], or [~0]. *)
Definition va2pa (pdir va : Z) (st : kstate) : Z :=
  let pde := mem st (pdir + 4 * PDX va) in
  if negb (testflag pde PTE_P) then 4294967295
  else
    let ptab := PGADDR pde in
    if negb (testflag (mem st (ptab + 4 * PTX va)) PTE_P) then 4294967295
    else PGADDR (mem st (ptab + 4 * PTX va)).

(** One round of the inner loop of [pmap_merge], for the page at
    offset [i] of the range. *)
Definition merge_slot (rpdir spdir sva dpdir dva i : Z) (st : kstate)
  : outcome kstate :=
  '(rpte, st1) <- pmap_walk rpdir (wrap32 (sva + i)) false st ;;
  '(spte, st2) <- pmap_walk spdir (wrap32 (sva + i)) false st1 ;;
  '(dpte, st3) <- pmap_walk dpdir (wrap32 (dva + i)) false st2 ;;
  match rpte, spte, dpte with
  | Some r, Some s, Some d =>
      if (mem st3 s =? mem st3 r) && (mem st3 d =? mem st3 r) then Done st3
      else if (mem st3 d =? mem st3 r) && negb (mem st3 s =? mem st3 r) then
        let st4 :=
          if negb (PGADDR (mem st3 d) =? PTE_ZERO)
          then mem_decref (mem_phys2pi (PGADDR (mem st3 d))) mem_free st3
          else st3 in
        let st5 := mem_incref (mem_phys2pi (PGADDR (mem st4 s))) st4 in
        let st6 :=
          if testflag (PGOFF (mem st5 s)) PTE_W || testflag (PGOFF (mem st5 s)) SYS_WRITE
          then store s (Z.lor (mem st5 s) SYS_WRITE) st5
          else st5 in
        let st7 := store s (Z.land (mem st6 s) (not32 PTE_W)) st6 in
        Done (store d (mem st7 s) st7)
      else pmap_mergepage r s d (wrap32 (dva + i)) st3
  | _, _, _ => NullDeref              (* [*spte == *rpte], [*dpte == *rpte] *)
  end.

Fixpoint merge_slots (n : nat) (rpdir spdir sva dpdir dva i : Z) (st : kstate)
  : outcome (Z * kstate) :=
  match n with
  | O => Done (i, st)
  | S k =>
      st1 <- merge_slot rpdir spdir sva dpdir dva i st ;;
      merge_slots k rpdir spdir sva dpdir dva (wrap32 (i + PAGESIZE)) st1
  end.

Fixpoint merge_loop (fuel : nat) (rpdir spdir sva dpdir dva size i : Z) (st : kstate)
  : outcome kstate :=
  if i <? size then
    match fuel with
    | O => Diverge
    | S f =>
        if mem st (spdir + 4 * PDX (wrap32 (sva + i)))
           =? mem st (rpdir + 4 * PDX (wrap32 (sva + i)))
        then merge_loop f rpdir spdir sva dpdir dva size (wrap32 (i + PTSIZE)) st
        else
          '(i1, st1) <- merge_slots nptentries rpdir spdir sva dpdir dva i st ;;
          merge_loop f rpdir spdir sva dpdir dva size i1 st1
    end
  else Done st.

(** [pmap_merge(rpdir, spdir, sva, dpdir, dva, size)]; the result is
    [size]. *)
Definition pmap_merge (rpdir spdir sva dpdir dva size : Z) (st : kstate)
  : outcome (Z * kstate) :=
  assert (PTOFF sva =? 0) "PTOFF(sva) == 0"
  (assert (PTOFF dva =? 0) "PTOFF(dva) == 0"
  (assert (PTOFF size =? 0) "PTOFF(size) == 0"
  (assert ((VM_USERLO <=? sva) && (sva <? VM_USERHI)) "sva >= VM_USERLO && sva < VM_USERHI"
  (assert ((VM_USERLO <=? dva) && (dva <? VM_USERHI)) "dva >= VM_USERLO && dva < VM_USERHI"
  (assert (size <=? wrap32 (VM_USERHI - sva)) "size <= VM_USERHI - sva"
  (assert (size <=? wrap32 (VM_USERHI - dva)) "size <= VM_USERHI - dva"
  (st1 <- merge_loop (Z.to_nat (size / PTSIZE)) rpdir spdir sva dpdir dva size 0 st ;;
   Done (size, st1)))))))).

End PmapDirs.

(* ================================================================== *)
(** ** [kern/syscall.c]: the permission block of [do_put] and [do_get] *)
(* ================================================================== *)

Section SysPerm.
Context {L : Layout}.

(** The loop [for (a = dva; a < dva + size; a += PAGESIZE)] of the
    block, from [a] on; [lim] is [dva + size] in 32-bit arithmetic. *)
Fixpoint perm_loop (fuel : nat) (pdir a lim nom_perm : Z) (st : kstate)
  : outcome kstate :=
  if a <? lim then
    match fuel with
    | O => Diverge
    | S f =>
        '(pte, st1) <- pmap_walk pdir a true st ;;
        match pte with
        | None => Panic "pte != NULL"
        | Some p =>
            perm_loop f pdir (wrap32 (a + PAGESIZE)) lim nom_perm
              (if negb (nom_perm =? 0)
               then store p (Z.lor (mem st1 p) nom_perm) st1
               else store p (PGADDR (mem st1 p)) st1)
        end
    end
  else Done st.

(** The block under [if (flags & SYS_PERM)], the same in [do_put] (on
    the child's directory) and in [do_get] (on the caller's): [dva]
    and [size] are the caller's registers EDI and ECX. *)
Definition sys_perm (pdir dva size flags : Z) (st : kstate) : outcome kstate :=
  let nom_perm := Z.land flags SYS_RW in
  let nom_perm :=
    if negb (Z.land nom_perm SYS_READ =? 0)
    then Z.lor nom_perm (Z.lor PTE_P PTE_U) else nom_perm in
  perm_loop (S (Z.to_nat (size / PAGESIZE))) pdir dva (wrap32 (dva + size)) nom_perm st.

End SysPerm.

(* ================================================================== *)
(** ** [dev/video.c]: the text display                                 *)
(* ================================================================== *)

(** [dev/video.h]. *)
Definition CRT_ROWS : Z := 25.
Definition CRT_COLS : Z := 80.
Definition CRT_SIZE : Z := CRT_ROWS * CRT_COLS.

(** Arithmetic on [uint16_t] wraps modulo 2^16. *)
Definition wrap16 (x : Z) : Z := x mod 2 ^ 16.

(** The driver's variables.  [crt_buf] is the text buffer by cell
    index; a cell holds a [uint16_t].  [ports] records the bytes sent
    by [outb(port, data)], latest first. *)
Record vstate : Type := mkVstate {
  crt_buf : Z -> Z;
  crt_pos : Z;           (* uint16_t: one past the last character *)
  blk_pos : Z;           (* uint16_t: the cursor *)
  line_pos : Z;          (* uint16_t: where the line being edited starts *)
  addr_6845 : Z;
  ports : list (Z * Z)
}.

(** Modelled from the spec: [outb] of [inc/x86.h] is not available.
    It sends one byte to an I/O port: the low byte of [data]. *)
Definition outb (port data : Z) (s : vstate) : vstate :=
  mkVstate (crt_buf s) (crt_pos s) (blk_pos s) (line_pos s) (addr_6845 s)
           ((port, data mod 256) :: ports s).

(** The four [outb] calls that place the hardware cursor at [pos]. *)
Definition set_cursor_pos (pos : Z) (s : vstate) : vstate :=
  outb (addr_6845 s + 1) pos
    (outb (addr_6845 s) 15
       (outb (addr_6845 s + 1) (Z.shiftr pos 8)
          (outb (addr_6845 s) 14 s))).

(** [for (i = ...; i < crt_pos; ++i) crt_buf[i] = crt_buf[i+1];] for
    [n] rounds from [i] on. *)
Fixpoint shift_left (n : nat) (i : Z) (buf : Z -> Z) : Z -> Z :=
  match n with
  | O => buf
  | S k => shift_left k (i + 1) (upd buf i (buf (i + 1)))
  end.

(** [for (...) { temp2 = crt_buf[i]; crt_buf[i] = temp; temp = temp2; }]
    for [n] rounds from [i] on. *)
Fixpoint shift_right (n : nat) (i temp : Z) (buf : Z -> Z) : Z -> Z :=
  match n with
  | O => buf
  | S k => shift_right k (i + 1) (buf i) (upd buf i temp)
  end.

(** [for (...) crt_buf[i] = 0x0700 | ' ';] for [n] rounds from [i] on. *)
Fixpoint blank_cells (n : nat) (i : Z) (buf : Z -> Z) : Z -> Z :=
  match n with
  | O => buf
  | S k => blank_cells k (i + 1) (upd buf i (Z.lor 1792 32))
  end.

(** The end of [video_putc]: scroll by one row when the text has run
    off the screen. *)
Definition scroll (s : vstate) : vstate :=
  if crt_pos s >=? CRT_SIZE then
    let buf1 := memmove_mem (crt_buf s) 0 CRT_COLS (CRT_SIZE - CRT_COLS) in
    let buf2 := blank_cells (Z.to_nat (CRT_SIZE - (CRT_SIZE - CRT_COLS)))
                  (CRT_SIZE - CRT_COLS) buf1 in
    let pos := wrap16 (crt_pos s - CRT_COLS) in
    mkVstate buf2 pos pos (wrap16 (pos + 2)) (addr_6845 s) (ports s)
  else s.

(** [video_putc(c)].  For a tab the function calls itself five times
    with a blank; [depth] bounds the nesting of calls, and two levels
    are all that occur. *)
Fixpoint video_putc_rec (depth : nat) (c : Z) (s : vstate) : vstate :=
  match depth with
  | O => s
  | S d =>
      let c := if Z.land c (-256) =? 0 then Z.lor c 1792 else c in
      let s1 :=
        if Z.land c 255 =? 8 then                                  (* '\b' *)
          if blk_pos s >? line_pos s then
            let buf1 := upd (crt_buf s) (blk_pos s - 1)
                          (wrap16 (Z.lor (Z.land c (-256)) 32)) in
            let buf2 := shift_left (Z.to_nat (crt_pos s - (blk_pos s - 1)))
                          (blk_pos s - 1) buf1 in
            mkVstate buf2 (wrap16 (crt_pos s - 1)) (wrap16 (blk_pos s - 1))
                     (line_pos s) (addr_6845 s) (ports s)
          else s
        else if Z.land c 255 =? 10 then            (* '\n', then as '\r' *)
          let pos := wrap16 (crt_pos s + CRT_COLS) in
          let pos := wrap16 (pos - pos mod CRT_COLS) in
          mkVstate (crt_buf s) pos pos (wrap16 (pos + 2)) (addr_6845 s) (ports s)
        else if Z.land c 255 =? 13 then                            (* '\r' *)
          let pos := wrap16 (crt_pos s - crt_pos s mod CRT_COLS) in
          mkVstate (crt_buf s) pos pos (wrap16 (pos + 2)) (addr_6845 s) (ports s)
        else if Z.land c 255 =? 9 then                             (* '\t' *)
          let s := video_putc_rec d 32 s in
          let s := video_putc_rec d 32 s in
          let s := video_putc_rec d 32 s in
          let s := video_putc_rec d 32 s in
          let s := video_putc_rec d 32 s in
          mkVstate (crt_buf s) (crt_pos s) (crt_pos s) (line_pos s)
                   (addr_6845 s) (ports s)
        else
          let temp := crt_buf s (blk_pos s) in
          let buf1 := upd (crt_buf s) (blk_pos s) (wrap16 c) in
          let buf2 := shift_right (Z.to_nat (crt_pos s + 1 - (blk_pos s + 1)))
                        (blk_pos s + 1) temp buf1 in
          mkVstate buf2 (wrap16 (crt_pos s + 1)) (wrap16 (blk_pos s + 1))
                   (line_pos s) (addr_6845 s) (ports s) in
      let s2 := scroll s1 in
      set_cursor_pos (blk_pos s2) s2
  end.

Definition video_putc (c : Z) (s : vstate) : vstate := video_putc_rec 2 c s.

(** [blk_left()] and [blk_right()]. *)
Definition blk_left (s : vstate) : vstate :=
  if blk_pos s >? line_pos s then
    let pos := wrap16 (blk_pos s - 1) in
    set_cursor_pos pos
      (mkVstate (crt_buf s) (crt_pos s) pos (line_pos s) (addr_6845 s) (ports s))
  else s.

Definition blk_right (s : vstate) : vstate :=
  if blk_pos s <? crt_pos s then
    let pos := wrap16 (blk_pos s + 1) in
    set_cursor_pos pos
      (mkVstate (crt_buf s) (crt_pos s) pos (line_pos s) (addr_6845 s) (ports s))
  else s.

(** The loop of [delete_chars]: [crt_buf[--crt_pos] = ' '], [n] times. *)
Fixpoint delete_loop (n : nat) (s : vstate) : vstate :=
  match n with
  | O => s
  | S k =>
      let pos := wrap16 (crt_pos s - 1) in
      delete_loop k
        (mkVstate (upd (crt_buf s) pos (wrap16 (Z.lor (Z.land 8 (-256)) 32)))
                  pos (blk_pos s) (line_pos s) (addr_6845 s) (ports s))
  end.

(** [delete_chars(n)]; the result is [n]. *)
Definition delete_chars (n : Z) (s : vstate) : Z * vstate :=
  let s1 := delete_loop (Z.to_nat n) s in
  (n, mkVstate (crt_buf s1) (crt_pos s1) (crt_pos s1) (line_pos s1)
               (addr_6845 s1) (ports s1)).

(** The screen is in order: the cursor is inside the text and the text
    is inside the screen. *)
Definition video_ok (s : vstate) : Prop :=
  0 <= line_pos s /\ 0 <= blk_pos s <= crt_pos s /\ crt_pos s < CRT_SIZE.

(* ================================================================== *)
(** ** [kern/cons.c]: the input ring and the output path               *)
(* ================================================================== *)

Definition CONSBUFSIZE : Z := 512.

(** The input buffer [cons]: bytes, a read position and a write
    position. *)
Record consbuf : Type := mkConsbuf {
  cbuf : Z -> Z;
  rpos : Z;
  wpos : Z
}.

(** [cons_writec(c)]. *)
Definition cons_writec (c : Z) (b : consbuf) : consbuf :=
  let b1 := mkConsbuf (upd (cbuf b) (wpos b) (c mod 256)) (rpos b) (wrap32 (wpos b + 1)) in
  if wpos b1 =? CONSBUFSIZE then mkConsbuf (cbuf b1) (rpos b1) 0 else b1.

(** [cons_getc()], after its two polls of the devices, which add
    nothing when no key is pending: the next byte of the ring, or 0. *)
Definition cons_getc (b : consbuf) : Z * consbuf :=
  if negb (rpos b =? wpos b) then
    let c := cbuf b (rpos b) in
    let b1 := mkConsbuf (cbuf b) (wrap32 (rpos b + 1)) (wpos b) in
    (c, if rpos b1 =? CONSBUFSIZE then mkConsbuf (cbuf b1) 0 (wpos b1) else b1)
  else (0, b).

(** Feed the characters of [l] to [cons_writec], first to last. *)
Fixpoint cons_writes (l : list Z) (b : consbuf) : consbuf :=
  match l with
  | [] => b
  | c :: rest => cons_writes rest (cons_writec c b)
  end.

(** Call [cons_getc] [n] times and collect the results. *)
Fixpoint cons_reads (n : nat) (b : consbuf) : list Z * consbuf :=
  match n with
  | O => ([], b)
  | S k =>
      let '(c, b1) := cons_getc b in
      let '(rest, b2) := cons_reads k b1 in
      (c :: rest, b2)
  end.

(** The output side of the console: the escape flag and the colour
    mask of [cons_putc], what went to the serial port (latest first),
    and the display. *)
Record conout : Type := mkConout {
  esc_flag : Z;
  color_mask : Z;
  serial_out : list Z;
  screen : vstate
}.

(** [cons_putc(c)]. *)
Definition cons_putc (c : Z) (o : conout) : conout :=
  if esc_flag o >? 0 then mkConout 0 (Z.shiftl c 8) (serial_out o) (screen o)
  else if c =? 27 then mkConout 1 (color_mask o) (serial_out o) (screen o)
  else
    let c := Z.lor c (color_mask o) in
    mkConout (esc_flag o) (color_mask o) (c :: serial_out o) (video_putc c (screen o)).

(* ================================================================== *)
(** ** A concrete machine for worked examples                          *)
(* ================================================================== *)

(** The layout of PIOS on the PC: user space from 1 GiB to 3.75 GiB. *)
Definition pios : Layout :=
  {| VM_USERLO := 0x40000000; VM_USERHI := 0xF0000000; PTE_ZERO := 0x00150000 |}.

(** The table that [pmap_init] builds in [pmap_bootpdir], placed at
    [pd]: user PDEs are [PTE_ZERO], the others map 4 MiB pages
    one-to-one; memory elsewhere reads 0. *)
Definition bootpdir_at (L : Layout) (pd : Z) : Z -> Z :=
  fun a =>
    if (pd <=? a) && (a <? pd + PAGESIZE) then
      let i := (a - pd) / 4 in
      let addr := wrap32 (i * PTSIZE) in
      if (VM_USERLO <=? addr) && (addr <? VM_USERHI) then PTE_ZERO
      else Z.lor (Z.lor (Z.lor (Z.lor (Z.shiftl i PDXSHIFT) PTE_P) PTE_W) PTE_PS) PTE_G
    else 0.

(** Finitely many cells written over a memory. *)
Fixpoint cells (l : list (Z * Z)) (base : Z -> Z) : Z -> Z :=
  match l with
  | [] => base
  | (a, v) :: rest => upd (cells rest base) a v
  end.

(** A reference-count table: the listed frames, zero elsewhere. *)
Definition counts (l : list (Z * Z)) : Z -> Z := cells l (fun _ => 0).

(** The example machine: a page directory in frame 0x200. *)
Definition ex_pd : Z := 0x200000.
Definition ex_va : Z := 0x40001000.
Definition ex_pt : Z := 0x201000.          (* a page table in frame 0x201 *)
Definition ex_pde : Z := ex_pd + 4 * PDX ex_va.
Definition ex_pte : Z := ex_pt + 4 * PTX ex_va.
Definition ex_tf : trapframe := mkTrapframe 0 0 0x40000123 0x1b 0x202 0xeffffff0.

(** A linear memory where every cell holds its own address, every
    access goes through and the recovery slot is empty. *)
Definition ex_cs : cstate := mkCstate None None (fun a => a) (fun _ _ => None).

(** The kernel's frame at a page fault of its own on a page that is not
    mapped: trap 14, with error code 2 for a write and 0 for a read. *)
Definition ex_ktf (w : bool) : trapframe :=
  mkTrapframe T_PGFLT (if w then 2 else 0) 0x100a40 0x8 0x2 0xeffffe00.

(** The same memory with the user page at 0x40002000 not mapped. *)
Definition ex_cs_hole : cstate :=
  mkCstate None None (fun a => a)
    (fun w a => if (0x40002000 <=? a) && (a <? 0x40003000) then Some (ex_ktf w) else None).

(** Nothing mapped in user space; the frames in [fl] are free. *)
Definition ex_empty (fl : list Z) : kstate :=
  mkState (bootpdir_at pios ex_pd) (counts [(0x200, 1)]) fl 0 [].

(** One page table, whose entry for [ex_va] holds [pte]; the frame
    counts are given by [rc]. *)
Definition ex_mapped (pte : Z) (rc : list (Z * Z)) (fl : list Z) : kstate :=
  mkState (cells [(ex_pde, Z.lor ex_pt 39); (ex_pte, pte)]
             (fun a => if (ex_pt <=? a) && (a <? ex_pt + PAGESIZE)
                       then PTE_ZERO (Layout := pios)
                       else bootpdir_at pios ex_pd a))
          (counts ((0x200, 1) :: (0x201, 1) :: rc)) fl 0 [].

(** A screen with the five characters [ABCDE] at its start, the
    cursor on [D], the line being edited starting at [C]; the rest is
    blank. *)
Definition ex_screen : vstate :=
  mkVstate (fun i => if (0 <=? i) && (i <? 5) then 1857 + i else 1824) 5 3 2 980 [].

(** A longer text, with the cursor in cell 300. *)
Definition ex_long : vstate :=
  mkVstate (fun i => if (0 <=? i) && (i <? 400) then 1857 else 1824) 400 300 240 980 [].

(** The same text with its end in the last cell of the screen. *)
Definition ex_full : vstate :=
  mkVstate (fun i => if (0 <=? i) && (i <? 1999) then 1857 else 1824)
           1999 1999 1922 980 [].

(** An empty input ring whose positions stand two cells before the
    end of the buffer. *)
Definition ex_ring : consbuf := mkConsbuf (fun _ => 0) 510 510.

(** The console at rest, white on black, showing [ex_screen]. *)
Definition ex_conout : conout := mkConout 0 1792 [] ex_screen.

(** *** Shape of an address space

    The PDE slot of an address in the directory at [pdir], and its PTE
    slot in the page table that the PDE names. *)
Definition pde_slot (pdir v : Z) : Z := pdir + 4 * PDX v.
Definition pte_slot (st : kstate) (pdir v : Z) : Z :=
  PGADDR (mem st (pde_slot pdir v)) + 4 * PTX v.

(** The page tables of the user window are frames of their own: none
    is the directory itself and no two PDEs share one. *)
Definition pd_wf (L : Layout) (pdir : Z) (st : kstate) : Prop :=
  pdir mod PAGESIZE = 0 /\
  forall v, VM_USERLO <= v < VM_USERHI ->
    mem st (pde_slot pdir v) <> PTE_ZERO ->
    PGADDR (mem st (pde_slot pdir v)) <> pdir /\
    forall w, VM_USERLO <= w < VM_USERHI -> PDX w <> PDX v ->
      mem st (pde_slot pdir w) <> PTE_ZERO ->
      PGADDR (mem st (pde_slot pdir w)) <> PGADDR (mem st (pde_slot pdir v)).

(** The cells that unmapping [va, top) may write, read off the state
    [st] before the call: the PDEs of the page tables that lie wholly
    inside the range, and the PTE slots of the pages of the range. *)
Definition remove_footprint (L : Layout) (st : kstate) (pdir va top x : Z) : Prop :=
  (exists v, va <= v /\ v + PTSIZE <= top /\ v mod PTSIZE = 0 /\ x = pde_slot pdir v) \/
  (exists v, va <= v < top /\ mem st (pde_slot pdir v) <> PTE_ZERO /\
             x = pte_slot st pdir v).

(** The invariant of the three loops of [pmap_remove], relating the
    current state to the state [st0] at the call: no allocation so
    far, and every cell either as it was or reset to [PTE_ZERO] within
    the footprint. *)
Definition remove_inv (L : Layout) (st0 : kstate) (pdir va0 top : Z) (cur : kstate)
  : Prop :=
  alloc_calls cur = alloc_calls st0 /\
  forall x, mem cur x = mem st0 x \/
            (mem cur x = PTE_ZERO /\ remove_footprint L st0 pdir va0 top x).

(** The invariant of the loop of [pmap_setperm] at address [a],
    relating the current state to the state [st0] at the call: every
    cell is as it was or has gained the flags, the PTEs of the pages
    from [va] up to [a] have gained them, and the allocator was left
    alone. *)
Definition setperm_inv (st0 : kstate) (pdir va perm a : Z) (cur : kstate) : Prop :=
  (forall x, mem cur x = mem st0 x \/
             mem cur x = Z.lor (mem st0 x) (Z.lor perm PTE_U)) /\
  (forall v, va <= v < a ->
     mem cur (pte_slot st0 pdir v)
     = Z.lor (mem st0 (pte_slot st0 pdir v)) (Z.lor perm PTE_U)) /\
  refcount cur = refcount st0 /\ freelist cur = freelist st0 /\
  alloc_calls cur = alloc_calls st0.

(** How many of the first [n] entries of the table at [T] in memory
    [m] map frame [f], entries over the zero frame left out. *)
Fixpoint refs_to (L : Layout) (m : Z -> Z) (T f : Z) (n : nat) : Z :=
  match n with
  | O => 0
  | S k =>
      refs_to L m T f k +
      (if negb (PGADDR (m (T + 4 * Z.of_nat k)) =? PGADDR PTE_ZERO)
          && (mem_phys2pi (PGADDR (m (T + 4 * Z.of_nat k))) =? f)
       then 1 else 0)
  end.

(** A second page directory for copies, in frame 0x500. *)
Definition ex_pd2 : Z := 0x500000.

(** A process and the snapshot of an empty address space: the
    directory at [ex_pd] has the page table of [ex_mapped], the
    directory at [ex_pd2] has no page table at all. *)
Definition ex_snap (pte : Z) : kstate :=
  mkState (fun a => if (ex_pd2 <=? a) && (a <? ex_pd2 + PAGESIZE)
                    then bootpdir_at pios ex_pd2 a
                    else mem (ex_mapped pte [] []) a)
          (counts [(0x200, 1); (0x201, 1); (0x500, 1)]) [] 0 [].

(** Three address spaces for a merge of the page at [ex_va]: the
    reference directory at [ex_pd] and the destination directory at
    0x600000 still map frame 0x400 read-only, the source directory at
    [ex_pd2] maps frame 0x401 writable. *)
Definition ex_three : kstate :=
  mkState (cells [(ex_pd + 4 * PDX ex_va, Z.lor 0x201000 39);
                  (ex_pd2 + 4 * PDX ex_va, Z.lor 0x501000 39);
                  (0x600000 + 4 * PDX ex_va, Z.lor 0x601000 39);
                  (0x201000 + 4 * PTX ex_va, Z.lor 0x400000 (Z.lor PTE_P PTE_U));
                  (0x501000 + 4 * PTX ex_va,
                   Z.lor 0x401000 (Z.lor (Z.lor PTE_P PTE_U) PTE_W));
                  (0x601000 + 4 * PTX ex_va, Z.lor 0x400000 (Z.lor PTE_P PTE_U))]
             (fun _ => PTE_ZERO (Layout := pios)))
          (counts [(0x400, 2); (0x401, 1)]) [] 0 [].

(** Three pages for a merge: the reference page is all zero, the
    source changed words 0, 1 and 2, the destination changed word 2. *)
Definition ex_rpte : Z := 0x700000.
Definition ex_spte : Z := 0x700004.
Definition ex_dpte : Z := 0x700008.
Definition ex_merge : kstate :=
  mkState (cells [(ex_rpte, Z.lor 0x600000 (Z.lor PTE_P PTE_U));
                  (ex_spte, Z.lor 0x601000 (Z.lor (Z.lor PTE_P PTE_U) PTE_W));
                  (ex_dpte, Z.lor 0x602000 (Z.lor (Z.lor PTE_P PTE_U) PTE_W));
                  (0x601000, 0xA); (0x601004, 0xA); (0x601008, 0xC);
                  (0x602008, 0xB)]
             (fun _ => 0))
          (counts [(0x600, 1); (0x601, 1); (0x602, 1)]) [] 0 [].

(** Word [k] of the page at [pg]. *)
Definition word_at (pg : Z) (st : kstate) (k : Z) : Z := mem st (pg + 4 * k).

(** Three-way comparison of one word of the reference, source and
    destination pages: the values a merge cannot reconcile, and the
    value the destination word gets otherwise. *)
Definition word_conflict (r s d : Z) : Prop := r <> s /\ r <> d /\ s <> d.
Definition merge_word (r s d : Z) : Z := if r =? s then d else s.

(* ================================================================== *)
(** ** Proof helpers                                                   *)
(* ================================================================== *)

(** Close the postcondition of a loop: the run, the invariant, then
    arithmetic side conditions. *)
Ltac loop_done :=
  split; [first [reflexivity | assumption] |
  split; [assumption | repeat apply conj; auto; lia]].

(** Hand [lia] the quotient and remainder of [x] by [n]. *)
Ltac divmod x n :=
  pose proof (Z.div_mod x n ltac:(lia));
  pose proof (Z.mod_pos_bound x n ltac:(lia)).

(* ================================================================== *)
(** ** Arithmetic of the paging macros                                 *)
(* ================================================================== *)

Lemma PGOFF_mod x : PGOFF x = x mod 4096.
Proof. unfold PGOFF. change 4095 with (Z.ones 12). now rewrite Z.land_ones. Qed.

Lemma PGADDR_eq x : PGADDR x = 4096 * ((x / 4096) mod 2 ^ 20).
Proof.
  unfold PGADDR.
  change 4096 with (2 ^ 12).
  rewrite <- Z.shiftr_div_pow2, <- Z.land_ones, Z.mul_comm, <- Z.shiftl_mul_pow2 by lia.
  apply Z.bits_inj'. intros n Hn.
  rewrite Z.land_spec, Z.shiftl_spec by lia.
  destruct (Z_lt_ge_dec n 12) as [Hlt | Hge].
  - rewrite (Z.testbit_neg_r _ (n - 12)) by lia.
    change 4294963200 with (Z.shiftl (Z.ones 20) 12).
    rewrite Z.shiftl_spec, (Z.testbit_neg_r _ (n - 12)) by lia.
    apply andb_false_r.
  - rewrite Z.land_spec, Z.shiftr_spec by lia.
    change 4294963200 with (Z.shiftl (Z.ones 20) 12).
    rewrite Z.shiftl_spec by lia.
    now replace (n - 12 + 12) with n by lia.
Qed.

Lemma PGADDR_range x : 0 <= PGADDR x < 2 ^ 32 /\ PGADDR x mod 4096 = 0.
Proof.
  rewrite PGADDR_eq.
  pose proof (Z.mod_pos_bound (x / 4096) (2 ^ 20) ltac:(lia)).
  split; [lia|]. now rewrite Z.mul_comm, Z.mod_mul.
Qed.

Lemma PGADDR_small x : 0 <= x < 2 ^ 32 -> PGADDR x = x - x mod 4096.
Proof.
  intros H. rewrite PGADDR_eq.
  rewrite (Z.mod_small (x / 4096)).
  - pose proof (Z.div_mod x 4096 ltac:(lia)). lia.
  - split; [apply Z.div_pos; lia|]. apply Z.div_lt_upper_bound; lia.
Qed.

Lemma PGADDR_aligned x : 0 <= x < 2 ^ 32 -> x mod 4096 = 0 -> PGADDR x = x.
Proof. intros H H0. rewrite PGADDR_small by assumption. lia. Qed.

Lemma PTX_eq x : PTX x = (x / 4096) mod 1024.
Proof.
  unfold PTX, PTXSHIFT. change 1023 with (Z.ones 10).
  now rewrite Z.land_ones, Z.shiftr_div_pow2 by lia.
Qed.

Lemma PDX_eq x : PDX x = (x / 4194304) mod 1024.
Proof.
  unfold PDX, PDXSHIFT. change 1023 with (Z.ones 10).
  now rewrite Z.land_ones, Z.shiftr_div_pow2 by lia.
Qed.

Lemma PTX_range x : 0 <= PTX x < 1024.
Proof. rewrite PTX_eq. apply Z.mod_pos_bound. lia. Qed.

Lemma PDX_range x : 0 <= PDX x < 1024.
Proof. rewrite PDX_eq. apply Z.mod_pos_bound. lia. Qed.

(** A page-aligned address and flags below a page do not share bits. *)
Lemma land_page_flags a p :
  a mod 4096 = 0 -> 0 <= p < 4096 -> Z.land a p = 0.
Proof.
  intros Ha Hp.
  apply Z.bits_inj'. intros n Hn. rewrite Z.land_spec, Z.bits_0.
  destruct (Z_lt_ge_dec n 12) as [Hlt | Hge].
  - assert (Z.testbit a n = false) as ->; [|reflexivity].
    rewrite <- (Z.mod_pow2_bits_low a 12 n) by lia.
    change (2 ^ 12) with 4096. rewrite Ha. apply Z.bits_0.
  - assert (Z.testbit p n = false) as ->; [|apply andb_false_r].
    destruct (Z.eq_dec p 0) as [-> | Hnz]; [apply Z.bits_0|].
    apply Z.bits_above_log2; [lia|].
    assert (Z.log2 p < 12); [|lia].
    apply Z.log2_lt_pow2; lia.
Qed.

Lemma lor_page_flags a p :
  a mod 4096 = 0 -> 0 <= p < 4096 -> Z.lor a p = a + p.
Proof.
  intros Ha Hp.
  rewrite <- (Z.add_lor_land a p), (land_page_flags a p Ha Hp). lia.
Qed.

(** Testing a flag of an entry looks at its low twelve bits only. *)
Lemma land_entry_flag a p F :
  a mod 4096 = 0 -> 0 <= F < 4096 -> Z.land (Z.lor a p) F = Z.land p F.
Proof.
  intros Ha HF.
  now rewrite Z.land_lor_distr_l, (land_page_flags a F Ha HF), Z.lor_0_l.
Qed.

Lemma testflag_PGOFF e F :
  Z.land 4095 F = F -> testflag (PGOFF e) F = testflag e F.
Proof.
  intros HF. unfold testflag, PGOFF. now rewrite <- Z.land_assoc, HF.
Qed.

Lemma PGOFF_range e : 0 <= PGOFF e < 4096.
Proof. rewrite PGOFF_mod. apply Z.mod_pos_bound. lia. Qed.

(** A property of page offsets that holds for each of the 4096 values. *)
Lemma offsets_all (P : Z -> bool) :
  forallb P (map Z.of_nat (seq 0 4096)) = true ->
  forall q, 0 <= q < 4096 -> P q = true.
Proof.
  intros H q Hq. rewrite forallb_forall in H. apply H.
  apply in_map_iff. exists (Z.to_nat q). split; [lia|].
  apply in_seq. lia.
Qed.

(** The permissions that the fault handler installs: writable and
    present, nominal permissions dropped. *)
Lemma cow_perm_flags q :
  0 <= q < 4096 ->
  let p' := Z.land (Z.lor (Z.lor q PTE_W) PTE_P) (not32 SYS_RW) in
  0 <= p' < 4096 /\
  testflag p' PTE_W = true /\ testflag p' PTE_P = true /\
  testflag p' SYS_READ = false /\ testflag p' SYS_WRITE = false.
Proof.
  intros Hq p'. subst p'.
  pose proof (offsets_all
    (fun q => let p' := Z.land (Z.lor (Z.lor q PTE_W) PTE_P) (not32 SYS_RW) in
              (0 <=? p') && (p' <? 4096) && testflag p' PTE_W && testflag p' PTE_P
              && negb (testflag p' SYS_READ) && negb (testflag p' SYS_WRITE))
    ltac:(vm_compute; reflexivity) q Hq) as H.
  cbv beta zeta in H.
  repeat (apply andb_prop in H; destruct H as [H ?]).
  repeat match goal with
         | H : negb _ = true |- _ => apply negb_true_iff in H
         end.
  apply Z.leb_le in H. apply Z.ltb_lt in H4. auto.
Qed.

(** Projections of the state after each primitive update. *)
Lemma mem_store a v st : mem (store a v st) = upd (mem st) a v.
Proof. reflexivity. Qed.
Lemma refcount_store a v st : refcount (store a v st) = refcount st.
Proof. reflexivity. Qed.
Lemma freelist_store a v st : freelist (store a v st) = freelist st.
Proof. reflexivity. Qed.
Lemma alloc_calls_store a v st : alloc_calls (store a v st) = alloc_calls st.
Proof. reflexivity. Qed.
Lemma console_store a v st : console (store a v st) = console st.
Proof. reflexivity. Qed.

Lemma nptentries_Z : Z.of_nat nptentries = 1024.
Proof. reflexivity. Qed.

Lemma upd_same f a v : upd f a v a = v.
Proof. unfold upd. now rewrite Z.eqb_refl. Qed.

Lemma upd_other f a v x : x <> a -> upd f a v x = f x.
Proof. unfold upd. intros H. now destruct (Z.eqb_spec x a). Qed.

Lemma flags_PWUA phys :
  phys mod 4096 = 0 ->
  Z.lor (Z.lor (Z.lor (Z.lor phys PTE_A) PTE_P) PTE_W) PTE_U = phys + 39.
Proof.
  intros H. rewrite <- !Z.lor_assoc.
  change (Z.lor PTE_A (Z.lor PTE_P (Z.lor PTE_W PTE_U))) with 39.
  apply lor_page_flags; [assumption | lia].
Qed.

Lemma pi2phys_aligned pi : mem_pi2phys pi mod 4096 = 0.
Proof. unfold mem_pi2phys, PAGESIZE. apply Z.mod_mul. lia. Qed.

Lemma phys2pi_pi2phys pi : mem_phys2pi (mem_pi2phys pi) = pi.
Proof. unfold mem_phys2pi, mem_pi2phys, PAGESIZE. apply Z.div_mul. lia. Qed.

Lemma PGADDR_frame_flags pi p :
  0 <= pi < 2 ^ 20 -> 0 <= p < 4096 ->
  PGADDR (mem_pi2phys pi + p) = mem_pi2phys pi /\ PGOFF (mem_pi2phys pi + p) = p.
Proof.
  intros Hpi Hp. unfold mem_pi2phys, PAGESIZE.
  rewrite PGOFF_mod, PGADDR_small by lia.
  assert ((pi * 4096 + p) mod 4096 = p) as ->.
  { rewrite Z.add_comm, Z.mod_add by lia. apply Z.mod_small; lia. }
  lia.
Qed.

Lemma PGADDR_lor_flags x p :
  0 <= p < 4096 ->
  PGADDR (Z.lor (PGADDR x) p) = PGADDR x /\ PGOFF (Z.lor (PGADDR x) p) = p.
Proof.
  intros Hp. rewrite lor_page_flags by (apply PGADDR_range || lia).
  rewrite (PGADDR_eq x).
  pose proof (Z.mod_pos_bound (x / 4096) (2 ^ 20) ltac:(lia)) as Hk.
  set (k := (x / 4096) mod 2 ^ 20) in *.
  replace (4096 * k) with (mem_pi2phys k) by (unfold mem_pi2phys, PAGESIZE; lia).
  now apply PGADDR_frame_flags.
Qed.

Section PmapFacts.
Context {L : Layout}.

Lemma store_entries_frame n base v st :
  refcount (store_entries n base v st) = refcount st /\
  freelist (store_entries n base v st) = freelist st /\
  alloc_calls (store_entries n base v st) = alloc_calls st /\
  console (store_entries n base v st) = console st.
Proof. induction n as [|n IH]; simpl; auto. Qed.

Lemma store_entries_in n base v st i :
  0 <= i < Z.of_nat n -> mem (store_entries n base v st) (base + 4 * i) = v.
Proof.
  induction n as [|n IH]; intros Hi; [lia|].
  cbn [store_entries store mem].
  destruct (Z.eq_dec i (Z.of_nat n)) as [-> | Hne].
  - apply upd_same.
  - rewrite upd_other by lia. apply IH. lia.
Qed.

Lemma store_entries_out n base v st x :
  (forall k, 0 <= k < Z.of_nat n -> x <> base + 4 * k) ->
  mem (store_entries n base v st) x = mem st x.
Proof.
  induction n as [|n IH]; intros Hx; [reflexivity|].
  cbn [store_entries store mem].
  rewrite upd_other by (apply Hx; lia). apply IH. intros k Hk. apply Hx. lia.
Qed.

(** An entry of a page-aligned table lies in the table's frame. *)
Lemma entry_in_frame base i :
  base mod 4096 = 0 -> 0 <= i < 1024 ->
  mem_phys2pi (base + 4 * i) = mem_phys2pi base.
Proof.
  intros Hb Hi. unfold mem_phys2pi, PAGESIZE.
  pose proof (Z.div_mod base 4096 ltac:(lia)) as Hd.
  rewrite Hb in Hd.
  replace (base + 4 * i) with (4 * i + (base / 4096) * 4096) by lia.
  rewrite Z.div_add by lia. rewrite (Z.div_small (4 * i)) by lia. lia.
Qed.

(** C8.  Walking to an address of the user window whose PDE is
    [PTE_ZERO]: without [writing] the walk returns the null pointer and
    changes nothing; with [writing] and a free frame [pi] at hand (free
    frames carry a zero count) it sets up [pi] as a page table of 1024
    [PTE_ZERO] entries with count 1, stores the table's address with
    flags P|W|U|A in the PDE, and returns the address of entry
    [PTX va] of that table. *)
Theorem walk_empty_pde (pdir va : Z) (st : kstate) :
  layout_ok L ->
  VM_USERLO <= va < VM_USERHI ->
  mem st (pdir + 4 * PDX va) = PTE_ZERO ->
  pmap_walk pdir va false st = Done (None, st) /\
  forall pi rest,
    freelist st = pi :: rest -> refcount st pi = 0 -> 0 <= pi < 2 ^ 20 ->
    pdir mod PAGESIZE = 0 -> mem_phys2pi pdir <> pi ->
    exists st',
      pmap_walk pdir va true st = Done (Some (mem_pi2phys pi + 4 * PTX va), st') /\
      (forall i, 0 <= i < 1024 -> mem st' (mem_pi2phys pi + 4 * i) = PTE_ZERO) /\
      refcount st' pi = 1 /\
      mem st' (pdir + 4 * PDX va) =
        Z.lor (Z.lor (Z.lor (Z.lor (mem_pi2phys pi) PTE_A) PTE_P) PTE_W) PTE_U /\
      PGADDR (mem st' (pdir + 4 * PDX va)) = mem_pi2phys pi /\
      PGOFF (mem st' (pdir + 4 * PDX va)) = Z.lor (Z.lor (Z.lor PTE_P PTE_W) PTE_U) PTE_A /\
      freelist st' = rest.
Proof.
  intros Hok Hva Hpde.
  assert (Hin : (VM_USERLO <=? va) && (va <? VM_USERHI) = true).
  { apply andb_true_intro; split; [apply Z.leb_le | apply Z.ltb_lt]; lia. }
  unfold pmap_walk, assert. rewrite Hin, Hpde, Z.eqb_refl.
  split; [reflexivity|].
  intros pi rest Hfl Hrc Hpi Hpd Hne.
  unfold mem_alloc. rewrite Hfl. cbv zeta.
  assert (Hslot : forall k, 0 <= k < 1024 ->
                    pdir + 4 * PDX va <> mem_pi2ptr pi + 4 * k).
  { intros k Hk Heq. apply Hne.
    pose proof (PDX_range va).
    rewrite <- (entry_in_frame pdir (PDX va)) by (unfold PAGESIZE in Hpd; lia).
    rewrite Heq. unfold mem_pi2ptr.
    rewrite entry_in_frame by (try apply pi2phys_aligned; lia).
    apply phys2pi_pi2phys. }
  pose (st2 := mem_incref pi (mkState (mem st) (refcount st) rest
                                (S (alloc_calls st)) (console st))).
  assert (Hrc2 : refcount st2 pi = 1).
  { unfold st2. cbn [mem_incref set_refcount refcount]. rewrite upd_same. lia. }
  assert (Hfl2 : freelist st2 = rest) by reflexivity.
  change (mem_incref pi _) with st2. clearbody st2.
  destruct (store_entries_frame nptentries (mem_pi2ptr pi) PTE_ZERO st2)
    as (Hrc3 & Hfl3 & _).
  assert (Hent : forall i, 0 <= i < 1024 ->
            mem (store_entries nptentries (mem_pi2ptr pi) PTE_ZERO st2)
                (mem_pi2ptr pi + 4 * i) = PTE_ZERO).
  { intros i Hi. apply store_entries_in. rewrite nptentries_Z. lia. }
  generalize dependent (store_entries nptentries (mem_pi2ptr pi) PTE_ZERO st2).
  intros st3 Hrc3 Hfl3 Hent.
  rewrite mem_store, upd_same.
  rewrite flags_PWUA by apply pi2phys_aligned.
  destruct Hok as (_ & _ & _ & _ & _ & Hz & Hza).
  destruct (Z.eqb_spec (mem_pi2phys pi + 39) PTE_ZERO) as [Heq | Hneq].
  { exfalso. pose proof (pi2phys_aligned pi) as Ha.
    unfold PAGESIZE in Hza. rewrite <- Heq in Hza.
    rewrite Z.add_mod, Ha in Hza by lia. cbn in Hza. lia. }
  cbn [negb].
  eexists. split; [reflexivity|].
  rewrite mem_store, upd_same, refcount_store, freelist_store, Hrc3, Hfl3.
  repeat apply conj; try assumption; try reflexivity.
  - intros i Hi. rewrite upd_other.
    + now apply Hent.
    + intros Heq. apply (Hslot i); [lia | now symmetry].
  - apply (PGADDR_frame_flags pi 39); lia.
  - apply (PGADDR_frame_flags pi 39); lia.
Qed.

End PmapFacts.

(* ================================================================== *)
(** ** Worked runs on the example machine                              *)
(* ================================================================== *)

Lemma pios_ok : layout_ok pios.
Proof.
  unfold layout_ok, pios, VM_USERLO, VM_USERHI, PTE_ZERO, PTSIZE, PAGESIZE, NPTENTRIES.
  repeat split; try lia; reflexivity.
Qed.

(** C8, on the example machine: the first walk to [ex_va] with
    [writing] set turns the free frame 0x300 into a page table. *)
Lemma walk_empty_pde_witness :
  pmap_walk (L := pios) ex_pd ex_va false (ex_empty [0x300]) = Done (None, ex_empty [0x300]) /\
  exists st',
    pmap_walk (L := pios) ex_pd ex_va true (ex_empty [0x300])
      = Done (Some (mem_pi2phys 0x300 + 4 * PTX ex_va), st') /\
    (forall i, 0 <= i < 1024 -> mem st' (mem_pi2phys 0x300 + 4 * i) = PTE_ZERO (Layout := pios)) /\
    refcount st' 0x300 = 1 /\
    mem st' (ex_pd + 4 * PDX ex_va) =
      Z.lor (Z.lor (Z.lor (Z.lor (mem_pi2phys 0x300) PTE_A) PTE_P) PTE_W) PTE_U /\
    PGADDR (mem st' (ex_pd + 4 * PDX ex_va)) = mem_pi2phys 0x300 /\
    PGOFF (mem st' (ex_pd + 4 * PDX ex_va)) = Z.lor (Z.lor (Z.lor PTE_P PTE_W) PTE_U) PTE_A /\
    freelist st' = [].
Proof.
  assert (Hva : VM_USERLO (Layout := pios) <= ex_va < VM_USERHI (Layout := pios))
    by (vm_compute; split; [discriminate | reflexivity]).
  assert (Hpde : mem (ex_empty [0x300]) (ex_pd + 4 * PDX ex_va) = PTE_ZERO (Layout := pios))
    by (vm_compute; reflexivity).
  destruct (walk_empty_pde (L := pios) ex_pd ex_va (ex_empty [0x300]) pios_ok Hva Hpde)
    as [Hno Hyes].
  split; [exact Hno|].
  apply (Hyes 0x300 []).
  - reflexivity.
  - vm_compute; reflexivity.
  - lia.
  - vm_compute; reflexivity.
  - vm_compute; discriminate.
Defined.

(** C9.  [pmap_setperm] with [SYS_READ] on a [PTE_ZERO] slot ORs in
    [SYS_READ | PTE_U] only: the entry names the zero frame but its
    present bit stays clear, so the hardware sees no mapping (the
    permission loop of [do_put] adds [PTE_P], this one does not).
    With [SYS_RW] the writable bit stays clear as well. *)
Theorem setperm_read_not_present :
  match pmap_setperm (L := pios) ex_pd ex_va PAGESIZE SYS_READ
          (ex_mapped (PTE_ZERO (Layout := pios)) [] []) with
  | Done (_, st') =>
      mem st' ex_pte = Z.lor (PTE_ZERO (Layout := pios)) (Z.lor SYS_READ PTE_U) /\
      PGADDR (mem st' ex_pte) = PTE_ZERO (Layout := pios) /\
      testflag (mem st' ex_pte) PTE_P = false /\
      testflag (mem st' ex_pte) PTE_W = false
  | _ => False
  end /\
  match pmap_setperm (L := pios) ex_pd ex_va PAGESIZE SYS_RW
          (ex_mapped (PTE_ZERO (Layout := pios)) [] []) with
  | Done (_, st') =>
      testflag (mem st' ex_pte) SYS_WRITE = true /\
      testflag (mem st' ex_pte) PTE_P = false /\
      testflag (mem st' ex_pte) PTE_W = false
  | _ => False
  end.
Proof. vm_compute. repeat split. Qed.

(** C7.  With no free frame, [pmap_walk] in create mode, [pmap_insert]
    and [pmap_copy] report failure, but [pmap_pagefault] reads through
    the null pointer that the failed walk returned (the test [!pte]
    comes after [oldpte = *pte]), and on a copy-on-write fault of a
    shared frame it writes through the null result of [mem_alloc]. *)
Theorem pagefault_exhausted_null_deref :
  (exists st', pmap_walk (L := pios) ex_pd ex_va true (ex_empty []) = Done (None, st')) /\
  (exists st', pmap_insert (L := pios) ex_pd 0x400 ex_va 0 (ex_empty []) = Done (None, st')) /\
  (exists st', pmap_copy (L := pios) ex_pd 0x40000000 0x500000 0x40000000 PTSIZE
                 (ex_mapped (Z.lor 0x400000 (Z.lor PTE_P PTE_U)) [(0x400, 1)] [])
               = Done (0, st')) /\
  pmap_pagefault (L := pios) ex_pd ex_va ex_tf (ex_empty []) = NullDeref /\
  pmap_pagefault (L := pios) ex_pd ex_va ex_tf
    (ex_mapped (Z.lor 0x400000 (Z.lor (Z.lor PTE_P PTE_U) SYS_RW)) [(0x400, 2)] [])
  = NullDeref.
Proof.
  split; [eexists; reflexivity|].
  split; [eexists; reflexivity|].
  split; [eexists; reflexivity|].
  split; vm_compute; reflexivity.
Qed.

(* ================================================================== *)
(** ** The copy-on-write fault                                         *)
(* ================================================================== *)

Lemma decref_free_mem pi st : mem (mem_decref pi mem_free st) = mem st.
Proof. unfold mem_decref. cbv zeta. now destruct (_ =? 0). Qed.

Lemma decref_free_refcount pi st :
  refcount (mem_decref pi mem_free st) = upd (refcount st) pi (refcount st pi - 1).
Proof. unfold mem_decref. cbv zeta. now destruct (_ =? 0). Qed.

Lemma decref_free_alloc_calls pi st :
  alloc_calls (mem_decref pi mem_free st) = alloc_calls st.
Proof. unfold mem_decref. cbv zeta. now destruct (_ =? 0). Qed.

Lemma phys2pi_in_frame pi off :
  0 <= off < 4096 -> mem_phys2pi (mem_pi2phys pi + off) = pi.
Proof.
  intros H. unfold mem_phys2pi, mem_pi2phys, PAGESIZE.
  rewrite Z.add_comm, Z.div_add by lia. rewrite Z.div_small by lia. lia.
Qed.

Lemma pi2phys_phys2pi a : a mod 4096 = 0 -> mem_pi2phys (mem_phys2pi a) = a.
Proof.
  intros H. unfold mem_phys2pi, mem_pi2phys, PAGESIZE.
  pose proof (Z.div_mod a 4096 ltac:(lia)). lia.
Qed.

Lemma PGADDR_frame a : mem_pi2phys (mem_phys2pi (PGADDR a)) = PGADDR a.
Proof. apply pi2phys_phys2pi, PGADDR_range. Qed.

Lemma memmove_page_in m dst src off :
  0 <= off < 4096 -> memmove_mem m dst src PAGESIZE (dst + off) = m (src + off).
Proof.
  intros H. unfold memmove_mem, PAGESIZE.
  destruct (Z.leb_spec dst (dst + off)); [|lia].
  destruct (Z.ltb_spec (dst + off) (dst + 4096)); [|lia].
  cbn [andb]. f_equal. lia.
Qed.

Lemma memmove_page_out m pi src x :
  mem_phys2pi x <> pi -> memmove_mem m (mem_pi2phys pi) src PAGESIZE x = m x.
Proof.
  intros H. unfold memmove_mem, PAGESIZE.
  destruct (Z.leb_spec (mem_pi2phys pi) x); [|reflexivity].
  destruct (Z.ltb_spec x (mem_pi2phys pi + 4096)); [|reflexivity].
  exfalso. apply H.
  replace x with (mem_pi2phys pi + (x - mem_pi2phys pi)) by lia.
  apply phys2pi_in_frame. lia.
Qed.

Section Pagefault.
Context {L : Layout}.

Lemma walk_present pdir va w st :
  VM_USERLO <= va < VM_USERHI ->
  mem st (pdir + 4 * PDX va) <> PTE_ZERO ->
  pmap_walk pdir va w st
  = Done (Some (PGADDR (mem st (pdir + 4 * PDX va)) + 4 * PTX va), st).
Proof.
  intros Hva Hpde. unfold pmap_walk, assert.
  destruct (Z.leb_spec VM_USERLO va); [|lia].
  destruct (Z.ltb_spec va VM_USERHI); [|lia].
  cbn [andb].
  now destruct (Z.eqb_spec (mem st (pdir + 4 * PDX va)) PTE_ZERO).
Qed.

(** C1.  A fault in the user window on a slot whose entry has W clear
    and SYS_WRITE set is resolved as copy-on-write.  If the entry names
    the zero frame or a frame with more than one reference, and a free
    frame [f'] is to be had, [f'] receives a copy of the old page, gets
    count 1 and is installed, and the old frame loses one reference
    (the zero frame is not counted).  Otherwise the frame is kept.  In
    both cases the new entry has W and P set and SYS_READ and SYS_WRITE
    clear, and the handler leaves through [trap_return] with the saved
    instruction pointer untouched. *)
Theorem pagefault_cow (pdir fva : Z) (tf : trapframe) (st : kstate) :
  layout_ok L ->
  VM_USERLO <= fva < VM_USERHI ->
  mem st (pdir + 4 * PDX fva) <> PTE_ZERO ->
  let p := PGADDR (mem st (pdir + 4 * PDX fva)) + 4 * PTX fva in
  let e := mem st p in
  let f := mem_phys2pi (PGADDR e) in
  testflag e PTE_W = false ->
  testflag e SYS_WRITE = true ->
  (PGADDR e = PTE_ZERO \/ refcount st f > 1 ->
   forall f' rest,
     freelist st = f' :: rest -> 0 <= f' < 2 ^ 20 ->
     f' <> f -> f' <> mem_phys2pi p ->
     exists st',
       pmap_pagefault pdir fva tf st = Done (TrapReturn (set_trapno T_PGFLT tf), st') /\
       tf_eip (set_trapno T_PGFLT tf) = tf_eip tf /\
       (forall off, 0 <= off < PAGESIZE ->
          mem st' (mem_pi2phys f' + off) = mem st (PGADDR e + off)) /\
       refcount st' f' = 1 /\
       refcount st' f = (if PGADDR e =? PTE_ZERO then refcount st f else refcount st f - 1) /\
       freelist st' = rest /\
       PGADDR (mem st' p) = mem_pi2phys f' /\
       testflag (mem st' p) PTE_W = true /\ testflag (mem st' p) PTE_P = true /\
       testflag (mem st' p) SYS_READ = false /\ testflag (mem st' p) SYS_WRITE = false) /\
  (PGADDR e <> PTE_ZERO -> refcount st f <= 1 ->
   exists st',
     pmap_pagefault pdir fva tf st = Done (TrapReturn (set_trapno T_PGFLT tf), st') /\
     tf_eip (set_trapno T_PGFLT tf) = tf_eip tf /\
     PGADDR (mem st' p) = PGADDR e /\
     testflag (mem st' p) PTE_W = true /\ testflag (mem st' p) PTE_P = true /\
     testflag (mem st' p) SYS_READ = false /\ testflag (mem st' p) SYS_WRITE = false /\
     (forall a, a <> p -> mem st' a = mem st a) /\
     refcount st' = refcount st /\ freelist st' = freelist st /\
     alloc_calls st' = alloc_calls st).
Proof.
  intros Hok Hva Hpde p e f HW HSW.
  pose proof (cow_perm_flags (PGOFF e) (PGOFF_range e)) as Hperm.
  cbv zeta in Hperm.
  set (perm' := Z.land (Z.lor (Z.lor (PGOFF e) PTE_W) PTE_P) (not32 SYS_RW)) in *.
  destruct Hperm as (Hrange & HfW & HfP & HfR & HfSW).
  assert (Hflags : forall a F, a mod 4096 = 0 -> 0 <= F < 4096 ->
            testflag (Z.lor a perm') F = testflag perm' F).
  { intros a F Ha HF. unfold testflag. now rewrite land_entry_flag. }
  assert (Hcond : negb (testflag (PGOFF e) PTE_W) && testflag (PGOFF e) SYS_WRITE = true).
  { rewrite !testflag_PGOFF by reflexivity. now rewrite HW, HSW. }
  assert (Hwin : (fva <? VM_USERLO) || (fva >=? VM_USERHI) = false).
  { destruct (Z.ltb_spec fva VM_USERLO); [lia|].
    destruct (Z.geb_spec fva VM_USERHI); [lia|]. reflexivity. }
  unfold pmap_pagefault. cbv zeta. rewrite Hwin.
  rewrite walk_present by assumption.
  cbn [bind]. fold p. fold e. rewrite Hcond. fold f. fold perm'.
  rewrite (PGADDR_frame e : mem_pi2phys f = PGADDR e).
  split.
  - (* copy *)
    intros Hshared f' rest Hfl Hf' Hne Hnp.
    assert (Hbranch : (PGADDR e =? PTE_ZERO) || (refcount st f >? 1) = true).
    { destruct Hshared as [Hz | Hrc].
      - rewrite Hz, Z.eqb_refl. reflexivity.
      - destruct (Z.gtb_spec (refcount st f) 1); [|lia]. apply orb_true_r. }
    rewrite Hbranch.
    unfold cow_copy, mem_alloc. rewrite Hfl. cbv zeta.
    cbn [mem set_refcount memmove].
    assert (Hp_out : forall m, memmove_mem m (mem_pi2ptr f') (PGADDR e) PAGESIZE p = m p).
    { intros m. fold p e. apply memmove_page_out. congruence. }
    fold p. fold e. rewrite Hp_out. fold e.
    set (st3 := memmove (mem_pi2ptr f') (PGADDR e) PAGESIZE
                  (set_refcount f' 1
                     (mkState (mem st) (refcount st) rest (S (alloc_calls st)) (console st)))).
    change (mkState (memmove_mem (mem st) (mem_pi2ptr f') (PGADDR e) PAGESIZE) _ _ _ _)
      with st3.
    fold f.
    set (st4 := if negb (PGADDR e =? PTE_ZERO) then mem_decref f mem_free st3 else st3).
    assert (Hmem4 : mem st4 = memmove_mem (mem st) (mem_pi2ptr f') (PGADDR e) PAGESIZE).
    { unfold st4. destruct (negb (PGADDR e =? PTE_ZERO)); [rewrite decref_free_mem|]; reflexivity. }
    assert (Hrc4f' : refcount st4 f' = 1).
    { unfold st4. destruct (negb (PGADDR e =? PTE_ZERO)).
      - rewrite decref_free_refcount, upd_other by assumption.
        unfold st3. cbn [refcount memmove set_refcount]. apply upd_same.
      - unfold st3. cbn [refcount memmove set_refcount]. apply upd_same. }
    assert (Hrc4f : refcount st4 f
                    = if PGADDR e =? PTE_ZERO then refcount st f else refcount st f - 1).
    { unfold st4. destruct (PGADDR e =? PTE_ZERO); cbn [negb].
      - unfold st3. cbn [refcount memmove set_refcount]. apply upd_other. congruence.
      - rewrite decref_free_refcount, upd_same.
        unfold st3. cbn [refcount memmove set_refcount]. rewrite upd_other by congruence.
        reflexivity. }
    assert (Hfl4 : freelist st4 = rest).
    { unfold st4. destruct (Z.eqb_spec (PGADDR e) PTE_ZERO) as [Hz | Hnz]; cbn [negb].
      - reflexivity.
      - destruct Hshared as [? | Hrc]; [contradiction|].
        unfold mem_decref. cbv zeta.
        cbn [refcount set_refcount]. rewrite upd_same.
        unfold st3 at 1. cbn [refcount memmove set_refcount].
        rewrite upd_other by congruence.
        destruct (Z.eqb_spec (refcount st f - 1) 0); [lia|]. reflexivity. }
    clearbody st4. clear st3.
    cbn [bind]. rewrite mem_store, upd_same.
    assert (Hne_old : (mem_pi2phys f' =? e) = false).
    { apply Z.eqb_neq. intros Heq.
      unfold testflag in HSW. rewrite <- Heq in HSW.
      rewrite land_page_flags in HSW
        by (try apply pi2phys_aligned; unfold SYS_WRITE; lia).
      discriminate. }
    rewrite Hne_old. unfold assert. cbn [negb bind].
    rewrite mem_store, upd_same.
    assert (HPG : PGADDR (mem_pi2phys f') = mem_pi2phys f').
    { apply PGADDR_aligned; [unfold mem_pi2phys, PAGESIZE; lia | apply pi2phys_aligned]. }
    rewrite HPG.
    eexists. split; [reflexivity|].
    rewrite !mem_store, !refcount_store, !freelist_store, upd_same, Hmem4.
    repeat apply conj; try assumption; try reflexivity.
    + intros off Hoff. unfold PAGESIZE in Hoff.
      rewrite !upd_other.
      * unfold mem_pi2ptr. now apply memmove_page_in.
      * intros Heq. apply Hnp. rewrite <- Heq. symmetry. now apply phys2pi_in_frame.
      * intros Heq. apply Hnp. rewrite <- Heq. symmetry. now apply phys2pi_in_frame.
    + rewrite lor_page_flags by (try apply pi2phys_aligned; lia).
      apply (PGADDR_frame_flags f' perm'); lia.
    + rewrite Hflags; [assumption | apply pi2phys_aligned | unfold PTE_W; lia].
    + rewrite Hflags; [assumption | apply pi2phys_aligned | unfold PTE_P; lia].
    + rewrite Hflags; [assumption | apply pi2phys_aligned | unfold SYS_READ; lia].
    + rewrite Hflags; [assumption | apply pi2phys_aligned | unfold SYS_WRITE; lia].
  - (* sole owner *)
    intros Hnz Hrc.
    assert (Hbranch : (PGADDR e =? PTE_ZERO) || (refcount st f >? 1) = false).
    { destruct (Z.eqb_spec (PGADDR e) PTE_ZERO); [contradiction|].
      destruct (Z.gtb_spec (refcount st f) 1); [lia|]. reflexivity. }
    rewrite Hbranch. cbn [bind]. fold e.
    pose proof (PGADDR_range e) as [HPr HPa].
    eexists. split; [reflexivity|].
    rewrite !mem_store, upd_same.
    repeat apply conj; try reflexivity.
    + now apply PGADDR_lor_flags.
    + rewrite Hflags; [assumption | assumption | unfold PTE_W; lia].
    + rewrite Hflags; [assumption | assumption | unfold PTE_P; lia].
    + rewrite Hflags; [assumption | assumption | unfold SYS_READ; lia].
    + rewrite Hflags; [assumption | assumption | unfold SYS_WRITE; lia].
    + intros a Ha. now apply upd_other.
Qed.

End Pagefault.

(** C1, on the example machine: a write fault on a page shared by two
    address spaces moves the faulting slot to the free frame 0x300; a
    write fault on a page with a single owner keeps the frame. *)
Lemma pagefault_cow_witness :
  (exists st',
    pmap_pagefault (L := pios) ex_pd ex_va ex_tf
      (ex_mapped (Z.lor 0x400000 (Z.lor (Z.lor PTE_P PTE_U) SYS_RW)) [(0x400, 2)] [0x300])
    = Done (TrapReturn (set_trapno T_PGFLT ex_tf), st') /\
    refcount st' 0x300 = 1 /\ refcount st' 0x400 = 1 /\
    PGADDR (mem st' ex_pte) = 0x300000 /\
    testflag (mem st' ex_pte) PTE_W = true /\ testflag (mem st' ex_pte) PTE_P = true /\
    testflag (mem st' ex_pte) SYS_READ = false /\ testflag (mem st' ex_pte) SYS_WRITE = false) /\
  (exists st',
    pmap_pagefault (L := pios) ex_pd ex_va ex_tf
      (ex_mapped (Z.lor 0x400000 (Z.lor (Z.lor PTE_P PTE_U) SYS_RW)) [(0x400, 1)] [0x300])
    = Done (TrapReturn (set_trapno T_PGFLT ex_tf), st') /\
    PGADDR (mem st' ex_pte) = 0x400000 /\
    testflag (mem st' ex_pte) PTE_W = true /\ testflag (mem st' ex_pte) PTE_P = true /\
    testflag (mem st' ex_pte) SYS_READ = false /\ testflag (mem st' ex_pte) SYS_WRITE = false /\
    freelist st' = [0x300]).
Proof.
  assert (Hva : VM_USERLO (Layout := pios) <= ex_va < VM_USERHI (Layout := pios))
    by (vm_compute; split; [discriminate | reflexivity]).
  split.
  - pose (st := ex_mapped (Z.lor 0x400000 (Z.lor (Z.lor PTE_P PTE_U) SYS_RW))
                  [(0x400, 2)] [0x300]).
    destruct (pagefault_cow (L := pios) ex_pd ex_va ex_tf st pios_ok Hva
                ltac:(vm_compute; discriminate)
                ltac:(vm_compute; reflexivity) ltac:(vm_compute; reflexivity))
      as [Hcopy _].
    destruct (Hcopy ltac:(right; vm_compute; reflexivity) 0x300 []
                ltac:(reflexivity) ltac:(lia)
                ltac:(vm_compute; discriminate) ltac:(vm_compute; discriminate))
      as (st' & Hrun & _ & _ & Hnew & Hold & _ & Haddr & HW & HP & HR & HSW).
    exists st'. split; [exact Hrun|].
    split; [exact Hnew|]. split; [exact Hold|]. split; [exact Haddr|].
    split; [exact HW|]. split; [exact HP|]. split; [exact HR | exact HSW].
  - pose (st := ex_mapped (Z.lor 0x400000 (Z.lor (Z.lor PTE_P PTE_U) SYS_RW))
                  [(0x400, 1)] [0x300]).
    destruct (pagefault_cow (L := pios) ex_pd ex_va ex_tf st pios_ok Hva
                ltac:(vm_compute; discriminate)
                ltac:(vm_compute; reflexivity) ltac:(vm_compute; reflexivity))
      as [_ Hkeep].
    destruct (Hkeep ltac:(vm_compute; discriminate) ltac:(vm_compute; discriminate))
      as (st' & Hrun & _ & Haddr & HW & HP & HR & HSW & _ & _ & Hfl & _).
    exists st'. split; [exact Hrun|]. split; [exact Haddr|].
    split; [exact HW|]. split; [exact HP|]. split; [exact HR|].
    split; [exact HSW | exact Hfl].
Defined.

(* ================================================================== *)
(** ** Access to user memory from a system call                        *)
(* ================================================================== *)

Section UsercopyFacts.
Context {L : Layout}.

Lemma checkva_inside (utf : trapframe) (uva size : Z) :
  0 <= VM_USERLO -> VM_USERHI < 2 ^ 32 ->
  VM_USERLO <= uva < VM_USERHI -> uva + size <= VM_USERHI ->
  checkva utf uva size = Back tt.
Proof.
  intros Hlo Hhi Hw Hend. unfold checkva, wrap32.
  rewrite (Z.mod_small (VM_USERHI - uva)) by lia.
  destruct (Z.ltb_spec uva VM_USERLO); [lia|].
  destruct (Z.geb_spec uva VM_USERHI); [lia|].
  destruct (Z.gtb_spec size (VM_USERHI - uva)); [lia|].
  reflexivity.
Qed.

Lemma checkva_outside (utf : trapframe) (uva size : Z) :
  0 <= VM_USERLO -> VM_USERHI < 2 ^ 32 ->
  ~ (VM_USERLO <= uva < VM_USERHI /\ uva + size <= VM_USERHI) ->
  checkva utf uva size
  = ProcRet (mkTrapframe T_PGFLT 0 (tf_eip utf) (tf_cs utf) (tf_eflags utf) (tf_esp utf)) 0.
Proof.
  intros Hlo Hhi Hn. unfold checkva, systrap.
  destruct (Z.ltb_spec uva VM_USERLO); [reflexivity|].
  destruct (Z.geb_spec uva VM_USERHI); [reflexivity|].
  unfold wrap32. rewrite (Z.mod_small (VM_USERHI - uva)) by lia.
  destruct (Z.gtb_spec size (VM_USERHI - uva)); [reflexivity|].
  exfalso. apply Hn. lia.
Qed.

(** No access of the move traps exactly when the move sees no trap. *)
Lemma memmove_trap_none (n : nat) acc dst src off :
  memmove_trap n acc dst src off = None <->
  (forall k, 0 <= k < Z.of_nat n ->
     acc false (src + (off + k)) = None /\ acc true (dst + (off + k)) = None).
Proof.
  revert off. induction n as [|n IH]; intros off.
  - cbn [memmove_trap]. split; [intros _ k Hk; lia | reflexivity].
  - cbn [memmove_trap]. split.
    + intros H k Hk.
      destruct (acc false (src + off)) eqn:Er; [discriminate|].
      destruct (acc true (dst + off)) eqn:Ew; [discriminate|].
      destruct (Z.eq_dec k 0) as [-> | Hk0].
      * rewrite Z.add_0_r. split; assumption.
      * apply IH with (k := k - 1) in H; [|lia].
        replace (off + 1 + (k - 1)) with (off + k) in H by lia. exact H.
    + intros H. destruct (H 0 ltac:(lia)) as [Hr Hw].
      rewrite Z.add_0_r in Hr, Hw. rewrite Hr, Hw.
      apply IH. intros k Hk.
      replace (off + 1 + k) with (off + (k + 1)) by lia. apply H. lia.
Qed.

(** The trap that the move sees is the trap of one of its accesses. *)
Lemma memmove_trap_some (n : nat) acc dst src off ktf :
  memmove_trap n acc dst src off = Some ktf ->
  exists k, 0 <= k < Z.of_nat n /\
    (acc false (src + (off + k)) = Some ktf \/ acc true (dst + (off + k)) = Some ktf).
Proof.
  revert off. induction n as [|n IH]; intros off; cbn [memmove_trap]; [discriminate|].
  destruct (acc false (src + off)) eqn:Er.
  - intros H. exists 0. rewrite Z.add_0_r. split; [lia|]. left. congruence.
  - destruct (acc true (dst + off)) eqn:Ew.
    + intros H. exists 0. rewrite Z.add_0_r. split; [lia|]. right. congruence.
    + intros H. destruct (IH _ H) as (k & Hk & Hor).
      exists (k + 1). split; [lia|].
      replace (off + (k + 1)) with (off + 1 + k) by lia. exact Hor.
Qed.

Lemma memmove_mem_dst (m : Z -> Z) (dst src n off : Z) :
  0 <= off < n -> memmove_mem m dst src n (dst + off) = m (src + off).
Proof.
  intros H. unfold memmove_mem.
  destruct (Z.leb_spec dst (dst + off)); [|lia].
  destruct (Z.ltb_spec (dst + off) (dst + n)); [|lia].
  cbn [andb]. f_equal. lia.
Qed.

Lemma memmove_mem_other (m : Z -> Z) (dst src n x : Z) :
  ~ (dst <= x < dst + n) -> memmove_mem m dst src n x = m x.
Proof.
  intros H. unfold memmove_mem.
  destruct (Z.leb_spec dst x); destruct (Z.ltb_spec x (dst + n)); cbn [andb];
    try reflexivity; lia.
Qed.

(** [usercopy] past its range check, when no access of the move traps. *)
Lemma usercopy_clear (utf : trapframe) (copyout : bool) (kva uva size : Z) (cs : cstate) :
  0 <= size ->
  checkva utf uva size = Back tt ->
  (forall off, 0 <= off < size ->
     access cs false ((if copyout then kva else uva) + off) = None /\
     access cs true ((if copyout then uva else kva) + off) = None) ->
  usercopy utf copyout kva uva size cs
  = Back (mkCstate (recover cs) (Some utf)
            (memmove_mem (lmem cs) (if copyout then uva else kva)
               (if copyout then kva else uva) size)
            (access cs)).
Proof.
  intros Hsize Hchk Hclear. unfold usercopy. rewrite Hchk.
  assert (Hnone : memmove_trap (Z.to_nat size) (access cs)
                    (if copyout then uva else kva) (if copyout then kva else uva) 0 = None).
  { apply memmove_trap_none. intros k Hk. rewrite Z.add_0_l. apply Hclear. lia. }
  destruct copyout; unfold guarded_memmove; cbn [access recover recoverdata lmem];
    rewrite Hnone; reflexivity.
Qed.

(** [usercopy] past its range check, when some access of the move
    traps. *)
Lemma usercopy_trapped (utf : trapframe) (copyout : bool) (kva uva size : Z) (cs : cstate) :
  0 <= size ->
  checkva utf uva size = Back tt ->
  ~ (forall off, 0 <= off < size ->
       access cs false ((if copyout then kva else uva) + off) = None /\
       access cs true ((if copyout then uva else kva) + off) = None) ->
  exists ktf off,
    usercopy utf copyout kva uva size cs
    = ProcRet (mkTrapframe (tf_trapno ktf) (tf_err ktf)
                 (tf_eip utf) (tf_cs utf) (tf_eflags utf) (tf_esp utf)) 0 /\
    0 <= off < size /\
    (access cs false ((if copyout then kva else uva) + off) = Some ktf \/
     access cs true ((if copyout then uva else kva) + off) = Some ktf).
Proof.
  intros Hsize Hchk Hn. unfold usercopy. rewrite Hchk.
  destruct (memmove_trap (Z.to_nat size) (access cs)
              (if copyout then uva else kva) (if copyout then kva else uva) 0)
    as [ktf|] eqn:Etrap.
  - destruct (memmove_trap_some _ _ _ _ _ _ Etrap) as (k & Hk & Hor).
    rewrite Z.add_0_l in Hor.
    exists ktf, k. split; [|split; [lia | exact Hor]].
    destruct copyout; unfold guarded_memmove; cbn [access recover recoverdata lmem];
      rewrite Etrap; reflexivity.
  - exfalso. apply Hn. intros off Hoff.
    pose proof (proj1 (memmove_trap_none _ _ _ _ _) Etrap off ltac:(lia)) as H.
    rewrite Z.add_0_l in H. exact H.
Qed.


End UsercopyFacts.



(* ================================================================== *)
(** ** Three-way merge of one page                                     *)
(* ================================================================== *)

Lemma words_apart X Y k j :
  X mod 4096 = 0 -> Y mod 4096 = 0 ->
  0 <= j < 1024 -> 0 <= k < 1024 -> j <> k -> X + 4 * k <> Y + 4 * j.
Proof.
  intros HX HY Hj Hk Hjk Heq.
  pose proof (Z.div_mod X 4096 ltac:(lia)).
  pose proof (Z.div_mod Y 4096 ltac:(lia)).
  lia.
Qed.

Section MergeWords.
Context {L : Layout}.
Variables rpg spg dpg dpte : Z.
Hypothesis Hrpg : rpg mod 4096 = 0.
Hypothesis Hspg : spg mod 4096 = 0.
Hypothesis Hdpg : dpg mod 4096 = 0.
Hypothesis Hdpte : forall k, 0 <= k < 1024 -> dpg + 4 * k <> dpte.

(** Writing word [i] of the destination leaves the later words of all
    three pages as they were. *)
Lemma later_words_kept st i v k :
  0 <= i < 1024 -> i < k < 1024 ->
  word_at rpg (store (dpg + 4 * i) v st) k = word_at rpg st k /\
  word_at spg (store (dpg + 4 * i) v st) k = word_at spg st k /\
  word_at dpg (store (dpg + 4 * i) v st) k = word_at dpg st k.
Proof.
  intros Hi Hk. unfold word_at. rewrite !mem_store.
  repeat apply conj; apply upd_other; apply words_apart; auto; lia.
Qed.

Lemma merge_words_clean n : forall i st,
  0 <= i -> i + Z.of_nat n <= 1024 ->
  (forall k, i <= k < i + Z.of_nat n -> ~ word_conflict (word_at rpg st k) (word_at spg st k) (word_at dpg st k)) ->
  let st' := merge_words n i rpg spg dpg dpte st in
  (forall k, i <= k < i + Z.of_nat n ->
     mem st' (dpg + 4 * k) = merge_word (word_at rpg st k) (word_at spg st k) (word_at dpg st k)) /\
  (forall x, (forall k, i <= k < i + Z.of_nat n -> x <> dpg + 4 * k) ->
     mem st' x = mem st x) /\
  refcount st' = refcount st /\ freelist st' = freelist st /\
  console st' = console st /\ alloc_calls st' = alloc_calls st.
Proof.
  induction n as [|n IH]; intros i st Hi Hn Hclean.
  - cbn [merge_words]. repeat apply conj; try reflexivity. intros k Hk. lia.
  - cbn [merge_words]. cbv zeta.
    fold (word_at rpg st i) (word_at spg st i) (word_at dpg st i).
    assert (Hnoc : ~ word_conflict (word_at rpg st i) (word_at spg st i) (word_at dpg st i)) by (apply Hclean; lia).
    destruct (Z.eqb_spec (word_at rpg st i) (word_at spg st i)) as [Heq | Hneq]; cbn [negb].
    + destruct (IH (i + 1) st ltac:(lia) ltac:(lia)
                  ltac:(intros k Hk; apply Hclean; lia))
        as (Hw & Hfr & Hrest).
      repeat apply conj; try apply Hrest.
      * intros k Hk. destruct (Z.eq_dec k i) as [-> | Hki].
        -- rewrite Hfr by (intros k' Hk'; lia).
           unfold merge_word. now rewrite Heq, Z.eqb_refl.
        -- apply Hw. lia.
      * intros x Hx. apply Hfr. intros k Hk. apply Hx. lia.
    + assert (Hb : negb (word_at rpg st i =? word_at dpg st i) && negb (word_at spg st i =? word_at dpg st i) = false).
      { destruct (Z.eqb_spec (word_at rpg st i) (word_at dpg st i)); [reflexivity|].
        destruct (Z.eqb_spec (word_at spg st i) (word_at dpg st i)); [reflexivity|].
        exfalso. apply Hnoc. repeat split; assumption. }
      rewrite Hb.
      set (st2 := store (dpg + 4 * i) (word_at spg st i) st).
      assert (Hkeep : forall k, i < k < 1024 ->
                word_at rpg st2 k = word_at rpg st k /\ word_at spg st2 k = word_at spg st k /\ word_at dpg st2 k = word_at dpg st k).
      { intros k Hk. apply later_words_kept; lia. }
      destruct (IH (i + 1) st2 ltac:(lia) ltac:(lia)) as (Hw & Hfr & Hrest).
      { intros k Hk. destruct (Hkeep k ltac:(lia)) as (-> & -> & ->). apply Hclean. lia. }
      repeat apply conj; try apply Hrest.
      * intros k Hk. destruct (Z.eq_dec k i) as [-> | Hki].
        -- rewrite Hfr by (intros k' Hk'; lia).
           unfold st2. rewrite mem_store, upd_same.
           unfold merge_word. now destruct (Z.eqb_spec (word_at rpg st i) (word_at spg st i)).
        -- rewrite Hw by lia. now destruct (Hkeep k ltac:(lia)) as (-> & -> & ->).
      * intros x Hx. rewrite Hfr by (intros k Hk; apply Hx; lia).
        unfold st2. rewrite mem_store. apply upd_other. apply Hx. lia.
Qed.

Lemma merge_words_conflict n : forall i st c,
  0 <= i -> i + Z.of_nat n <= 1024 -> i <= c < i + Z.of_nat n ->
  word_conflict (word_at rpg st c) (word_at spg st c) (word_at dpg st c) ->
  (forall k, i <= k < c -> ~ word_conflict (word_at rpg st k) (word_at spg st k) (word_at dpg st k)) ->
  let st' := merge_words n i rpg spg dpg dpte st in
  let fr := mem_phys2pi (PGADDR (mem st dpte)) in
  (forall k, i <= k < c ->
     mem st' (dpg + 4 * k) = merge_word (word_at rpg st k) (word_at spg st k) (word_at dpg st k)) /\
  (forall x, x <> dpte -> (forall k, i <= k < c -> x <> dpg + 4 * k) ->
     mem st' x = mem st x) /\
  mem st' dpte = PTE_ZERO /\
  console st' = msg_conflict (word_at spg st c) (word_at rpg st c) (word_at dpg st c) :: console st /\
  refcount st' = upd (refcount st) fr (refcount st fr - 1) /\
  alloc_calls st' = alloc_calls st.
Proof.
  induction n as [|n IH]; intros i st c Hi Hn Hc Hconf Hclean; [lia|].
  cbn [merge_words]. cbv zeta.
  fold (word_at rpg st i) (word_at spg st i) (word_at dpg st i).
  destruct (Z.eq_dec c i) as [-> | Hci].
  - destruct Hconf as (Hrs & Hrd & Hsd).
    destruct (Z.eqb_spec (word_at rpg st i) (word_at spg st i)); [contradiction|].
    destruct (Z.eqb_spec (word_at rpg st i) (word_at dpg st i)); [contradiction|].
    destruct (Z.eqb_spec (word_at spg st i) (word_at dpg st i)); [contradiction|].
    cbn [negb andb].
    rewrite mem_store, refcount_store, console_store, alloc_calls_store.
    rewrite decref_free_mem, decref_free_refcount, decref_free_alloc_calls.
    repeat apply conj; try reflexivity.
    + intros k Hk. lia.
    + intros x Hx _. now apply upd_other.
    + apply upd_same.
    + unfold mem_decref. cbv zeta. now destruct (_ =? 0).
  - assert (Hnoc : ~ word_conflict (word_at rpg st i) (word_at spg st i) (word_at dpg st i)) by (apply Hclean; lia).
    destruct (Z.eqb_spec (word_at rpg st i) (word_at spg st i)) as [Heq | Hneq]; cbn [negb].
    + destruct (IH (i + 1) st c ltac:(lia) ltac:(lia) ltac:(lia) Hconf
                  ltac:(intros k Hk; apply Hclean; lia))
        as (Hw & Hfr & Hrest).
      repeat apply conj; try apply Hrest.
      * intros k Hk. destruct (Z.eq_dec k i) as [-> | Hki].
        -- rewrite Hfr; [| apply Hdpte; lia | intros k' Hk'; lia].
           unfold merge_word. now rewrite Heq, Z.eqb_refl.
        -- apply Hw. lia.
      * intros x Hx Hout. apply Hfr; [assumption|]. intros k Hk. apply Hout. lia.
    + assert (Hb : negb (word_at rpg st i =? word_at dpg st i) && negb (word_at spg st i =? word_at dpg st i) = false).
      { destruct (Z.eqb_spec (word_at rpg st i) (word_at dpg st i)); [reflexivity|].
        destruct (Z.eqb_spec (word_at spg st i) (word_at dpg st i)); [reflexivity|].
        exfalso. apply Hnoc. repeat split; assumption. }
      rewrite Hb.
      set (st2 := store (dpg + 4 * i) (word_at spg st i) st).
      assert (Hkeep : forall k, i < k < 1024 ->
                word_at rpg st2 k = word_at rpg st k /\ word_at spg st2 k = word_at spg st k /\ word_at dpg st2 k = word_at dpg st k).
      { intros k Hk. apply later_words_kept; lia. }
      assert (Hpte2 : mem st2 dpte = mem st dpte).
      { unfold st2. rewrite mem_store. apply upd_other.
        intros Heq. apply (Hdpte i); [lia | now symmetry]. }
      destruct (IH (i + 1) st2 c ltac:(lia) ltac:(lia) ltac:(lia))
        as (Hw & Hfr & Hz & Hcons & Hrc & Hac).
      { destruct (Hkeep c ltac:(lia)) as (-> & -> & ->). exact Hconf. }
      { intros k Hk. destruct (Hkeep k ltac:(lia)) as (-> & -> & ->). apply Hclean. lia. }
      destruct (Hkeep c ltac:(lia)) as (Hrc' & Hsc' & Hdc').
      rewrite Hrc', Hsc', Hdc' in Hcons. rewrite Hpte2 in Hrc.
      repeat apply conj; try assumption.
      * intros k Hk. destruct (Z.eq_dec k i) as [-> | Hki].
        -- rewrite Hfr; [| apply Hdpte; lia | intros k' Hk'; lia].
           unfold st2. rewrite mem_store, upd_same.
           unfold merge_word. now destruct (Z.eqb_spec (word_at rpg st i) (word_at spg st i)).
        -- rewrite Hw by lia. now destruct (Hkeep k ltac:(lia)) as (-> & -> & ->).
      * intros x Hx Hout. rewrite Hfr; [| assumption | intros k Hk; apply Hout; lia].
        unfold st2. rewrite mem_store. apply upd_other. apply Hout. lia.
Qed.

End MergeWords.

Section Mergepage.
Context {L : Layout}.

(** C5.  Per-page merge, once the destination has been made private
    ([st1]).  Words are taken in order.  Up to the first word whose
    three values are pairwise distinct: where reference and source
    agree the destination word is kept; where the destination agrees
    with the reference but not with the source it receives the source
    word (and where it already agrees with the source it stays).  At
    the first pairwise-distinct word the warning is logged, with the
    format of the source and the three values in its order (source,
    reference, destination); the destination frame loses a reference,
    the destination PTE becomes [PTE_ZERO], and the words from there
    on are left as they were. *)
Theorem mergepage_words (rpte spte dpte dva : Z) (st st1 : kstate) :
  merge_unshare dpte st = Done st1 ->
  let rpg := PGADDR (mem st1 rpte) in
  let spg := PGADDR (mem st1 spte) in
  let dpg := PGADDR (mem st1 dpte) in
  let r k := mem st1 (rpg + 4 * k) in
  let s k := mem st1 (spg + 4 * k) in
  let d k := mem st1 (dpg + 4 * k) in
  (forall k, 0 <= k < 1024 -> dpg + 4 * k <> dpte) ->
  exists st',
    pmap_mergepage rpte spte dpte dva st = Done st' /\
    ((forall k, 0 <= k < 1024 -> ~ word_conflict (r k) (s k) (d k)) ->
     (forall k, 0 <= k < 1024 ->
        (r k = s k -> mem st' (dpg + 4 * k) = d k) /\
        (d k = r k -> d k <> s k -> mem st' (dpg + 4 * k) = s k) /\
        (d k = s k -> mem st' (dpg + 4 * k) = d k)) /\
     mem st' dpte = mem st1 dpte /\
     console st' = console st1 /\ refcount st' = refcount st1) /\
    (forall c, 0 <= c < 1024 ->
     word_conflict (r c) (s c) (d c) ->
     (forall k, 0 <= k < c -> ~ word_conflict (r k) (s k) (d k)) ->
     (forall k, 0 <= k < c ->
        (r k = s k -> mem st' (dpg + 4 * k) = d k) /\
        (d k = r k -> d k <> s k -> mem st' (dpg + 4 * k) = s k) /\
        (d k = s k -> mem st' (dpg + 4 * k) = d k)) /\
     (forall k, c <= k < 1024 -> mem st' (dpg + 4 * k) = d k) /\
     console st' = Msg "pmap_mergepage: conflicting write: %x %x %x" [s c; r c; d c]
                   :: console st1 /\
     refcount st' (mem_phys2pi dpg) = refcount st1 (mem_phys2pi dpg) - 1 /\
     mem st' dpte = PTE_ZERO).
Proof.
  intros Hun rpg spg dpg r s d Hdpte.
  assert (Hmw : forall r s d,
            (r = s -> merge_word r s d = d) /\
            (d = r -> d <> s -> merge_word r s d = s) /\
            (d = s -> merge_word r s d = d)).
  { intros r0 s0 d0. unfold merge_word.
    destruct (Z.eqb_spec r0 s0); repeat split; intros; congruence. }
  unfold pmap_mergepage. rewrite Hun. cbn [bind].
  fold rpg spg dpg.
  exists (merge_words nptentries 0 rpg spg dpg dpte st1).
  split; [reflexivity|].
  pose proof (proj2 (PGADDR_range (mem st1 rpte))) as Hr.
  pose proof (proj2 (PGADDR_range (mem st1 spte))) as Hs.
  pose proof (proj2 (PGADDR_range (mem st1 dpte))) as Hd.
  fold rpg in Hr. fold spg in Hs. fold dpg in Hd.
  split.
  - intros Hclean.
    destruct (merge_words_clean rpg spg dpg dpte Hr Hs Hd nptentries 0 st1
                ltac:(lia) ltac:(rewrite nptentries_Z; lia))
      as (Hw & Hfr & Hrc & _ & Hcons & _).
    { intros k Hk. rewrite nptentries_Z in Hk. apply Hclean. lia. }
    repeat apply conj; try assumption.
    + intros k Hk. rewrite Hw by (rewrite nptentries_Z; lia). apply Hmw.
    + apply Hfr. intros k Hk Heq. rewrite nptentries_Z in Hk.
      apply (Hdpte k); [lia | now symmetry].
  - intros c Hc Hconf Hclean.
    destruct (merge_words_conflict rpg spg dpg dpte Hr Hs Hd Hdpte nptentries 0 st1 c
                ltac:(lia) ltac:(rewrite nptentries_Z; lia)
                ltac:(rewrite nptentries_Z; lia) Hconf
                ltac:(intros k Hk; apply Hclean; lia))
      as (Hw & Hfr & Hz & Hcons & Hrc & _).
    repeat apply conj; try assumption.
    + intros k Hk. rewrite Hw by lia. apply Hmw.
    + intros k Hk. apply Hfr.
      * apply Hdpte. lia.
      * intros k' Hk'. apply words_apart; auto; lia.
    + rewrite Hrc. fold dpg. apply upd_same.
Qed.

End Mergepage.

(** C5, on three example pages: words 0 and 1 changed at the source
    only and are taken over; word 2 changed on both sides, so the
    page is dropped with a warning. *)
Lemma mergepage_words_witness :
  exists st',
    pmap_mergepage (L := pios) ex_rpte ex_spte ex_dpte ex_va ex_merge = Done st' /\
    mem st' 0x602000 = 0xA /\ mem st' 0x602004 = 0xA /\ mem st' 0x602008 = 0xB /\
    console st' = [Msg "pmap_mergepage: conflicting write: %x %x %x" [0xC; 0; 0xB]] /\
    refcount st' 0x602 = 0 /\
    mem st' ex_dpte = PTE_ZERO (Layout := pios).
Proof.
  assert (Hun : merge_unshare (L := pios) ex_dpte ex_merge = Done ex_merge) by (vm_compute; reflexivity).
  assert (Hdpg : PGADDR (mem ex_merge ex_dpte) = 0x602000) by (vm_compute; reflexivity).
  assert (Hdpte : forall k, 0 <= k < 1024 -> PGADDR (mem ex_merge ex_dpte) + 4 * k <> ex_dpte).
  { intros k Hk. rewrite Hdpg. unfold ex_dpte. lia. }
  destruct (mergepage_words (L := pios) ex_rpte ex_spte ex_dpte ex_va ex_merge ex_merge
              Hun Hdpte) as (st' & Hrun & _ & Hconf).
  destruct (Hconf 2 ltac:(lia)) as (Hw & Hrest & Hcons & Hrc & Hz).
  { vm_compute. repeat split; discriminate. }
  { intros k Hk. assert (Hk' : k = 0 \/ k = 1) by lia.
    destruct Hk' as [-> | ->]; vm_compute; intros (_ & H & _); now apply H. }
  exists st'. split; [exact Hrun|].
  pose proof (proj1 (proj2 (Hw 0 ltac:(lia))) ltac:(vm_compute; reflexivity)
                ltac:(vm_compute; discriminate)) as H0.
  pose proof (proj1 (proj2 (Hw 1 ltac:(lia))) ltac:(vm_compute; reflexivity)
                ltac:(vm_compute; discriminate)) as H1.
  pose proof (Hrest 2 ltac:(lia)) as H2.
  vm_compute in H0, H1, H2, Hcons, Hrc.
  repeat apply conj; assumption.
Defined.

(* ================================================================== *)
(** ** Unmapping                                                       *)
(* ================================================================== *)

Lemma bind_Done_r {A} (c : outcome A) : bind c Done = c.
Proof. now destruct c. Qed.

Lemma wrap32_small x : 0 <= x < 2 ^ 32 -> wrap32 x = x.
Proof. intros H. unfold wrap32. now apply Z.mod_small. Qed.

(** C2.  A slot that holds nominal permissions over the zero frame
    (here [SYS_READ] with P and U, as the permission loop of [do_put]
    leaves it) survives [pmap_remove]: the head and tail loops look at
    the frame address only, find the zero frame and skip the slot, so
    the entry is not reset to [PTE_ZERO] (the comment of [pmap_remove]
    says the nominal permissions are cleared as well). *)
Theorem remove_keeps_nominal_zero_slot :
  let e := Z.lor (PTE_ZERO (Layout := pios)) (Z.lor SYS_READ (Z.lor PTE_P PTE_U)) in
  match pmap_remove (L := pios) ex_pd ex_va PAGESIZE (ex_mapped e [] []) with
  | Done st' => mem st' ex_pte = e /\ mem st' ex_pte <> PTE_ZERO (Layout := pios)
  | _ => False
  end.
Proof. vm_compute. split; [reflexivity | discriminate]. Qed.

Section Remove.
Context {L : Layout}.
Hypothesis Hok : layout_ok L.

Lemma PTE_ZERO_fixed : PGADDR PTE_ZERO = PTE_ZERO.
Proof.
  destruct Hok as (_ & _ & _ & _ & _ & Hz & Hza).
  apply PGADDR_aligned; assumption.
Qed.

Lemma remove_page_mapped pdir va st :
  VM_USERLO <= va < VM_USERHI ->
  mem st (pdir + 4 * PDX va) <> PTE_ZERO ->
  let p := PGADDR (mem st (pdir + 4 * PDX va)) + 4 * PTX va in
  PGADDR (mem st p) <> PTE_ZERO ->
  remove_page pdir va st
  = Done (store p PTE_ZERO (mem_decref (mem_phys2pi (PGADDR (mem st p))) mem_free st)).
Proof.
  intros Hva Hpde p Hp. unfold remove_page. cbv zeta.
  destruct (Z.eqb_spec (mem st (pdir + 4 * PDX va)) PTE_ZERO); [contradiction|].
  rewrite walk_present by assumption. cbn [bind]. fold p.
  now destruct (Z.eqb_spec (PGADDR (mem st p)) PTE_ZERO).
Qed.

(** Removing one page runs the loop body once, in the head loop or in
    the tail loop according to the alignment of [va]. *)
Lemma remove_one_page pdir va st :
  VM_USERLO <= va < VM_USERHI -> va mod PAGESIZE = 0 ->
  pmap_remove pdir va PAGESIZE st = remove_page pdir va st.
Proof.
  intros Hva Hal.
  destruct Hok as (Hlo & Hlohi & Hhi & Hloal & Hhial & Hz & Hza).
  unfold PTSIZE, PAGESIZE, NPTENTRIES in *.
  change (4096 * 1024) with 4194304 in *.
  divmod va 4096. divmod va 4194304. divmod VM_USERHI 4194304.
  divmod (va + 4096) 4194304. divmod (va + 4194304 - 1) 4194304.
  unfold pmap_remove, assert.
  change (PGOFF 4096 =? 0) with true. cbv iota.
  destruct (Z.leb_spec VM_USERLO va); [|lia].
  destruct (Z.ltb_spec va VM_USERHI); [|lia].
  cbn [andb].
  rewrite (wrap32_small (VM_USERHI - va)) by lia.
  destruct (Z.leb_spec 4096 (VM_USERHI - va)); [|lia].
  rewrite PGOFF_mod, Hal, Z.eqb_refl.
  cbv zeta.
  rewrite (wrap32_small (va + 4096)) by lia.
  change (S (Z.to_nat (4096 / PAGESIZE))) with 2%nat.
  assert (Hbulk : forall st', remove_bulk 2 pdir (va + 4096) (va + 4096) st'
                              = Done (va + 4096, st')).
  { intros st'. cbn [remove_bulk]. unfold PTSIZE, PAGESIZE, NPTENTRIES, ROUNDDOWN.
      change (4096 * 1024) with 4194304.
    rewrite (wrap32_small (va + 4096 + 4194304)) by lia.
    destruct (Z.leb_spec (va + 4096 + 4194304)
                (va + 4096 - (va + 4096) mod 4194304)); [lia|]. reflexivity. }
  assert (Htail : forall f st', remove_tail f pdir (va + 4096) (va + 4096) st'
                                = Done (va + 4096, st')).
  { intros f st'. destruct f; cbn [remove_tail]; now rewrite Z.ltb_irrefl. }
  destruct (Z.eq_dec (va mod 4194304) 0) as [Hpt | Hnpt].
  - (* [va] starts a page table: the tail loop does the work *)
    assert (Hhead : remove_head 2 pdir va (va + 4096) st = Done (va, st)).
    { cbn [remove_head]. unfold ROUNDUP, ROUNDDOWN, PTSIZE, PAGESIZE, NPTENTRIES.
      change (4096 * 1024) with 4194304.
      rewrite (wrap32_small (va + 4194304 - 1)) by lia.
      destruct (Z.ltb_spec va (va + 4194304 - 1 - (va + 4194304 - 1) mod 4194304));
        [lia | reflexivity]. }
    rewrite Hhead. cbn [bind].
    assert (Hb : remove_bulk 2 pdir va (va + 4096) st = Done (va, st)).
    { cbn [remove_bulk]. unfold PTSIZE, PAGESIZE, NPTENTRIES, ROUNDDOWN.
      change (4096 * 1024) with 4194304.
      rewrite (wrap32_small (va + 4194304)) by lia.
      destruct (Z.leb_spec (va + 4194304)
                  (va + 4096 - (va + 4096) mod 4194304)); [lia|]. reflexivity. }
    rewrite Hb. cbn [bind remove_tail].
    destruct (Z.ltb_spec va (va + 4096)); [|lia].
    unfold PAGESIZE. rewrite (wrap32_small (va + 4096)) by lia.
    destruct (remove_page pdir va st) as [st1| | |]; cbn [bind]; try reflexivity.
    now rewrite Z.ltb_irrefl.
  - (* otherwise the head loop does *)
    cbn [remove_head]. unfold ROUNDUP, ROUNDDOWN, PTSIZE, PAGESIZE, NPTENTRIES.
      change (4096 * 1024) with 4194304.
    rewrite (wrap32_small (va + 4194304 - 1)) by lia.
    destruct (Z.ltb_spec va (va + 4194304 - 1 - (va + 4194304 - 1) mod 4194304));
      [|lia].
    destruct (Z.ltb_spec va (va + 4096)); [|lia].
    cbn [andb]. rewrite (wrap32_small (va + 4096)) by lia.
    rewrite (Z.ltb_irrefl (va + 4096)), andb_false_r.
    destruct (remove_page pdir va st) as [st1| | |]; cbn [bind]; try reflexivity.
    fold PAGESIZE NPTENTRIES PTSIZE.
    change (PAGESIZE) with 4096 at 1.
    rewrite Hbulk. cbn [bind]. now rewrite Htail.
Qed.

(** C3.  Inserting a frame at the slot that already maps it: the
    count is raised before the old mapping is removed, so the removal
    brings it back to its old value without passing through zero; the
    frame is not put on the free list, no frame is allocated, and the
    slot holds the frame with the new permissions.  This holds even
    when the slot was the only reference ([refcount st pi = 1]).  The
    frame is an ordinary one: the zero frame is not counted. *)
Theorem insert_same_frame (pdir pi va perm : Z) (st : kstate) :
  VM_USERLO <= va < VM_USERHI -> va mod PAGESIZE = 0 ->
  mem st (pdir + 4 * PDX va) <> PTE_ZERO ->
  let p := PGADDR (mem st (pdir + 4 * PDX va)) + 4 * PTX va in
  PGADDR (mem st p) = mem_pi2phys pi ->
  mem_pi2phys pi <> PTE_ZERO ->
  1 <= refcount st pi ->
  exists st',
    pmap_insert pdir pi va perm st = Done (Some p, st') /\
    refcount st' pi = refcount st pi /\
    (forall q, refcount st' q = refcount st q) /\
    freelist st' = freelist st /\
    alloc_calls st' = alloc_calls st /\
    mem st' p = Z.lor (Z.lor (mem_pi2phys pi) perm) PTE_P.
Proof.
  intros Hva Hal Hpde p Hmap Hnz Hrc.
  assert (Hpte : mem st p <> PTE_ZERO).
  { intros Heq. apply Hnz. rewrite <- Hmap, Heq. apply PTE_ZERO_fixed. }
  unfold pmap_insert. rewrite walk_present by assumption. cbn [bind]. fold p.
  set (st2 := mem_incref pi st).
  assert (Hmem2 : mem st2 = mem st) by reflexivity.
  rewrite Hmem2.
  destruct (Z.eqb_spec (mem st p) PTE_ZERO); [contradiction|]. cbn [negb].
  rewrite remove_one_page by assumption.
  rewrite remove_page_mapped;
    rewrite ?Hmem2; fold p; rewrite ?Hmap; try assumption.
  rewrite phys2pi_pi2phys. cbn [bind].
  assert (Hdec : mem_decref pi mem_free st2 = set_refcount pi (refcount st pi) st2).
  { assert (Hrc2 : refcount st2 pi = refcount st pi + 1).
    { unfold st2. cbn [mem_incref set_refcount refcount]. apply upd_same. }
    unfold mem_decref. cbv zeta. cbn [set_refcount refcount].
    rewrite upd_same, Hrc2.
    replace (refcount st pi + 1 - 1) with (refcount st pi) by lia.
    destruct (Z.eqb_spec (refcount st pi) 0); [lia|]. reflexivity. }
  rewrite Hdec.
  eexists. split; [reflexivity|].
  rewrite !mem_store, !refcount_store, !freelist_store, !alloc_calls_store, upd_same.
  unfold st2. cbn [mem_incref set_refcount refcount freelist alloc_calls].
  repeat apply conj; try reflexivity.
  - apply upd_same.
  - intros q. destruct (Z.eq_dec q pi) as [-> | Hq].
    + apply upd_same.
    + now rewrite !upd_other.
Qed.

End Remove.

(** C3, on the example machine: frame 0x400 is mapped once, at
    [ex_va]; inserting it there again keeps its count at 1. *)
Lemma insert_same_frame_witness :
  exists st',
    pmap_insert (L := pios) ex_pd 0x400 ex_va PTE_U
      (ex_mapped (Z.lor 0x400000 (Z.lor PTE_P PTE_W)) [(0x400, 1)] [])
    = Done (Some ex_pte, st') /\
    refcount st' 0x400 = 1 /\ freelist st' = [].
Proof.
  pose (st := ex_mapped (Z.lor 0x400000 (Z.lor PTE_P PTE_W)) [(0x400, 1)] []).
  assert (Hva : VM_USERLO (Layout := pios) <= ex_va < VM_USERHI (Layout := pios))
    by (vm_compute; split; [discriminate | reflexivity]).
  destruct (insert_same_frame (L := pios) pios_ok ex_pd 0x400 ex_va PTE_U st Hva
              ltac:(vm_compute; reflexivity) ltac:(vm_compute; discriminate)
              ltac:(vm_compute; reflexivity) ltac:(vm_compute; discriminate)
              ltac:(vm_compute; discriminate))
    as (st' & Hrun & Hrc & _ & Hfl & _).
  exists st'. split; [exact Hrun|]. split; [exact Hrc | exact Hfl].
Defined.

(* ================================================================== *)
(** ** What unmapping leaves alone                                     *)
(* ================================================================== *)

Lemma slot_eq X Y i j :
  X mod 4096 = 0 -> Y mod 4096 = 0 -> 0 <= i < 1024 -> 0 <= j < 1024 ->
  X + 4 * i = Y + 4 * j -> X = Y /\ i = j.
Proof.
  intros HX HY Hi Hj Heq. divmod X 4096. divmod Y 4096. lia.
Qed.

(** Two 32-bit addresses with the same directory and table index lie
    in the same page. *)
Lemma same_page v w :
  0 <= v < 2 ^ 32 -> 0 <= w < 2 ^ 32 ->
  PDX v = PDX w -> PTX v = PTX w -> v / 4096 = w / 4096.
Proof.
  rewrite !PDX_eq, !PTX_eq. intros Hv Hw Hd Ht.
  divmod v 4096. divmod w 4096.
  assert (Hq : forall x, 0 <= x < 2 ^ 32 ->
            x / 4096 = 1024 * (x / 4194304) + (x / 4096) mod 1024 /\
            0 <= x / 4194304 < 1024).
  { intros x Hx. divmod x 4096. divmod x 4194304. divmod (x / 4096) 1024.
    assert (x / 4194304 = x / 4096 / 1024) as ->
      by (rewrite Z.div_div by lia; reflexivity).
    lia. }
  destruct (Hq v Hv) as [Hv1 Hv2]. destruct (Hq w Hw) as [Hw1 Hw2].
  rewrite (Z.mod_small (v / 4194304)), (Z.mod_small (w / 4194304)) in Hd by lia.
  lia.
Qed.

Section RemoveFrame.
Context {L : Layout}.
Hypothesis Hok : layout_ok L.

Lemma freeptab_entries_frame n base st :
  mem (freeptab_entries n base st) = mem st /\
  alloc_calls (freeptab_entries n base st) = alloc_calls st.
Proof.
  induction n as [|n [IHm IHa]]; [split; reflexivity|].
  cbn [freeptab_entries]. cbv zeta.
  destruct (_ =? PTE_ZERO); [now split|].
  now rewrite decref_free_mem, decref_free_alloc_calls.
Qed.

Lemma decref_freeptab_frame pi st :
  mem (mem_decref pi pmap_freeptab st) = mem st /\
  alloc_calls (mem_decref pi pmap_freeptab st) = alloc_calls st.
Proof.
  unfold mem_decref. cbv zeta. destruct (_ =? 0); [|now split].
  unfold pmap_freeptab.
  destruct (freeptab_entries_frame nptentries (mem_pi2ptr pi)
              (set_refcount pi (refcount st pi - 1) st)) as [Hm Ha].
  generalize dependent (freeptab_entries nptentries (mem_pi2ptr pi)
                          (set_refcount pi (refcount st pi - 1) st)).
  intros st1 Hm Ha. split; [exact Hm | exact Ha].
Qed.

Variables (pdir va0 top : Z) (st0 : kstate).
Hypothesis Hva0 : VM_USERLO <= va0.
Hypothesis Htop : top <= VM_USERHI.

Lemma remove_page_ok v cur :
  remove_inv L st0 pdir va0 top cur -> va0 <= v < top ->
  exists cur', remove_page pdir v cur = Done cur' /\ remove_inv L st0 pdir va0 top cur'.
Proof.
  intros [Hac Hmem] Hv. unfold remove_page. cbv zeta.
  destruct (Z.eqb_spec (mem cur (pdir + 4 * PDX v)) PTE_ZERO) as [Hz | Hnz].
  { eexists. split; [reflexivity | now split]. }
  rewrite walk_present by (assumption || lia). cbn [bind].
  destruct (Z.eqb_spec (PGADDR (mem cur (PGADDR (mem cur (pdir + 4 * PDX v)) + 4 * PTX v)))
              PTE_ZERO) as [Hfz | Hfnz].
  { eexists. split; [reflexivity | now split]. }
  eexists. split; [reflexivity|].
  assert (Hsame : mem cur (pdir + 4 * PDX v) = mem st0 (pdir + 4 * PDX v)).
  { destruct (Hmem (pdir + 4 * PDX v)) as [? | [? _]]; [assumption | contradiction]. }
  split.
  - now rewrite alloc_calls_store, decref_free_alloc_calls.
  - intros x. rewrite mem_store, decref_free_mem.
    destruct (Z.eq_dec x (PGADDR (mem cur (pdir + 4 * PDX v)) + 4 * PTX v)) as [-> | Hx].
    + right. rewrite upd_same. split; [reflexivity|].
      right. exists v. unfold pte_slot, pde_slot.
      rewrite <- Hsame. auto.
    + rewrite upd_other by assumption. apply Hmem.
Qed.

Lemma remove_ptab_ok v cur :
  remove_inv L st0 pdir va0 top cur -> va0 <= v -> v + PTSIZE <= top -> v mod PTSIZE = 0 ->
  remove_inv L st0 pdir va0 top (remove_ptab pdir v cur).
Proof.
  intros [Hac Hmem] Hv Hvt Hal. unfold remove_ptab. cbv zeta.
  destruct (Z.eqb_spec (mem cur (pdir + 4 * PDX v)) PTE_ZERO) as [Hz | Hnz].
  { now split. }
  destruct (decref_freeptab_frame
              (mem_phys2pi (PGADDR (mem cur (pdir + 4 * PDX v)))) cur) as [Hm Ha].
  split.
  - now rewrite alloc_calls_store, Ha.
  - intros x. rewrite mem_store, Hm.
    destruct (Z.eq_dec x (pdir + 4 * PDX v)) as [-> | Hx].
    + right. rewrite upd_same. split; [reflexivity|].
      left. exists v. unfold pde_slot. auto.
    + rewrite upd_other by assumption. apply Hmem.
Qed.

(** For the page loops the end of the range is page aligned. *)
Hypothesis Htopal : top mod 4096 = 0.

Lemma remove_head_ok fuel : forall v cur,
  remove_inv L st0 pdir va0 top cur -> va0 <= v <= top -> v mod 4096 = 0 ->
  top - v < 4096 * Z.of_nat fuel ->
  exists v' cur',
    remove_head fuel pdir v top cur = Done (v', cur') /\ remove_inv L st0 pdir va0 top cur' /\
    v <= v' <= top /\ v' mod 4096 = 0 /\ (v' = top \/ v' mod 4194304 = 0).
Proof.
  destruct Hok as (Hlo & Hlohi & Hhi & Hloal & Hhial & Hz & Hza).
  unfold PTSIZE, PAGESIZE, NPTENTRIES in *. change (4096 * 1024) with 4194304 in *.
  induction fuel as [|f IH]; intros v cur Hw Hv Hal Hfuel; [lia|].
  cbn [remove_head]. unfold ROUNDUP, ROUNDDOWN, PTSIZE, PAGESIZE, NPTENTRIES.
  change (4096 * 1024) with 4194304.
  rewrite (wrap32_small (v + 4194304 - 1)) by lia.
  divmod v 4096. divmod top 4096. divmod v 4194304. divmod (v + 4194304 - 1) 4194304.
  destruct (Z.ltb_spec v (v + 4194304 - 1 - (v + 4194304 - 1) mod 4194304)) as [Hru | Hru];
    destruct (Z.ltb_spec v top) as [Hlt | Hge]; cbn [andb];
    try (exists v, cur; loop_done).
  destruct (remove_page_ok v cur Hw ltac:(lia)) as (cur1 & Hrun & Hw1).
  rewrite Hrun. cbn [bind]. rewrite (wrap32_small (v + 4096)) by lia.
  destruct (IH (v + 4096) cur1 Hw1 ltac:(lia)) as (v' & cur' & Hrun' & Hw' & Hv' & Hal' & Hend).
  { rewrite Z.add_mod, Hal by lia. reflexivity. }
  { lia. }
  exists v', cur'. loop_done.
Qed.

Lemma remove_bulk_ok fuel : forall v cur,
  remove_inv L st0 pdir va0 top cur -> va0 <= v <= top -> v mod 4096 = 0 ->
  (v = top \/ v mod 4194304 = 0) ->
  top - v < 4096 * Z.of_nat fuel ->
  exists v' cur',
    remove_bulk fuel pdir v top cur = Done (v', cur') /\ remove_inv L st0 pdir va0 top cur' /\
    v <= v' <= top /\ v' mod 4096 = 0.
Proof.
  destruct Hok as (Hlo & Hlohi & Hhi & Hloal & Hhial & Hz & Hza).
  unfold PTSIZE, PAGESIZE, NPTENTRIES in *. change (4096 * 1024) with 4194304 in *.
  induction fuel as [|f IH]; intros v cur Hw Hv Hal Hpt Hfuel; [lia|].
  cbn [remove_bulk]. unfold ROUNDDOWN, PTSIZE, PAGESIZE, NPTENTRIES.
  change (4096 * 1024) with 4194304.
  rewrite (wrap32_small (v + 4194304)), (wrap32_small (top - v)) by lia.
  divmod top 4194304.
  destruct (Z.leb_spec (v + 4194304) (top - top mod 4194304)) as [Hle | Hgt];
    [| exists v, cur; loop_done].
  destruct (Z.geb_spec (top - v) 4194304) as [Hge | Hlt];
    [| exists v, cur; loop_done].
  assert (Hpt' : v mod 4194304 = 0) by (destruct Hpt; [lia | assumption]).
  pose proof (remove_ptab_ok v cur Hw ltac:(lia) ltac:(unfold PTSIZE, PAGESIZE, NPTENTRIES; lia)
                ltac:(exact Hpt')) as Hw1.
  destruct (IH (v + 4194304) (remove_ptab pdir v cur) Hw1 ltac:(lia))
    as (v' & cur' & Hrun' & Hw' & Hv' & Hal').
  { divmod v 4096. rewrite Z.add_mod, Hal by lia. reflexivity. }
  { right. rewrite Z.add_mod, Hpt' by lia. reflexivity. }
  { lia. }
  exists v', cur'. loop_done.
Qed.

Lemma remove_tail_ok fuel : forall v cur,
  remove_inv L st0 pdir va0 top cur -> va0 <= v <= top -> v mod 4096 = 0 ->
  top - v < 4096 * Z.of_nat fuel ->
  exists v' cur',
    remove_tail fuel pdir v top cur = Done (v', cur') /\ remove_inv L st0 pdir va0 top cur'.
Proof.
  destruct Hok as (Hlo & Hlohi & Hhi & Hloal & Hhial & Hz & Hza).
  unfold PTSIZE, PAGESIZE, NPTENTRIES in *. change (4096 * 1024) with 4194304 in *.
  induction fuel as [|f IH]; intros v cur Hw Hv Hal Hfuel; [lia|].
  cbn [remove_tail]. unfold PAGESIZE.
  divmod v 4096. divmod top 4096.
  destruct (Z.ltb_spec v top) as [Hlt | Hge];
    [| exists v, cur; split; [reflexivity | assumption]].
  destruct (remove_page_ok v cur Hw ltac:(lia)) as (cur1 & Hrun & Hw1).
  rewrite Hrun. cbn [bind]. rewrite (wrap32_small (v + 4096)) by lia.
  apply (IH (v + 4096) cur1 Hw1); [lia | | lia].
  rewrite Z.add_mod, Hal by lia. reflexivity.
Qed.

End RemoveFrame.

Section RemoveTheorem.
Context {L : Layout}.
Hypothesis Hok : layout_ok L.

Lemma PDX_small v : 0 <= v < 2 ^ 32 -> PDX v = v / 4194304.
Proof.
  intros Hv. rewrite PDX_eq. apply Z.mod_small.
  split; [apply Z.div_pos; lia | apply Z.div_lt_upper_bound; lia].
Qed.

(** [pmap_remove] runs to completion within its loop budget and keeps
    the invariant. *)
Lemma remove_runs pdir va size st :
  VM_USERLO <= va < VM_USERHI -> va mod PAGESIZE = 0 ->
  size mod PAGESIZE = 0 -> 0 <= size <= VM_USERHI - va ->
  exists st', pmap_remove pdir va size st = Done st' /\
              remove_inv L st pdir va (va + size) st'.
Proof.
  intros Hva Hal Hsal Hsize.
  pose proof Hok as (Hlo & Hlohi & Hhi & Hloal & Hhial & Hz & Hza).
  unfold PTSIZE, PAGESIZE, NPTENTRIES in *. change (4096 * 1024) with 4194304 in *.
  divmod va 4096. divmod size 4096.
  unfold pmap_remove, assert.
  rewrite !PGOFF_mod, Hal, Hsal, !Z.eqb_refl.
  destruct (Z.leb_spec VM_USERLO va); [|lia].
  destruct (Z.ltb_spec va VM_USERHI); [|lia].
  cbn [andb]. rewrite (wrap32_small (VM_USERHI - va)) by lia.
  destruct (Z.leb_spec size (VM_USERHI - va)); [|lia].
  cbv zeta. rewrite (wrap32_small (va + size)) by lia.
  unfold PAGESIZE.
  set (fuel := S (Z.to_nat (size / 4096))).
  assert (Hfuel : size < 4096 * Z.of_nat fuel) by (unfold fuel; lia).
  assert (Htop : (va + size) mod 4096 = 0).
  { rewrite Z.add_mod, Hal, Hsal by lia. reflexivity. }
  assert (Hinv0 : remove_inv L st pdir va (va + size) st).
  { split; [reflexivity | intros x; now left]. }
  destruct (remove_head_ok Hok pdir va (va + size) st ltac:(lia) ltac:(lia) Htop
              fuel va st Hinv0 ltac:(lia) Hal ltac:(lia))
    as (v1 & st1 & Hrun1 & Hinv1 & Hv1 & Hal1 & Hend1).
  rewrite Hrun1. cbn [bind].
  destruct (remove_bulk_ok Hok pdir va (va + size) st ltac:(lia) ltac:(lia)
              fuel v1 st1 Hinv1 ltac:(lia) Hal1 Hend1 ltac:(lia))
    as (v2 & st2 & Hrun2 & Hinv2 & Hv2 & Hal2).
  rewrite Hrun2. cbn [bind].
  destruct (remove_tail_ok Hok pdir va (va + size) st ltac:(lia) ltac:(lia) Htop
              fuel v2 st2 Hinv2 ltac:(lia) Hal2 ltac:(lia))
    as (v3 & st3 & Hrun3 & Hinv3).
  rewrite Hrun3. cbn [bind].
  exists st3. split; [reflexivity | exact Hinv3].
Qed.

(** C10.  On a well-formed directory, [pmap_remove] of a page-aligned
    range of the user window returns, and: it never enters
    [mem_alloc] (its walks in create mode always find a page table);
    the PDE of every address outside the range is unchanged; the PTE
    of every address of the user window outside the range is
    unchanged; and a PDE inside the range that was [PTE_ZERO] still
    is. *)
Theorem remove_frame (pdir va size : Z) (st : kstate) :
  pd_wf L pdir st ->
  VM_USERLO <= va < VM_USERHI -> va mod PAGESIZE = 0 ->
  size mod PAGESIZE = 0 -> 0 <= size <= VM_USERHI - va ->
  exists st',
    pmap_remove pdir va size st = Done st' /\
    alloc_calls st' = alloc_calls st /\
    (forall v, 0 <= v < 2 ^ 32 -> ~ (va <= v < va + size) ->
       mem st' (pde_slot pdir v) = mem st (pde_slot pdir v)) /\
    (forall v, VM_USERLO <= v < VM_USERHI -> ~ (va <= v < va + size) ->
       mem st (pde_slot pdir v) <> PTE_ZERO ->
       pte_slot st' pdir v = pte_slot st pdir v /\
       mem st' (pte_slot st pdir v) = mem st (pte_slot st pdir v)) /\
    (forall v, va <= v < va + size ->
       mem st (pde_slot pdir v) = PTE_ZERO -> mem st' (pde_slot pdir v) = PTE_ZERO).
Proof.
  intros [Hpd Hwf] Hva Hal Hsal Hsize.
  destruct (remove_runs pdir va size st Hva Hal Hsal Hsize) as (st' & Hrun & Hac & Hmem).
  pose proof Hok as (Hlo & Hlohi & Hhi & Hloal & Hhial & Hz & Hza).
  unfold PTSIZE, PAGESIZE, NPTENTRIES in *. change (4096 * 1024) with 4194304 in *.
  divmod va 4096. divmod size 4096.
  assert (Hpde_out : forall v, 0 <= v < 2 ^ 32 -> ~ (va <= v < va + size) ->
            mem st' (pde_slot pdir v) = mem st (pde_slot pdir v)).
  { intros v Hv Hout.
    destruct (Hmem (pde_slot pdir v)) as [Hsame | [_ [Hfp | Hfp]]]; [assumption | |];
      exfalso.
    - destruct Hfp as (w & Hw1 & Hw2 & Hw3 & Heq).
      unfold PTSIZE, PAGESIZE, NPTENTRIES in *. change (4096 * 1024) with 4194304 in *.
      unfold pde_slot in Heq.
      assert (Hx : PDX v = PDX w) by lia.
      rewrite !PDX_small in Hx by lia.
      divmod v 4194304. divmod w 4194304. lia.
    - destruct Hfp as (w & Hw & Hnz & Heq).
      unfold pde_slot, pte_slot in Heq.
      destruct (Hwf w ltac:(lia) Hnz) as [Hnd _]. apply Hnd.
      destruct (slot_eq _ _ _ _ Hpd (proj2 (PGADDR_range _))
                  (PDX_range v) (PTX_range w) Heq) as [Hpg _].
      now symmetry. }
  exists st'. split; [exact Hrun|]. split; [exact Hac|].
  split; [exact Hpde_out|]. split.
  - intros v Hv Hout Hnz.
    assert (Hslot : pte_slot st' pdir v = pte_slot st pdir v).
    { unfold pte_slot. rewrite Hpde_out by lia. reflexivity. }
    split; [exact Hslot|].
    destruct (Hmem (pte_slot st pdir v)) as [Hsame | [_ [Hfp | Hfp]]]; [assumption | |];
      exfalso.
    + destruct Hfp as (w & _ & _ & _ & Heq).
      unfold pde_slot, pte_slot in Heq.
      destruct (Hwf v Hv Hnz) as [Hnd _]. apply Hnd.
      destruct (slot_eq _ _ _ _ (proj2 (PGADDR_range _)) Hpd
                  (PTX_range v) (PDX_range w) Heq) as [Hpg _].
      exact Hpg.
    + destruct Hfp as (w & Hw & Hwnz & Heq).
      unfold pte_slot in Heq.
      destruct (slot_eq _ _ _ _ (proj2 (PGADDR_range _)) (proj2 (PGADDR_range _))
                  (PTX_range v) (PTX_range w) Heq) as [Hpg Hptx].
      destruct (Z.eq_dec (PDX w) (PDX v)) as [Hpdx | Hpdx].
      * pose proof (same_page v w ltac:(lia) ltac:(lia) (eq_sym Hpdx) Hptx).
        divmod v 4096. divmod w 4096. lia.
      * destruct (Hwf v Hv Hnz) as [_ Hdiff].
        apply (Hdiff w ltac:(lia) Hpdx Hwnz). now symmetry.
  - intros v Hv Hzero.
    destruct (Hmem (pde_slot pdir v)) as [Hsame | [Hz' _]]; congruence.
Qed.

End RemoveTheorem.

(** The example machine with one page table is well formed. *)
Lemma ex_mapped_one_pde pte rc fl v :
  VM_USERLO (Layout := pios) <= v < VM_USERHI (Layout := pios) ->
  mem (ex_mapped pte rc fl) (pde_slot ex_pd v) <> PTE_ZERO (Layout := pios) ->
  PDX v = 256 /\ mem (ex_mapped pte rc fl) (pde_slot ex_pd v) = 0x201027.
Proof.
  cbn [VM_USERLO VM_USERHI PTE_ZERO pios]. intros Hv Hnz.
  assert (Hi : 256 <= PDX v < 960).
  { rewrite PDX_small by lia. divmod v 4194304. lia. }
  unfold pde_slot in *. set (i := PDX v) in *.
  unfold ex_mapped in *. cbn [mem cells] in *.
  change ex_pde with 2098176 in *. change ex_pte with 2101252 in *.
  unfold ex_pd, ex_pt in *.
  destruct (Z.eq_dec i 256) as [-> | Hne].
  { split; [reflexivity|]. change (2097152 + 4 * 256) with 2098176.
    now rewrite upd_same. }
  exfalso. apply Hnz.
  rewrite !upd_other by lia.
  unfold PAGESIZE, bootpdir_at, PTSIZE, NPTENTRIES, PAGESIZE.
  cbn [VM_USERLO VM_USERHI PTE_ZERO pios].
  destruct (Z.leb_spec 2101248 (2097152 + 4 * i)); [lia|]. cbn [andb].
  destruct (Z.leb_spec 2097152 (2097152 + 4 * i)); [|lia].
  destruct (Z.ltb_spec (2097152 + 4 * i) (2097152 + 4096)); [|lia]. cbn [andb].
  replace ((2097152 + 4 * i - 2097152) / 4) with i
    by (replace (2097152 + 4 * i - 2097152) with (i * 4) by lia;
        now rewrite Z.div_mul by lia).
  cbv zeta. rewrite wrap32_small by lia.
  destruct (Z.leb_spec 1073741824 (i * (4096 * 1024))); [|lia].
  destruct (Z.ltb_spec (i * (4096 * 1024)) 4026531840); [|lia].
  reflexivity.
Qed.

Lemma ex_mapped_wf pte rc fl : pd_wf pios ex_pd (ex_mapped pte rc fl).
Proof.
  split; [reflexivity|].
  intros v Hv Hnz.
  destruct (ex_mapped_one_pde pte rc fl v Hv Hnz) as [Hx Hval].
  split.
  - rewrite Hval. vm_compute. discriminate.
  - intros w Hw Hne Hwnz.
    destruct (ex_mapped_one_pde pte rc fl w Hw Hwnz) as [Hxw _]. congruence.
Qed.

(** C10, on the example machine: unmapping two page tables' worth of
    addresses from the page after [ex_va] on leaves the mapping at
    [ex_va] and its PDE as they were, and allocates nothing. *)
Lemma remove_frame_witness :
  exists st',
    pmap_remove (L := pios) ex_pd (ex_va + PAGESIZE) (2 * PTSIZE)
      (ex_mapped (Z.lor 0x400000 (Z.lor PTE_P PTE_U)) [(0x400, 1)] [])
    = Done st' /\
    alloc_calls st' = 0%nat /\
    mem st' (pde_slot ex_pd ex_va) = Z.lor ex_pt 39 /\
    mem st' ex_pte = Z.lor 0x400000 (Z.lor PTE_P PTE_U).
Proof.
  pose (st := ex_mapped (Z.lor 0x400000 (Z.lor PTE_P PTE_U)) [(0x400, 1)] []).
  assert (Hva : VM_USERLO (Layout := pios) <= ex_va + PAGESIZE < VM_USERHI (Layout := pios))
    by (vm_compute; split; [discriminate | reflexivity]).
  destruct (remove_frame (L := pios) pios_ok ex_pd (ex_va + PAGESIZE) (2 * PTSIZE) st
              (ex_mapped_wf _ _ _) Hva
              ltac:(reflexivity) ltac:(reflexivity)
              ltac:(vm_compute; split; discriminate))
    as (st' & Hrun & Hac & Hpde & Hpte & _).
  exists st'. split; [exact Hrun|]. split; [exact Hac|].
  assert (Hv : VM_USERLO (Layout := pios) <= ex_va < VM_USERHI (Layout := pios))
    by (vm_compute; split; [discriminate | reflexivity]).
  assert (Hout : ~ (ex_va + PAGESIZE <= ex_va < ex_va + PAGESIZE + 2 * PTSIZE))
    by (unfold PAGESIZE; lia).
  split.
  - rewrite (Hpde ex_va ltac:(vm_compute; split; [discriminate | reflexivity]) Hout).
    vm_compute. reflexivity.
  - destruct (Hpte ex_va Hv Hout ltac:(vm_compute; discriminate)) as [_ Hsame].
    vm_compute in Hsame. exact Hsame.
Defined.

(* ================================================================== *)
(** ** Copying a range copy-on-write                                   *)
(* ================================================================== *)

(** C4, as stated, fails on a source entry that carries nominal
    permissions over the zero frame: the entry is not [PTE_ZERO], yet
    [pmap_copy] succeeds without raising the count of the frame it
    names (the zero frame), and without touching the entry. *)
Lemma copy_skips_zero_frame_entry :
  let e := Z.lor (PTE_ZERO (Layout := pios)) (Z.lor (Z.lor PTE_P PTE_U) SYS_RW) in
  let st := ex_mapped e [] [0x300] in
  let zf := mem_phys2pi (PGADDR e) in
  e <> PTE_ZERO (Layout := pios) /\
  mem st (pte_slot st ex_pd ex_va) = e /\
  match pmap_copy (L := pios) ex_pd 0x40000000 ex_pd2 0x40000000 PTSIZE st with
  | Done (r, st') =>
      r = 1 /\ refcount st' zf = refcount st zf /\ refcount st' zf <> refcount st zf + 1 /\
      mem st' (pte_slot st ex_pd ex_va) = e
  | _ => False
  end.
Proof.
  vm_compute. split; [discriminate|]. split; [reflexivity|].
  split; [reflexivity|]. split; [reflexivity|]. split; [discriminate | reflexivity].
Qed.

(** What [cow_entry] does to an entry: the frame stays, hardware W is
    clear, SYS_WRITE is set exactly when the entry was writable by W
    or by SYS_WRITE, and SYS_READ is set. *)
Lemma cow_entry_facts e :
  PGADDR (cow_entry e) = PGADDR e /\
  testflag (cow_entry e) PTE_W = false /\
  testflag (cow_entry e) SYS_WRITE = testflag e PTE_W || testflag e SYS_WRITE /\
  testflag (cow_entry e) SYS_READ = true.
Proof.
  pose proof (offsets_all
    (fun q =>
       let perm := Z.lor q SYS_READ in
       let perm := if testflag perm PTE_W || testflag perm SYS_WRITE
                   then Z.lor (Z.land perm (not32 PTE_W)) SYS_WRITE else perm in
       (0 <=? perm) && (perm <? 4096) && negb (testflag perm PTE_W)
       && Bool.eqb (testflag perm SYS_WRITE) (testflag q PTE_W || testflag q SYS_WRITE)
       && testflag perm SYS_READ)
    ltac:(vm_compute; reflexivity) (PGOFF e) (PGOFF_range e)) as H.
  cbv beta zeta in H. unfold cow_entry. cbv zeta.
  set (perm := if testflag (Z.lor (PGOFF e) SYS_READ) PTE_W
                  || testflag (Z.lor (PGOFF e) SYS_READ) SYS_WRITE
               then Z.lor (Z.land (Z.lor (PGOFF e) SYS_READ) (not32 PTE_W)) SYS_WRITE
               else Z.lor (PGOFF e) SYS_READ) in *.
  repeat (apply andb_prop in H; destruct H as [H ?]).
  apply Z.leb_le in H. apply Z.ltb_lt in H3.
  apply negb_true_iff in H2. apply Bool.eqb_prop in H1.
  rewrite !testflag_PGOFF in H1 by reflexivity.
  pose proof (PGADDR_range e) as [_ Ha].
  assert (Hfl : forall F, 0 <= F < 4096 ->
            testflag (Z.lor (PGADDR e) perm) F = testflag perm F).
  { intros F HF. unfold testflag. now rewrite land_entry_flag. }
  repeat apply conj.
  - apply PGADDR_lor_flags. lia.
  - rewrite Hfl by (unfold PTE_W; lia). assumption.
  - rewrite Hfl by (unfold SYS_WRITE; lia). assumption.
  - rewrite Hfl by (unfold SYS_READ; lia). assumption.
Qed.

Section Copy.
Context {L : Layout}.
Hypothesis Hok : layout_ok L.

(** The inner loop of [pmap_copy] over the first [n] entries of the
    table at [T]: entries over the zero frame stay, the others become
    their [cow_entry]; each frame gains one reference per entry that
    names it; nothing else changes. *)
Lemma copy_entries_spec T n : forall st,
  Z.of_nat n <= 1024 ->
  let st' := copy_entries n T st in
  (forall i, 0 <= i < Z.of_nat n ->
     mem st' (T + 4 * i) =
       if PGADDR (mem st (T + 4 * i)) =? PGADDR PTE_ZERO
       then mem st (T + 4 * i) else cow_entry (mem st (T + 4 * i))) /\
  (forall x, (forall i, 0 <= i < Z.of_nat n -> x <> T + 4 * i) -> mem st' x = mem st x) /\
  (forall f, refcount st' f = refcount st f + refs_to L (mem st) T f n) /\
  freelist st' = freelist st /\ alloc_calls st' = alloc_calls st /\
  console st' = console st.
Proof.
  induction n as [|n IH]; intros st Hn.
  - cbn [copy_entries refs_to]. repeat apply conj; try reflexivity.
    + intros i Hi. lia.
    + intros f. lia.
  - destruct (IH st ltac:(lia)) as (Hent & Hfr & Hrc & Hfl & Hac & Hco).
    cbn [copy_entries refs_to]. cbv zeta.
    set (stn := copy_entries n T st) in *.
    assert (Hcur : mem stn (T + 4 * Z.of_nat n) = mem st (T + 4 * Z.of_nat n)).
    { apply Hfr. intros i Hi. lia. }
    unfold copy_entry. rewrite Hcur.
    set (e := mem st (T + 4 * Z.of_nat n)) in *.
    destruct (Z.eqb_spec (PGADDR e) (PGADDR PTE_ZERO)) as [Hz | Hnz]; cbn [negb andb].
    + repeat apply conj; try assumption.
      * intros i Hi. destruct (Z.eq_dec i (Z.of_nat n)) as [-> | Hne].
        -- fold e. rewrite Hcur.
           now destruct (Z.eqb_spec (PGADDR e) (PGADDR PTE_ZERO)).
        -- apply Hent. lia.
      * intros x Hx. apply Hfr. intros i Hi. apply Hx. lia.
      * intros f. rewrite Hrc. lia.
    + cbv zeta. rewrite mem_store, upd_same.
      destruct (cow_entry_facts e) as (Hpg & _). rewrite Hpg.
      unfold mem_incref.
      cbn [set_refcount mem refcount freelist alloc_calls console store].
      repeat apply conj; try assumption.
      * intros i Hi. destruct (Z.eq_dec i (Z.of_nat n)) as [-> | Hne].
        -- rewrite upd_same. fold e.
           now destruct (Z.eqb_spec (PGADDR e) (PGADDR PTE_ZERO)).
        -- rewrite upd_other by lia. apply Hent. lia.
      * intros x Hx. rewrite upd_other by (apply Hx; lia).
        apply Hfr. intros i Hi. apply Hx. lia.
      * intros f. destruct (Z.eqb_spec (mem_phys2pi (PGADDR e)) f) as [<- | Hne].
        -- rewrite upd_same, Hrc. lia.
        -- rewrite upd_other by congruence. rewrite Hrc. lia.
Qed.

Lemma copy_pde_zero sp dp st :
  PGADDR (mem st sp) = PTE_ZERO ->
  copy_pde sp dp st = Done (true, store dp (mem st sp) st).
Proof. intros H. unfold copy_pde. now rewrite H, Z.eqb_refl. Qed.

(** The body of the outer loop on a source PDE that names a page
    table [T], with the free frame [t] at hand. *)
Lemma copy_pde_table sp dp st t rest :
  let spde := mem st sp in
  let T := PGADDR spde in
  T <> PTE_ZERO ->
  freelist st = t :: rest -> 0 <= t < 2 ^ 20 ->
  mem_phys2pi T <> t -> sp <> dp ->
  mem_phys2pi sp <> t -> mem_phys2pi dp <> t ->
  mem_phys2pi sp <> mem_phys2pi T -> mem_phys2pi dp <> mem_phys2pi T ->
  exists st',
    copy_pde sp dp st = Done (true, st') /\
    refcount st' t = 1 /\
    mem st' dp = Z.lor (mem_pi2phys t) (PGOFF spde) /\
    mem st' sp = spde /\
    (forall i, 0 <= i < 1024 ->
       mem st' (T + 4 * i) =
         if PGADDR (mem st (T + 4 * i)) =? PGADDR PTE_ZERO
         then mem st (T + 4 * i) else cow_entry (mem st (T + 4 * i))) /\
    (forall i, 0 <= i < 1024 -> mem st' (mem_pi2phys t + 4 * i) = mem st' (T + 4 * i)) /\
    (forall f, f <> t ->
       refcount st' f = refcount st f + refs_to L (mem st) T f nptentries) /\
    freelist st' = rest.
Proof.
  intros spde T HT Hfl Ht HTt Hsd Hst Hdt HsT HdT.
  pose proof (PGADDR_range spde) as [HTr HTa]. fold T in HTr, HTa.
  assert (Hent_fr : forall i, 0 <= i < 1024 -> mem_phys2pi (T + 4 * i) = mem_phys2pi T).
  { intros i Hi. now apply entry_in_frame. }
  assert (Hnew_fr : forall i, 0 <= i < 1024 -> mem_phys2pi (mem_pi2phys t + 4 * i) = t).
  { intros i Hi. apply phys2pi_in_frame. lia. }
  unfold copy_pde. fold spde. fold T.
  destruct (Z.eqb_spec T PTE_ZERO); [contradiction|].
  unfold mem_alloc. rewrite Hfl. cbv zeta.
  cbn [mem]. fold spde. fold T.
  set (st1 := mkState (mem st) (refcount st) rest (S (alloc_calls st)) (console st)).
  destruct (copy_entries_spec T nptentries st1 ltac:(rewrite nptentries_Z; lia))
    as (Hent & Hfr & Hrc & Hfl2 & _).
  rewrite nptentries_Z in Hent, Hfr.
  cbn [mem refcount freelist st1] in Hent, Hfr, Hrc, Hfl2.
  generalize dependent (copy_entries nptentries T st1).
  intros st2 Hent Hfr Hrc Hfl2.
  assert (Hsp2 : mem st2 sp = spde).
  { apply Hfr. intros i Hi Heq. apply HsT. rewrite Heq. now apply Hent_fr. }
  rewrite Hsp2. fold T.
  assert (Hsp3 : mem (memmove (mem_pi2ptr t) T PAGESIZE st2) sp = spde).
  { cbn [mem memmove]. unfold mem_pi2ptr. now rewrite memmove_page_out. }
  rewrite Hsp3.
  assert (Hnewaddr : PGADDR (mem_pi2phys t) = mem_pi2phys t).
  { apply PGADDR_aligned; [unfold mem_pi2phys, PAGESIZE; lia | apply pi2phys_aligned]. }
  rewrite Hnewaddr.
  rewrite !mem_store, upd_same, upd_other, Hsp3 by assumption. fold T.
  assert (Hdpde : PGADDR (Z.lor (mem_pi2phys t) (PGOFF spde)) = mem_pi2phys t).
  { rewrite lor_page_flags by (apply pi2phys_aligned || apply PGOFF_range).
    apply PGADDR_frame_flags; [assumption | apply PGOFF_range]. }
  rewrite Hdpde.
  destruct (Z.eqb_spec T (mem_pi2phys t)) as [Heq | _].
  { exfalso. apply HTt. rewrite Heq. apply phys2pi_pi2phys. }
  unfold assert. cbn [negb].
  eexists. split; [reflexivity|].
  cbn [set_refcount store memmove mem refcount freelist].
  repeat apply conj.
  - apply upd_same.
  - apply upd_same.
  - rewrite upd_other by assumption. unfold mem_pi2ptr.
    now rewrite memmove_page_out.
  - intros i Hi. rewrite upd_other.
    + unfold mem_pi2ptr. rewrite memmove_page_out by (rewrite Hent_fr; assumption).
      now apply Hent.
    + intros Heq. apply HdT. rewrite <- Heq. now apply Hent_fr.
  - intros i Hi. rewrite !upd_other.
    + unfold mem_pi2ptr.
      rewrite memmove_page_in by lia.
      now rewrite memmove_page_out by (rewrite Hent_fr; assumption).
    + intros Heq. apply HdT. rewrite <- Heq. now apply Hent_fr.
    + intros Heq. apply Hdt. rewrite <- Heq. now apply Hnew_fr.
  - intros f Hf. rewrite upd_other by assumption. apply Hrc.
  - exact Hfl2.
Qed.

Lemma PTOFF_mod x : PTOFF x = x mod 4194304.
Proof. unfold PTOFF. change 4194303 with (Z.ones 22). now rewrite Z.land_ones. Qed.

(** One more round of the outer loop: the run over [k + 1] PDE pairs
    is the run over [k] pairs followed by the body on pair [k]. *)
Lemma copy_loop_snoc k : forall sva sp dp st st_k,
  0 <= sva -> sva + (Z.of_nat k + 1) * 4194304 < 2 ^ 32 ->
  copy_loop k sva (sva + Z.of_nat k * 4194304) sp dp st = Done (1, st_k) ->
  copy_loop (S k) sva (sva + (Z.of_nat k + 1) * 4194304) sp dp st
  = ('(ok, st') <- copy_pde (sp + 4 * Z.of_nat k) (dp + 4 * Z.of_nat k) st_k ;;
     if ok then Done (1, st') else Done (0, st')).
Proof.
  induction k as [|k IH]; intros sva sp dp st st_k Hsva Hend Hrun.
  - change (Z.of_nat 0) with 0 in *.
    replace (sva + 0 * 4194304) with sva in Hrun by lia.
    cbn [copy_loop] in Hrun. rewrite Z.ltb_irrefl in Hrun.
    injection Hrun as <-.
    replace (sp + 4 * 0) with sp by lia. replace (dp + 4 * 0) with dp by lia.
    cbn [copy_loop]. unfold PTSIZE, PAGESIZE, NPTENTRIES.
    change (4096 * 1024) with 4194304.
    destruct (Z.ltb_spec sva (sva + (0 + 1) * 4194304)); [|lia].
    rewrite (wrap32_small (sva + 4194304)) by lia.
    replace (sva + (0 + 1) * 4194304) with (sva + 4194304) by lia.
    rewrite Z.ltb_irrefl. reflexivity.
  - rewrite Nat2Z.inj_succ in *. unfold Z.succ in *.
    cbn [copy_loop] in Hrun. cbn [copy_loop].
    unfold PTSIZE, PAGESIZE, NPTENTRIES in *. change (4096 * 1024) with 4194304 in *.
    destruct (Z.ltb_spec sva (sva + (Z.of_nat k + 1) * 4194304)); [|lia].
    destruct (Z.ltb_spec sva (sva + (Z.of_nat k + 1 + 1) * 4194304)); [|lia].
    rewrite (wrap32_small (sva + 4194304)) in * by lia.
    destruct (copy_pde sp dp st) as [[ok st1]| | |]; cbn [bind] in *; try discriminate.
    destruct ok; [|discriminate].
    replace (sva + (Z.of_nat k + 1) * 4194304)
      with (sva + 4194304 + Z.of_nat k * 4194304) in Hrun by lia.
    pose proof (IH (sva + 4194304) (sp + 4) (dp + 4) st1 st_k ltac:(lia) ltac:(lia) Hrun)
      as Hstep.
    cbn [copy_loop] in Hstep.
    unfold PTSIZE, PAGESIZE, NPTENTRIES in Hstep. change (4096 * 1024) with 4194304 in Hstep.
    replace (sva + 4194304 + (Z.of_nat k + 1) * 4194304)
      with (sva + (Z.of_nat k + 1 + 1) * 4194304) in Hstep by lia.
    replace (sp + 4 + 4 * Z.of_nat k) with (sp + 4 * (Z.of_nat k + 1)) in Hstep by lia.
    replace (dp + 4 + 4 * Z.of_nat k) with (dp + 4 * (Z.of_nat k + 1)) in Hstep by lia.
    exact Hstep.
Qed.

(** [pmap_copy] on a range of [k] page tables that passes its
    assertions is the outer loop run [k] times. *)
Lemma pmap_copy_unfold spdir sva dpdir dva k st :
  VM_USERLO <= sva < VM_USERHI -> VM_USERLO <= dva < VM_USERHI ->
  sva mod PTSIZE = 0 -> dva mod PTSIZE = 0 ->
  Z.of_nat k * PTSIZE <= VM_USERHI - sva ->
  Z.of_nat k * PTSIZE <= VM_USERHI - dva ->
  pmap_copy spdir sva dpdir dva (Z.of_nat k * PTSIZE) st
  = copy_loop k sva (sva + Z.of_nat k * 4194304)
      (spdir + 4 * PDX sva) (dpdir + 4 * PDX dva) st.
Proof.
  intros Hs Hd Hsal Hdal Hks Hkd.
  pose proof Hok as (Hlo & Hlohi & Hhi & Hloal & Hhial & Hz & Hza).
  unfold PTSIZE, PAGESIZE, NPTENTRIES in *. change (4096 * 1024) with 4194304 in *.
  unfold pmap_copy, assert.
  rewrite !PTOFF_mod, Hsal, Hdal, Z.mod_mul, !Z.eqb_refl by lia.
  destruct (Z.leb_spec VM_USERLO sva); [|lia].
  destruct (Z.ltb_spec sva VM_USERHI); [|lia].
  destruct (Z.leb_spec VM_USERLO dva); [|lia].
  destruct (Z.ltb_spec dva VM_USERHI); [|lia].
  cbn [andb].
  rewrite (wrap32_small (VM_USERHI - sva)), (wrap32_small (VM_USERHI - dva)) by lia.
  destruct (Z.leb_spec (Z.of_nat k * 4194304) (VM_USERHI - sva)); [|lia].
  destruct (Z.leb_spec (Z.of_nat k * 4194304) (VM_USERHI - dva)); [|lia].
  rewrite (wrap32_small (sva + Z.of_nat k * 4194304)) by lia.
  unfold PTSIZE, PAGESIZE, NPTENTRIES. change (4096 * 1024) with 4194304.
  now rewrite Z.div_mul, Nat2Z.id by lia.
Qed.

(** Copying an empty range does nothing. *)
Lemma pmap_copy_empty_range spdir sva dpdir dva st :
  VM_USERLO <= sva < VM_USERHI -> VM_USERLO <= dva < VM_USERHI ->
  sva mod PTSIZE = 0 -> dva mod PTSIZE = 0 ->
  pmap_copy spdir sva dpdir dva (Z.of_nat 0 * PTSIZE) st = Done (1, st).
Proof.
  intros Hs Hd Hsal Hdal.
  rewrite pmap_copy_unfold by (assumption || (cbn; lia)).
  cbn [copy_loop]. change (Z.of_nat 0) with 0.
  replace (sva + 0 * 4194304) with sva by lia. now rewrite Z.ltb_irrefl.
Qed.

(** C4, amended.  Let [pmap_copy] have dealt with the first [k] PDE
    pairs of a 4 MiB-aligned range, and consider the next pair.  If
    the source PDE is [PTE_ZERO], the destination PDE becomes equal to
    it.  If it names a page table [T] and a free frame [t] is to be
    had: [t] gets count 1 and is installed in the destination PDE
    with the flag bits of the source PDE; every entry of [T] whose
    frame is not the zero frame keeps its frame, has hardware W
    cleared, and has SYS_WRITE set exactly when it was writable by W
    or by SYS_WRITE; entries over the zero frame ([PTE_ZERO] itself or
    nominal permissions over it) are left as they are; every frame
    other than [t] gains one reference per entry of the first kind
    that names it, so the zero frame gains none; and [t] is a
    bit-copy of the table [T] as modified. *)
Theorem copy_pde_pair (spdir sva dpdir dva : Z) (k : nat) (st st_k : kstate) :
  VM_USERLO <= sva < VM_USERHI -> VM_USERLO <= dva < VM_USERHI ->
  sva mod PTSIZE = 0 -> dva mod PTSIZE = 0 ->
  Z.of_nat (S k) * PTSIZE <= VM_USERHI - sva ->
  Z.of_nat (S k) * PTSIZE <= VM_USERHI - dva ->
  pmap_copy spdir sva dpdir dva (Z.of_nat k * PTSIZE) st = Done (1, st_k) ->
  let sp := spdir + 4 * PDX sva + 4 * Z.of_nat k in
  let dp := dpdir + 4 * PDX dva + 4 * Z.of_nat k in
  let spde := mem st_k sp in
  let T := PGADDR spde in
  (spde = PTE_ZERO ->
   exists st',
     pmap_copy spdir sva dpdir dva (Z.of_nat (S k) * PTSIZE) st = Done (1, st') /\
     mem st' dp = spde) /\
  (T <> PTE_ZERO ->
   forall t rest,
     freelist st_k = t :: rest -> 0 <= t < 2 ^ 20 ->
     mem_phys2pi T <> t -> sp <> dp ->
     mem_phys2pi sp <> t -> mem_phys2pi dp <> t ->
     mem_phys2pi sp <> mem_phys2pi T -> mem_phys2pi dp <> mem_phys2pi T ->
     exists st',
       pmap_copy spdir sva dpdir dva (Z.of_nat (S k) * PTSIZE) st = Done (1, st') /\
       refcount st' t = 1 /\
       PGADDR (mem st' dp) = mem_pi2phys t /\
       PGOFF (mem st' dp) = PGOFF spde /\
       (forall i, 0 <= i < 1024 ->
          let e := mem st_k (T + 4 * i) in
          (PGADDR e = PGADDR PTE_ZERO -> mem st' (T + 4 * i) = e) /\
          (PGADDR e <> PGADDR PTE_ZERO ->
             PGADDR (mem st' (T + 4 * i)) = PGADDR e /\
             testflag (mem st' (T + 4 * i)) PTE_W = false /\
             testflag (mem st' (T + 4 * i)) SYS_WRITE
               = testflag e PTE_W || testflag e SYS_WRITE)) /\
       (forall f, f <> t ->
          refcount st' f = refcount st_k f + refs_to L (mem st_k) T f nptentries) /\
       (forall i, 0 <= i < 1024 ->
          mem st' (mem_pi2phys t + 4 * i) = mem st' (T + 4 * i))).
Proof.
  intros Hs Hd Hsal Hdal Hks Hkd Hrun sp dp spde T.
  pose proof Hok as (Hlo & Hlohi & Hhi & Hloal & Hhial & Hz & Hza).
  assert (Hk : Z.of_nat (S k) * PTSIZE = (Z.of_nat k + 1) * 4194304) by
    (unfold PTSIZE, PAGESIZE, NPTENTRIES; lia).
  assert (Hks' : Z.of_nat k * PTSIZE <= VM_USERHI - sva)
    by (unfold PTSIZE, PAGESIZE, NPTENTRIES in *; lia).
  assert (Hkd' : Z.of_nat k * PTSIZE <= VM_USERHI - dva)
    by (unfold PTSIZE, PAGESIZE, NPTENTRIES in *; lia).
  rewrite pmap_copy_unfold in Hrun by assumption.
  rewrite (pmap_copy_unfold spdir sva dpdir dva (S k) st) by assumption.
  rewrite Nat2Z.inj_succ. unfold Z.succ.
  unfold PTSIZE, PAGESIZE, NPTENTRIES in Hks, Hhi. change (4096 * 1024) with 4194304 in *.
  rewrite (copy_loop_snoc k sva _ _ st st_k ltac:(lia) ltac:(lia) Hrun).
  fold sp. fold dp.
  split.
  - intros Hzero.
    rewrite copy_pde_zero by (fold spde; rewrite Hzero; apply (PTE_ZERO_fixed Hok)).
    cbn [bind]. eexists. split; [reflexivity|].
    rewrite mem_store. apply upd_same.
  - intros HT t rest Hfl Ht HTt Hsd Hst Hdt HsT HdT.
    destruct (copy_pde_table sp dp st_k t rest HT Hfl Ht HTt Hsd Hst Hdt HsT HdT)
      as (st' & Hbody & Hrc & Hdpde & _ & Hent & Hcopy & Hrefs & _).
    rewrite Hbody. cbn [bind]. exists st'. split; [reflexivity|].
    fold spde in Hdpde. fold T in Hent, Hcopy, Hrefs.
    assert (Hdp : PGADDR (mem st' dp) = mem_pi2phys t /\ PGOFF (mem st' dp) = PGOFF spde).
    { rewrite Hdpde, lor_page_flags by (apply pi2phys_aligned || apply PGOFF_range).
      apply PGADDR_frame_flags; [assumption | apply PGOFF_range]. }
    split; [exact Hrc|]. split; [apply Hdp|]. split; [apply Hdp|].
    split; [| split; [exact Hrefs | exact Hcopy]].
    intros i Hi. pose proof (Hent i Hi) as He.
    change (PGADDR (mem st_k sp)) with T in He. rewrite He.
    set (e := mem st_k (T + 4 * i)).
    destruct (Z.eqb_spec (PGADDR e) (PGADDR PTE_ZERO)) as [Hez | Hen].
    + split; [reflexivity | contradiction].
    + split; [contradiction|]. intros _.
      destruct (cow_entry_facts e) as (H1 & H2 & H3 & _). auto.
Qed.

End Copy.

(** C4 as amended, on the example machine: copying the first page
    table of user space into the empty directory [ex_pd2] shares the
    writable page in frame 0x400 read-only between the two; copying
    the second, which is absent, leaves the destination PDE
    [PTE_ZERO]. *)
Lemma copy_pde_pair_witness :
  (exists st',
    pmap_copy (L := pios) ex_pd 0x40000000 ex_pd2 0x40000000 PTSIZE
      (ex_mapped (Z.lor 0x400000 (Z.lor (Z.lor PTE_P PTE_U) PTE_W)) [(0x400, 1)] [0x300])
    = Done (1, st') /\
    refcount st' 0x300 = 1 /\ refcount st' 0x400 = 2 /\
    PGADDR (mem st' (ex_pd2 + 4 * PDX 0x40000000)) = 0x300000 /\
    testflag (mem st' ex_pte) PTE_W = false /\
    testflag (mem st' ex_pte) SYS_WRITE = true /\
    mem st' (0x300000 + 4) = mem st' ex_pte) /\
  (exists st',
    pmap_copy (L := pios) ex_pd 0x40400000 ex_pd2 0x40400000 PTSIZE
      (ex_mapped (Z.lor 0x400000 (Z.lor (Z.lor PTE_P PTE_U) PTE_W)) [(0x400, 1)] [0x300])
    = Done (1, st') /\
    mem st' (ex_pd2 + 4 * PDX 0x40400000) = PTE_ZERO (Layout := pios)).
Proof.
  pose (st := ex_mapped (Z.lor 0x400000 (Z.lor (Z.lor PTE_P PTE_U) PTE_W)) [(0x400, 1)] [0x300]).
  split.
  - assert (Hw : VM_USERLO (Layout := pios) <= 0x40000000 < VM_USERHI (Layout := pios))
      by (vm_compute; split; [discriminate | reflexivity]).
    destruct (copy_pde_pair (L := pios) pios_ok ex_pd 0x40000000 ex_pd2 0x40000000 0 st st
                Hw Hw ltac:(reflexivity) ltac:(reflexivity)
                ltac:(vm_compute; discriminate) ltac:(vm_compute; discriminate)
                (pmap_copy_empty_range (L := pios) pios_ok ex_pd _ ex_pd2 _ st Hw Hw
                   eq_refl eq_refl)) as [_ Htab].
    destruct (Htab ltac:(vm_compute; discriminate) 0x300 [] ltac:(reflexivity) ltac:(lia)
                ltac:(vm_compute; discriminate) ltac:(vm_compute; discriminate)
                ltac:(vm_compute; discriminate) ltac:(vm_compute; discriminate)
                ltac:(vm_compute; discriminate) ltac:(vm_compute; discriminate))
      as (st' & Hrun & Hrc & Haddr & _ & Hent & Hrefs & Hcopy).
    exists st'. split; [exact Hrun|]. split; [exact Hrc|].
    pose proof (Hrefs 0x400 ltac:(discriminate)) as Hr.
    destruct (Hent 1 ltac:(lia)) as [_ He].
    destruct (He ltac:(vm_compute; discriminate)) as (_ & HW & HSW).
    pose proof (Hcopy 1 ltac:(lia)) as Hc.
    vm_compute in Hr, HW, HSW, Hc.
    split; [exact Hr|]. split; [|repeat apply conj; assumption].
    replace (ex_pd2 + 4 * PDX 0x40000000)
      with (ex_pd2 + 4 * PDX 0x40000000 + 4 * Z.of_nat 0) by (vm_compute; reflexivity).
    exact Haddr.
  - assert (Hw : VM_USERLO (Layout := pios) <= 0x40400000 < VM_USERHI (Layout := pios))
      by (vm_compute; split; [discriminate | reflexivity]).
    destruct (copy_pde_pair (L := pios) pios_ok ex_pd 0x40400000 ex_pd2 0x40400000 0 st st
                Hw Hw ltac:(reflexivity) ltac:(reflexivity)
                ltac:(vm_compute; discriminate) ltac:(vm_compute; discriminate)
                (pmap_copy_empty_range (L := pios) pios_ok ex_pd _ ex_pd2 _ st Hw Hw
                   eq_refl eq_refl)) as [Hzero _].
    destruct (Hzero ltac:(vm_compute; reflexivity)) as (st' & Hrun & Hdpde).
    exists st'. split; [exact Hrun|].
    vm_compute in Hdpde. exact Hdpde.
Defined.

(* ================================================================== *)
(** ** The bootstrap directory and the directories made from it        *)
(* ================================================================== *)

Section BootDir.
Context {L : Layout}.
Hypothesis Hok : layout_ok L.

Lemma init_bootpdir_spec n bootpdir st :
  let st' := init_bootpdir n bootpdir st in
  (forall i, 0 <= i < Z.of_nat n -> mem st' (bootpdir + 4 * i) = bootpdir_entry i) /\
  (forall x, (forall i, 0 <= i < Z.of_nat n -> x <> bootpdir + 4 * i) ->
     mem st' x = mem st x) /\
  refcount st' = refcount st /\ freelist st' = freelist st /\
  alloc_calls st' = alloc_calls st /\ console st' = console st.
Proof.
  induction n as [|k IH]; intros st'.
  - subst st'. cbn. repeat apply conj; auto; intros; lia.
  - destruct IH as (Hin & Hout & Hr & Hf & Ha & Hc).
    subst st'. cbn [init_bootpdir].
    rewrite mem_store, refcount_store, freelist_store, alloc_calls_store, console_store.
    repeat apply conj; auto.
    + intros i Hi. destruct (Z.eq_dec i (Z.of_nat k)) as [->|Hne].
      * apply upd_same.
      * rewrite upd_other by lia. apply Hin. lia.
    + intros x Hx. rewrite upd_other by (apply Hx; lia).
      apply Hout. intros i Hi. apply Hx. lia.
Qed.

Lemma bootpdir_entry_user i :
  0 <= i < 1024 -> VM_USERLO <= i * 4194304 < VM_USERHI -> bootpdir_entry i = PTE_ZERO.
Proof.
  intros Hi Hw. unfold bootpdir_entry. cbv zeta.
  change PTSIZE with 4194304.
  rewrite wrap32_small by lia.
  destruct (Z.leb_spec VM_USERLO (i * 4194304)); [|lia].
  destruct (Z.ltb_spec (i * 4194304) VM_USERHI); [reflexivity|lia].
Qed.

Lemma bootpdir_entry_kernel i :
  0 <= i < 1024 -> ~ (VM_USERLO <= i * 4194304 < VM_USERHI) ->
  bootpdir_entry i = Z.lor (i * 4194304) 387.
Proof.
  intros Hi Hw. unfold bootpdir_entry. cbv zeta.
  change PTSIZE with 4194304.
  rewrite wrap32_small by lia.
  replace ((VM_USERLO <=? i * 4194304) && (i * 4194304 <? VM_USERHI)) with false.
  - rewrite Z.shiftl_mul_pow2 by (unfold PDXSHIFT; lia).
    change (2 ^ PDXSHIFT) with 4194304.
    rewrite <- !Z.lor_assoc. reflexivity.
  - symmetry. apply andb_false_iff.
    destruct (Z.leb_spec VM_USERLO (i * 4194304)); [|now left].
    destruct (Z.ltb_spec (i * 4194304) VM_USERHI); [lia|now right].
Qed.

(** X1.  The directory that the loop of [pmap_init] builds: the PDE of
    every address of the user window is [PTE_ZERO]; the PDE of every
    other 32-bit address maps its 4 MiB region onto itself, present,
    writable, large and global, and closed to user mode.  The loop
    writes nothing outside the directory's page. *)
Theorem bootpdir_layout (bootpdir : Z) (st : kstate) :
  let st' := init_bootpdir nptentries bootpdir st in
  (forall va, VM_USERLO <= va < VM_USERHI ->
     mem st' (bootpdir + 4 * PDX va) = PTE_ZERO) /\
  (forall va, 0 <= va < 2 ^ 32 -> ~ (VM_USERLO <= va < VM_USERHI) ->
     let e := mem st' (bootpdir + 4 * PDX va) in
     e = ROUNDDOWN va PTSIZE + (PTE_P + PTE_W + PTE_PS + PTE_G) /\
     testflag e PTE_P = true /\ testflag e PTE_W = true /\
     testflag e PTE_PS = true /\ testflag e PTE_G = true /\
     testflag e PTE_U = false) /\
  (forall x, ~ (bootpdir <= x < bootpdir + PAGESIZE) -> mem st' x = mem st x) /\
  refcount st' = refcount st /\ freelist st' = freelist st.
Proof.
  intros st'.
  destruct (init_bootpdir_spec nptentries bootpdir st)
    as (Hin & Hout & Hr & Hf & _ & _).
  fold st' in Hin, Hout, Hr, Hf. rewrite nptentries_Z in Hin, Hout.
  generalize dependent st'. intros st' Hin Hout Hr Hf.
  destruct Hok as (Hlo & Hlt & Hhi & Hloa & Hhia & _ & _).
  change PTSIZE with 4194304 in *. change (2 ^ 32) with 4294967296 in *.
  repeat apply conj; auto.
  - intros va Hva.
    rewrite PDX_small by (change (2 ^ 32) with 4294967296; lia).
    rewrite Hin by (divmod va 4194304; lia).
    apply bootpdir_entry_user.
    + divmod va 4194304; lia.
    + divmod va 4194304. divmod VM_USERLO 4194304. divmod VM_USERHI 4194304. lia.
  - intros va Hva Hout' e. subst e.
    rewrite PDX_small by (change (2 ^ 32) with 4294967296; lia).
    rewrite Hin by (divmod va 4194304; lia).
    rewrite bootpdir_entry_kernel.
    2:{ divmod va 4194304; lia. }
    2:{ divmod va 4194304. divmod VM_USERLO 4194304. divmod VM_USERHI 4194304. lia. }
    assert (Ha : (va / 4194304 * 4194304) mod 4096 = 0).
    { replace (va / 4194304 * 4194304) with ((va / 4194304 * 1024) * 4096) by lia.
      apply Z.mod_mul. lia. }
    unfold testflag.
    rewrite !land_entry_flag by (assumption || (unfold PTE_P, PTE_W, PTE_PS, PTE_G, PTE_U; lia)).
    rewrite lor_page_flags by (assumption || lia).
    unfold ROUNDDOWN. repeat apply conj; try reflexivity.
    unfold PTE_P, PTE_W, PTE_PS, PTE_G. divmod va 4194304. lia.
  - intros x Hx. apply Hout. intros i Hi. unfold PAGESIZE in Hx. lia.
Qed.

End BootDir.

Lemma bootpdir_layout_witness :
  let st' := init_bootpdir (L := pios) nptentries ex_pd (ex_empty []) in
  (forall va, 0x40000000 <= va < 0xF0000000 ->
     mem st' (ex_pd + 4 * PDX va) = PTE_ZERO (Layout := pios)) /\
  (forall va, 0 <= va < 2 ^ 32 -> ~ (0x40000000 <= va < 0xF0000000) ->
     testflag (mem st' (ex_pd + 4 * PDX va)) PTE_U = false).
Proof.
  intros st'.
  destruct (bootpdir_layout (L := pios) pios_ok ex_pd (ex_empty []))
    as (Hu & Hk & _).
  split; [exact Hu|].
  intros va Hva Hout. apply (Hk va Hva Hout).
Defined.

Section NewDir.
Context {L : Layout}.
Hypothesis Hok : layout_ok L.

Lemma walk_absent pdir va st :
  VM_USERLO <= va < VM_USERHI ->
  mem st (pdir + 4 * PDX va) = PTE_ZERO ->
  pmap_walk pdir va false st = Done (None, st).
Proof.
  intros Hva Hz. unfold pmap_walk, assert.
  destruct (Z.leb_spec VM_USERLO va); [|lia].
  destruct (Z.ltb_spec va VM_USERHI); [|lia].
  cbn [andb]. cbv zeta. rewrite Hz, Z.eqb_refl. reflexivity.
Qed.

Lemma PTE_ZERO_not_present : testflag PTE_ZERO PTE_P = false.
Proof.
  destruct Hok as (_ & _ & _ & _ & _ & _ & Hza).
  unfold testflag. rewrite land_page_flags by (assumption || (unfold PTE_P; lia)).
  reflexivity.
Qed.

Lemma va2pa_absent pdir va st :
  mem st (pdir + 4 * PDX va) = PTE_ZERO -> va2pa pdir va st = 4294967295.
Proof.
  intros Hz. unfold va2pa. cbv zeta. rewrite Hz, PTE_ZERO_not_present. reflexivity.
Qed.

(** X2.  [pmap_newpdir] on the directory that [pmap_init] built: with a
    free frame [pi] it returns that frame, holding a copy of the
    bootstrap directory and counted once more; nothing is mapped in its
    user window (a lookup gives [~0], a walk that may not allocate
    gives the null pointer) and its other entries are those of the
    bootstrap directory.  Without a free frame it returns the null
    pointer and leaves memory and counts as they were. *)
Theorem newpdir_from_boot (bootpdir : Z) (st0 : kstate) :
  let st := init_bootpdir nptentries bootpdir st0 in
  (forall pi rest, freelist st0 = pi :: rest ->
     let pdir := mem_pi2ptr pi in
     exists st',
       pmap_newpdir bootpdir st = (Some pdir, st') /\
       refcount st' pi = refcount st0 pi + 1 /\
       freelist st' = rest /\
       (forall i, 0 <= i < 1024 -> mem st' (pdir + 4 * i) = mem st (bootpdir + 4 * i)) /\
       (forall va, VM_USERLO <= va < VM_USERHI ->
          va2pa pdir va st' = 4294967295 /\
          pmap_walk pdir va false st' = Done (None, st')) /\
       (forall x, mem_phys2pi x <> pi -> mem st' x = mem st x)) /\
  (freelist st0 = [] ->
     exists st',
       pmap_newpdir bootpdir st = (None, st') /\
       mem st' = mem st /\ refcount st' = refcount st /\ freelist st' = []).
Proof.
  intros st.
  destruct (bootpdir_layout Hok bootpdir st0) as (Huser & _ & _ & Hr & Hf).
  fold st in Huser, Hr, Hf.
  generalize dependent st. intros st Huser Hr Hf.
  split.
  - intros pi rest Hfl pdir. rewrite Hfl in Hf.
    unfold pmap_newpdir, mem_alloc. rewrite Hf.
    eexists. split; [reflexivity|].
    assert (Hcopy : forall i, 0 <= i < 1024 ->
              memmove_mem (mem st) pdir bootpdir PAGESIZE (pdir + 4 * i)
              = mem st (bootpdir + 4 * i)).
    { intros i Hi. apply memmove_page_in. lia. }
    cbn [memmove mem refcount freelist mem_incref set_refcount].
    repeat apply conj.
    + rewrite upd_same, Hr. reflexivity.
    + reflexivity.
    + exact Hcopy.
    + intros va Hva.
      assert (Hz : memmove_mem (mem st) pdir bootpdir PAGESIZE (pdir + 4 * PDX va) = PTE_ZERO).
      { rewrite Hcopy by apply PDX_range. apply Huser, Hva. }
      split.
      * apply va2pa_absent. exact Hz.
      * apply walk_absent; [exact Hva | exact Hz].
    + intros x Hx. apply memmove_page_out. exact Hx.
  - intros Hfl. rewrite Hfl in Hf.
    unfold pmap_newpdir, mem_alloc. rewrite Hf.
    eexists. split; [reflexivity|]. cbn. auto.
Qed.

End NewDir.

Lemma newpdir_from_boot_witness :
  let st := init_bootpdir (L := pios) nptentries ex_pd (ex_empty [0x300]) in
  exists st',
    pmap_newpdir ex_pd st = (Some (mem_pi2ptr 0x300), st') /\
    refcount st' 0x300 = 1 /\
    (forall va, 0x40000000 <= va < 0xF0000000 ->
       va2pa (mem_pi2ptr 0x300) va st' = 4294967295).
Proof.
  intros st.
  destruct (newpdir_from_boot (L := pios) pios_ok ex_pd (ex_empty [0x300])) as [Hs _].
  destruct (Hs 0x300 [] eq_refl) as (st' & Hrun & Hrc & _ & _ & Hwin & _).
  exists st'. split; [exact Hrun|]. split; [exact Hrc|].
  intros va Hva. apply (Hwin va Hva).
Defined.

(* ================================================================== *)
(** ** Unmapping whole page tables, and freeing a directory            *)
(* ================================================================== *)

Section AlignedRemove.
Context {L : Layout}.
Hypothesis Hok : layout_ok L.

Lemma remove_ptab_clears pdir v cur :
  (forall x, mem (remove_ptab pdir v cur) x
             = if x =? pde_slot pdir v then PTE_ZERO else mem cur x) /\
  alloc_calls (remove_ptab pdir v cur) = alloc_calls cur.
Proof.
  unfold remove_ptab, pde_slot. cbv zeta.
  destruct (Z.eqb_spec (mem cur (pdir + 4 * PDX v)) PTE_ZERO) as [Hz | Hnz].
  - split; [|reflexivity]. intros x.
    destruct (Z.eqb_spec x (pdir + 4 * PDX v)) as [-> | _]; auto.
  - destruct (decref_freeptab_frame
                (mem_phys2pi (PGADDR (mem cur (pdir + 4 * PDX v)))) cur) as [Hm Ha].
    split.
    + intros x. rewrite mem_store, Hm. reflexivity.
    + now rewrite alloc_calls_store, Ha.
Qed.

Lemma pde_slot_region pdir v w :
  0 <= v -> v mod 4194304 = 0 -> v <= w < v + 4194304 -> w < 2 ^ 32 ->
  pde_slot pdir w = pde_slot pdir v.
Proof.
  intros Hv Hal Hw Hw32. unfold pde_slot.
  rewrite !PDX_small by lia.
  divmod v 4194304. divmod w 4194304.
  replace (w / 4194304) with (v / 4194304) by lia. reflexivity.
Qed.

Lemma pde_slot_apart pdir v w :
  0 <= v -> v mod 4194304 = 0 -> v + 4194304 <= w < 2 ^ 32 ->
  pde_slot pdir v <> pde_slot pdir w.
Proof.
  intros Hv Hal Hw. unfold pde_slot.
  rewrite !PDX_small by lia.
  divmod v 4194304. divmod w 4194304. lia.
Qed.

Lemma remove_bulk_clears pdir top fuel : forall v cur,
  top mod 4194304 = 0 -> top + 4194304 < 2 ^ 32 ->
  0 <= v <= top -> v mod 4194304 = 0 ->
  top - v <= 4194304 * Z.of_nat fuel ->
  exists cur',
    remove_bulk fuel pdir v top cur = Done (top, cur') /\
    (forall w, v <= w < top -> mem cur' (pde_slot pdir w) = PTE_ZERO) /\
    (forall x, (forall w, v <= w < top -> x <> pde_slot pdir w) -> mem cur' x = mem cur x) /\
    alloc_calls cur' = alloc_calls cur.
Proof.
  induction fuel as [|f IH]; intros v cur Htal Htop Hv Hal Hfuel.
  - assert (v = top) by lia. subst v.
    cbn [remove_bulk]. unfold ROUNDDOWN. change PTSIZE with 4194304.
    rewrite wrap32_small, Htal by lia.
    destruct (Z.leb_spec (top + 4194304) (top - 0)); [lia|].
    exists cur. repeat apply conj; auto. intros; lia.
  - cbn [remove_bulk]. unfold ROUNDDOWN. change PTSIZE with 4194304.
    divmod v 4194304. divmod top 4194304.
    rewrite (wrap32_small (v + 4194304)), Htal by lia.
    destruct (Z.leb_spec (v + 4194304) (top - 0)) as [Hle | Hgt].
    2:{ assert (v = top) by lia. subst v.
        exists cur. repeat apply conj; auto. intros; lia. }
    rewrite (wrap32_small (top - v)) by lia.
    destruct (Z.geb_spec (top - v) 4194304) as [_ | ?]; [|lia].
    destruct (remove_ptab_clears pdir v cur) as [Hm1 Ha1].
    destruct (IH (v + 4194304) (remove_ptab pdir v cur) Htal Htop ltac:(lia))
      as (cur' & Hrun & Hin & Hout & Hac).
    { rewrite Z.add_mod, Hal by lia. reflexivity. }
    { lia. }
    generalize dependent (remove_ptab pdir v cur). intros cur1 Hm1 Ha1 Hrun Hout Hac.
    exists cur'. split; [exact Hrun|]. repeat apply conj.
    + intros w Hw. destruct (Z_lt_le_dec w (v + 4194304)) as [Hlt | Hge].
      * rewrite (pde_slot_region pdir v w) by lia.
        rewrite Hout, Hm1, Z.eqb_refl; [reflexivity|].
        intros w' Hw'. apply pde_slot_apart; lia.
      * apply Hin. lia.
    + intros x Hx. rewrite Hout by (intros w Hw; apply Hx; lia).
      rewrite Hm1. destruct (Z.eqb_spec x (pde_slot pdir v)) as [Heq | _]; [|reflexivity].
      exfalso. apply (Hx v); [lia | exact Heq].
    + congruence.
Qed.

(** Unmapping a range made of whole page tables: only the bulk loop
    runs, and it resets every PDE of the range. *)
Lemma remove_aligned pdir va size st :
  VM_USERLO <= va < VM_USERHI -> va mod PTSIZE = 0 ->
  size mod PTSIZE = 0 -> 0 <= size <= VM_USERHI - va ->
  exists st',
    pmap_remove pdir va size st = Done st' /\
    (forall w, va <= w < va + size -> mem st' (pde_slot pdir w) = PTE_ZERO) /\
    (forall x, (forall w, va <= w < va + size -> x <> pde_slot pdir w) ->
       mem st' x = mem st x) /\
    alloc_calls st' = alloc_calls st.
Proof.
  intros Hva Hal Hsal Hsize.
  pose proof Hok as (Hlo & Hlohi & Hhi & Hloal & Hhial & Hz & Hza).
  unfold PTSIZE, PAGESIZE, NPTENTRIES in *. change (4096 * 1024) with 4194304 in *.
  divmod va 4194304. divmod size 4194304. divmod VM_USERHI 4194304.
  assert (Hal12 : va mod 4096 = 0).
  { replace va with (va / 4194304 * 1024 * 4096) by lia. apply Z.mod_mul. lia. }
  assert (Hsal12 : size mod 4096 = 0).
  { replace size with (size / 4194304 * 1024 * 4096) by lia. apply Z.mod_mul. lia. }
  unfold pmap_remove, assert.
  rewrite !PGOFF_mod, Hal12, Hsal12, !Z.eqb_refl.
  destruct (Z.leb_spec VM_USERLO va); [|lia].
  destruct (Z.ltb_spec va VM_USERHI); [|lia].
  cbn [andb]. rewrite (wrap32_small (VM_USERHI - va)) by lia.
  destruct (Z.leb_spec size (VM_USERHI - va)); [|lia].
  cbv zeta. rewrite (wrap32_small (va + size)) by lia.
  unfold PAGESIZE.
  set (fuel := Z.to_nat (size / 4096)).
  assert (Hfuel : size <= 4194304 * Z.of_nat (S fuel)).
  { unfold fuel. divmod size 4096. lia. }
  cbn [remove_head]. unfold ROUNDUP, ROUNDDOWN, PTSIZE, PAGESIZE, NPTENTRIES.
  change (4096 * 1024) with 4194304.
  rewrite (wrap32_small (va + 4194304 - 1)) by lia.
  replace ((va + 4194304 - 1) mod 4194304) with 4194303.
  2:{ apply (Z.mod_unique_pos _ _ (va / 4194304)); lia. }
  destruct (Z.ltb_spec va (va + 4194304 - 1 - 4194303)); [lia|].
  cbn [andb bind].
  destruct (remove_bulk_clears pdir (va + size) (S fuel) va st) as (st' & Hrun & Hin & Hout & Hac).
  { rewrite Z.add_mod, Hal, Hsal by lia. reflexivity. }
  { lia. }
  { lia. }
  { exact Hal. }
  { lia. }
  rewrite Hrun. cbn [bind remove_tail].
  destruct (Z.ltb_spec (va + size) (va + size)); [lia|].
  cbn [bind]. exists st'. auto.
Qed.

(** X3.  [pmap_remove] on a range of whole page tables (address and
    size multiples of 4 MiB, inside the user window) returns; after
    it the PDE of every address of the range is [PTE_ZERO], so a
    lookup there gives [~0] and a walk that may not allocate gives the
    null pointer; the only cells it writes are those PDEs, and it
    never enters [mem_alloc]. *)
Theorem remove_whole_tables (pdir va size : Z) (st : kstate) :
  VM_USERLO <= va < VM_USERHI -> va mod PTSIZE = 0 ->
  size mod PTSIZE = 0 -> 0 <= size <= VM_USERHI - va ->
  exists st',
    pmap_remove pdir va size st = Done st' /\
    (forall w, va <= w < va + size ->
       mem st' (pde_slot pdir w) = PTE_ZERO /\
       va2pa pdir w st' = 4294967295 /\
       pmap_walk pdir w false st' = Done (None, st')) /\
    (forall x, (forall w, va <= w < va + size -> x <> pde_slot pdir w) ->
       mem st' x = mem st x) /\
    alloc_calls st' = alloc_calls st.
Proof.
  intros Hva Hal Hsal Hsize.
  destruct (remove_aligned pdir va size st Hva Hal Hsal Hsize)
    as (st' & Hrun & Hin & Hout & Hac).
  exists st'. split; [exact Hrun|]. repeat apply conj; auto.
  intros w Hw. pose proof (Hin w Hw) as Hz. unfold pde_slot in Hz.
  repeat apply conj.
  - exact Hz.
  - apply va2pa_absent; assumption.
  - apply walk_absent; [lia | exact Hz].
Qed.

(** X4.  [pmap_freepdir] returns for every directory; afterwards the
    PDE of every address of the user window is [PTE_ZERO], the PDEs of
    all other addresses are as before, the directory's frame is at the
    head of the free list, and [mem_alloc] was never entered. *)
Theorem freepdir_empties (pdirpi : Z) (st : kstate) :
  let pdir := mem_pi2ptr pdirpi in
  exists st',
    pmap_freepdir pdirpi st = Done st' /\
    (forall w, VM_USERLO <= w < VM_USERHI -> mem st' (pde_slot pdir w) = PTE_ZERO) /\
    (forall w, 0 <= w < 2 ^ 32 -> ~ (VM_USERLO <= w < VM_USERHI) ->
       mem st' (pde_slot pdir w) = mem st (pde_slot pdir w)) /\
    (exists fl, freelist st' = pdirpi :: fl) /\
    alloc_calls st' = alloc_calls st.
Proof.
  intros pdir.
  pose proof Hok as (Hlo & Hlohi & Hhi & Hloal & Hhial & Hz & Hza).
  unfold pmap_freepdir.
  assert (Hsz : wrap32 (VM_USERHI - VM_USERLO) = VM_USERHI - VM_USERLO).
  { apply wrap32_small. unfold PTSIZE, PAGESIZE, NPTENTRIES in Hhi. lia. }
  rewrite Hsz.
  destruct (remove_aligned pdir VM_USERLO (VM_USERHI - VM_USERLO) st)
    as (st' & Hrun & Hin & Hout & Hac).
  { lia. }
  { exact Hloal. }
  { unfold PTSIZE, PAGESIZE, NPTENTRIES in *. change (4096 * 1024) with 4194304 in *.
    divmod VM_USERLO 4194304. divmod VM_USERHI 4194304.
    replace (VM_USERHI - VM_USERLO)
      with ((VM_USERHI / 4194304 - VM_USERLO / 4194304) * 4194304) by lia.
    apply Z.mod_mul. lia. }
  { lia. }
  fold pdir. rewrite Hrun. cbn [bind].
  eexists. split; [reflexivity|].
  cbn [mem_free mem freelist alloc_calls].
  repeat apply conj.
  - intros w Hw. apply Hin. lia.
  - intros w Hw Hnot. apply Hout. intros w' Hw'.
    unfold pde_slot. rewrite !PDX_small by (unfold PTSIZE, PAGESIZE, NPTENTRIES in Hhi; lia).
    unfold PTSIZE, PAGESIZE, NPTENTRIES in *. change (4096 * 1024) with 4194304 in *.
    divmod VM_USERLO 4194304. divmod VM_USERHI 4194304.
    divmod w 4194304. divmod w' 4194304. lia.
  - eexists; reflexivity.
  - exact Hac.
Qed.

End AlignedRemove.

Lemma remove_whole_tables_witness :
  exists st',
    pmap_remove (L := pios) ex_pd 0x40000000 PTSIZE
      (ex_mapped (Z.lor 0x400000 (Z.lor PTE_P PTE_U)) [(0x400, 1)] []) = Done st' /\
    mem st' (pde_slot ex_pd ex_va) = PTE_ZERO (Layout := pios) /\
    va2pa ex_pd ex_va st' = 4294967295.
Proof.
  destruct (remove_whole_tables (L := pios) pios_ok ex_pd 0x40000000 PTSIZE
              (ex_mapped (Z.lor 0x400000 (Z.lor PTE_P PTE_U)) [(0x400, 1)] []))
    as (st' & Hrun & Hin & _).
  - vm_compute; split; [discriminate | reflexivity].
  - reflexivity.
  - reflexivity.
  - vm_compute; split; discriminate.
  - exists st'. split; [exact Hrun|].
    destruct (Hin ex_va) as (Hz & Hpa & _).
    + vm_compute; split; [discriminate | reflexivity].
    + split; [exact Hz | exact Hpa].
Defined.

Lemma freepdir_empties_witness :
  exists st',
    pmap_freepdir (L := pios) 0x200
      (ex_mapped (Z.lor 0x400000 (Z.lor PTE_P PTE_U)) [(0x400, 1)] []) = Done st' /\
    mem st' (pde_slot (mem_pi2ptr 0x200) ex_va) = PTE_ZERO (Layout := pios) /\
    exists fl, freelist st' = 0x200 :: fl.
Proof.
  destruct (freepdir_empties (L := pios) pios_ok 0x200
              (ex_mapped (Z.lor 0x400000 (Z.lor PTE_P PTE_U)) [(0x400, 1)] []))
    as (st' & Hrun & Hin & _ & Hfl & _).
  exists st'. split; [exact Hrun|]. split; [|exact Hfl].
  apply Hin. vm_compute; split; [discriminate | reflexivity].
Defined.

(* ================================================================== *)
(** ** Inserting, looking up and removing one page                     *)
(* ================================================================== *)

Lemma lor_flags_range a b : 0 <= a < 4096 -> 0 <= b < 4096 -> 0 <= Z.lor a b < 4096.
Proof.
  intros Ha Hb.
  assert (H : Z.lor a b = Z.lor a b mod 4096).
  { rewrite <- PGOFF_mod. unfold PGOFF. rewrite Z.land_lor_distr_l.
    fold (PGOFF a) (PGOFF b). rewrite !PGOFF_mod, !Z.mod_small by lia. reflexivity. }
  rewrite H. apply Z.mod_pos_bound. lia.
Qed.

Lemma entry_of_frame pi perm :
  0 <= pi < 2 ^ 20 -> 0 <= perm < 4096 ->
  let e := Z.lor (Z.lor (mem_pi2phys pi) perm) PTE_P in
  PGADDR e = mem_pi2phys pi /\ PGOFF e = Z.lor perm PTE_P /\ testflag e PTE_P = true.
Proof.
  intros Hpi Hperm e. subst e. rewrite <- Z.lor_assoc.
  assert (Hr : 0 <= Z.lor perm PTE_P < 4096)
    by (apply lor_flags_range; [assumption | unfold PTE_P; lia]).
  pose proof (pi2phys_aligned pi) as Hal.
  unfold testflag. rewrite land_entry_flag by (assumption || (unfold PTE_P; lia)).
  rewrite lor_page_flags by assumption.
  destruct (PGADDR_frame_flags pi (Z.lor perm PTE_P) Hpi Hr) as [Ha Ho].
  repeat apply conj; [exact Ha | exact Ho |].
  rewrite Z.land_lor_distr_l. change (Z.land PTE_P PTE_P) with 1.
  destruct (Z.eqb_spec (Z.lor (Z.land perm PTE_P) 1) 0) as [Heq | _]; [|reflexivity].
  apply Z.lor_eq_0_iff in Heq. lia.
Qed.

Section InsertLookup.
Context {L : Layout}.
Hypothesis Hok : layout_ok L.

Lemma remove_page_present pdir va st :
  VM_USERLO <= va < VM_USERHI ->
  mem st (pdir + 4 * PDX va) <> PTE_ZERO ->
  let p := PGADDR (mem st (pdir + 4 * PDX va)) + 4 * PTX va in
  remove_page pdir va st
  = Done (if PGADDR (mem st p) =? PTE_ZERO then st
          else store p PTE_ZERO (mem_decref (mem_phys2pi (PGADDR (mem st p))) mem_free st)).
Proof.
  intros Hva Hpde p. unfold remove_page. cbv zeta.
  destruct (Z.eqb_spec (mem st (pdir + 4 * PDX va)) PTE_ZERO); [contradiction|].
  rewrite walk_present by assumption. cbn [bind]. fold p.
  now destruct (Z.eqb_spec (PGADDR (mem st p)) PTE_ZERO).
Qed.

(** [pmap_insert] under a page table that exists: the walk finds the
    slot, the frame is counted, an old mapping is removed, and the
    entry is stored. *)
Lemma insert_present pdir pi va perm st :
  VM_USERLO <= va < VM_USERHI -> va mod PAGESIZE = 0 ->
  mem st (pdir + 4 * PDX va) <> PTE_ZERO ->
  let p := PGADDR (mem st (pdir + 4 * PDX va)) + 4 * PTX va in
  pmap_insert pdir pi va perm st
  = Done (Some p,
          store p (Z.lor (Z.lor (mem_pi2phys pi) perm) PTE_P)
            (if PGADDR (mem st p) =? PTE_ZERO then mem_incref pi st
             else store p PTE_ZERO
                    (mem_decref (mem_phys2pi (PGADDR (mem st p))) mem_free
                       (mem_incref pi st)))).
Proof.
  intros Hva Hal Hpde p. unfold pmap_insert.
  rewrite walk_present by assumption. cbn [bind]. fold p.
  change (mem (mem_incref pi st) p) with (mem st p).
  destruct (Z.eqb_spec (mem st p) PTE_ZERO) as [Hz | Hnz]; cbn [negb bind].
  - rewrite Hz, (PTE_ZERO_fixed Hok), Z.eqb_refl. reflexivity.
  - rewrite (remove_one_page Hok) by assumption.
    rewrite remove_page_present by assumption.
    cbn [bind]. reflexivity.
Qed.

(** X5.  Insert, then look up.  Under a present page table that is not
    the directory itself, [pmap_insert] of frame [pi] at a page-aligned
    address of the user window returns the address of the slot, and
    then [va2pa] gives the frame's address; the slot holds the
    permissions asked for plus P; no other cell of memory changed and
    no frame was allocated. *)
Theorem insert_lookup (pdir pi va perm : Z) (st : kstate) :
  VM_USERLO <= va < VM_USERHI -> va mod PAGESIZE = 0 ->
  testflag (mem st (pdir + 4 * PDX va)) PTE_P = true ->
  let p := PGADDR (mem st (pdir + 4 * PDX va)) + 4 * PTX va in
  p <> pdir + 4 * PDX va ->
  0 <= pi < 2 ^ 20 -> 0 <= perm < 4096 ->
  exists st',
    pmap_insert pdir pi va perm st = Done (Some p, st') /\
    va2pa pdir va st' = mem_pi2phys pi /\
    PGOFF (mem st' p) = Z.lor perm PTE_P /\
    (forall x, x <> p -> mem st' x = mem st x) /\
    alloc_calls st' = alloc_calls st.
Proof.
  intros Hva Hal HP p Hp Hpi Hperm.
  assert (Hpde : mem st (pdir + 4 * PDX va) <> PTE_ZERO).
  { intros Heq. rewrite Heq, (PTE_ZERO_not_present Hok) in HP. discriminate. }
  rewrite insert_present by assumption. fold p.
  eexists. split; [reflexivity|].
  destruct (entry_of_frame pi perm Hpi Hperm) as (Ha & Ho & Hpres).
  set (e := Z.lor (Z.lor (mem_pi2phys pi) perm) PTE_P) in *.
  assert (Hmem : forall x, x <> p ->
            mem (if PGADDR (mem st p) =? PTE_ZERO then mem_incref pi st
                 else store p PTE_ZERO
                        (mem_decref (mem_phys2pi (PGADDR (mem st p))) mem_free
                           (mem_incref pi st))) x = mem st x).
  { intros x Hx. destruct (PGADDR (mem st p) =? PTE_ZERO); [reflexivity|].
    rewrite mem_store, upd_other, decref_free_mem by assumption. reflexivity. }
  assert (Hac : alloc_calls
            (if PGADDR (mem st p) =? PTE_ZERO then mem_incref pi st
             else store p PTE_ZERO
                    (mem_decref (mem_phys2pi (PGADDR (mem st p))) mem_free
                       (mem_incref pi st))) = alloc_calls st).
  { destruct (PGADDR (mem st p) =? PTE_ZERO); [reflexivity|].
    rewrite alloc_calls_store, decref_free_alloc_calls. reflexivity. }
  generalize dependent
    (if PGADDR (mem st p) =? PTE_ZERO then mem_incref pi st
     else store p PTE_ZERO
            (mem_decref (mem_phys2pi (PGADDR (mem st p))) mem_free (mem_incref pi st))).
  intros st3 Hmem Hac.
  repeat apply conj.
  - unfold va2pa. cbv zeta. rewrite mem_store, upd_other by congruence.
    rewrite Hmem by congruence. rewrite HP. cbn [negb]. fold p.
    rewrite upd_same, Hpres. cbn [negb]. exact Ha.
  - rewrite mem_store, upd_same. exact Ho.
  - intros x Hx. rewrite mem_store, upd_other by assumption. apply Hmem, Hx.
  - rewrite alloc_calls_store. exact Hac.
Qed.

(** X6.  What [pmap_insert] does to the frame counts, under a page
    table that exists.  Over a slot that maps nothing (its frame
    address is that of the zero page), only the count of the new frame
    changes: it goes up by one.  Over a slot that maps another frame
    [g], the count of [g] also goes down by one, and [g] is put on the
    free list exactly when that was its last reference. *)
Theorem insert_counts (pdir pi va perm : Z) (st : kstate) :
  VM_USERLO <= va < VM_USERHI -> va mod PAGESIZE = 0 ->
  mem st (pdir + 4 * PDX va) <> PTE_ZERO ->
  let p := PGADDR (mem st (pdir + 4 * PDX va)) + 4 * PTX va in
  let g := mem_phys2pi (PGADDR (mem st p)) in
  exists st',
    pmap_insert pdir pi va perm st = Done (Some p, st') /\
    (PGADDR (mem st p) = PTE_ZERO ->
       (forall q, refcount st' q = if q =? pi then refcount st q + 1 else refcount st q) /\
       freelist st' = freelist st) /\
    (PGADDR (mem st p) <> PTE_ZERO -> g <> pi ->
       (forall q, refcount st' q =
                  if q =? g then refcount st q - 1
                  else if q =? pi then refcount st q + 1 else refcount st q) /\
       freelist st' = if refcount st g =? 1 then g :: freelist st else freelist st).
Proof.
  intros Hva Hal Hpde p g.
  rewrite insert_present by assumption. fold p. fold g.
  eexists. split; [reflexivity|]. split.
  - intros Hz. rewrite Hz, Z.eqb_refl.
    rewrite refcount_store, freelist_store. split; [|reflexivity].
    intros q. cbn [mem_incref set_refcount refcount]. unfold upd.
    destruct (Z.eqb_spec q pi) as [-> | _]; reflexivity.
  - intros Hnz Hg.
    destruct (Z.eqb_spec (PGADDR (mem st p)) PTE_ZERO) as [|_]; [contradiction|].
    rewrite !refcount_store, !freelist_store. split.
    + intros q. rewrite decref_free_refcount.
      cbn [mem_incref set_refcount refcount]. unfold upd.
      destruct (Z.eqb_spec q g) as [-> | Hq].
      * destruct (Z.eqb_spec g pi); [contradiction | reflexivity].
      * destruct (Z.eqb_spec q pi) as [-> | _]; reflexivity.
    + unfold mem_decref. cbv zeta.
      cbn [mem_incref set_refcount refcount]. unfold upd.
      rewrite Z.eqb_refl.
      destruct (Z.eqb_spec g pi); [contradiction|].
      destruct (Z.eqb_spec (refcount st g - 1) 0) as [H0 | H0];
        destruct (Z.eqb_spec (refcount st g) 1) as [H1 | H1]; try lia; reflexivity.
Qed.

(** X7.  Removing one mapped page.  Under a page table that exists,
    [pmap_remove] of the page at [va], which maps a frame [g] other
    than the zero frame, returns; the slot is [PTE_ZERO] and a lookup
    gives [~0]; the count of [g] went down by one and [g] is on the
    free list exactly when that was its last reference; no other cell,
    no other count changed, and no frame was allocated. *)
Theorem remove_page_unmaps (pdir va : Z) (st : kstate) :
  VM_USERLO <= va < VM_USERHI -> va mod PAGESIZE = 0 ->
  mem st (pdir + 4 * PDX va) <> PTE_ZERO ->
  let p := PGADDR (mem st (pdir + 4 * PDX va)) + 4 * PTX va in
  let g := mem_phys2pi (PGADDR (mem st p)) in
  PGADDR (mem st p) <> PTE_ZERO ->
  exists st',
    pmap_remove pdir va PAGESIZE st = Done st' /\
    mem st' p = PTE_ZERO /\
    va2pa pdir va st' = 4294967295 /\
    (forall x, x <> p -> mem st' x = mem st x) /\
    (forall q, refcount st' q = if q =? g then refcount st q - 1 else refcount st q) /\
    freelist st' = (if refcount st g =? 1 then g :: freelist st else freelist st) /\
    alloc_calls st' = alloc_calls st.
Proof.
  intros Hva Hal Hpde p g Hmapped.
  rewrite (remove_one_page Hok) by assumption.
  rewrite remove_page_present by assumption. fold p. fold g.
  destruct (Z.eqb_spec (PGADDR (mem st p)) PTE_ZERO) as [|_]; [contradiction|].
  eexists. split; [reflexivity|].
  rewrite mem_store, refcount_store, freelist_store, alloc_calls_store,
    decref_free_mem, decref_free_refcount, decref_free_alloc_calls.
  repeat apply conj.
  - apply upd_same.
  - unfold va2pa. cbv zeta. rewrite mem_store, decref_free_mem.
    destruct (Z.eq_dec (pdir + 4 * PDX va) p) as [Heq | Hne].
    + rewrite Heq at 1. rewrite upd_same, (PTE_ZERO_not_present Hok). reflexivity.
    + rewrite (upd_other _ _ _ (pdir + 4 * PDX va)) by assumption.
      destruct (negb (testflag (mem st (pdir + 4 * PDX va)) PTE_P)); [reflexivity|].
      fold p. rewrite upd_same, (PTE_ZERO_not_present Hok). reflexivity.
  - intros x Hx. now rewrite upd_other.
  - intros q. unfold upd. destruct (Z.eqb_spec q g) as [-> | _]; reflexivity.
  - unfold mem_decref. cbv zeta. cbn [set_refcount refcount]. unfold upd.
    rewrite Z.eqb_refl.
    destruct (Z.eqb_spec (refcount st g - 1) 0) as [H0 | H0];
      destruct (Z.eqb_spec (refcount st g) 1) as [H1 | H1]; try lia; reflexivity.
  - reflexivity.
Qed.

End InsertLookup.

Section InsertMore.
Context {L : Layout}.
Hypothesis Hok : layout_ok L.

(** X8.  Insert, then remove.  Mapping an ordinary frame into a slot
    that maps nothing and unmapping the page again leaves the slot
    [PTE_ZERO], every count as it was before the insertion, and every
    other cell of memory untouched; the frame is put on the free list
    exactly when nothing else referred to it. *)
Theorem insert_then_remove (pdir pi va perm : Z) (st : kstate) :
  VM_USERLO <= va < VM_USERHI -> va mod PAGESIZE = 0 ->
  mem st (pdir + 4 * PDX va) <> PTE_ZERO ->
  let p := PGADDR (mem st (pdir + 4 * PDX va)) + 4 * PTX va in
  p <> pdir + 4 * PDX va ->
  PGADDR (mem st p) = PTE_ZERO ->
  mem_pi2phys pi <> PTE_ZERO ->
  0 <= pi < 2 ^ 20 -> 0 <= perm < 4096 ->
  exists st1 st2,
    pmap_insert pdir pi va perm st = Done (Some p, st1) /\
    pmap_remove pdir va PAGESIZE st1 = Done st2 /\
    mem st2 p = PTE_ZERO /\
    va2pa pdir va st2 = 4294967295 /\
    (forall x, x <> p -> mem st2 x = mem st x) /\
    (forall q, refcount st2 q = refcount st q) /\
    freelist st2 = (if refcount st pi =? 0 then pi :: freelist st else freelist st).
Proof.
  intros Hva Hal Hpde p Hp Hfree Hpi0 Hpi Hperm.
  rewrite insert_present by assumption. fold p.
  rewrite Hfree, Z.eqb_refl.
  destruct (entry_of_frame pi perm Hpi Hperm) as (Ha & _ & _).
  set (e := Z.lor (Z.lor (mem_pi2phys pi) perm) PTE_P) in *.
  set (st1 := store p e (mem_incref pi st)).
  assert (Hpde1 : mem st1 (pdir + 4 * PDX va) = mem st (pdir + 4 * PDX va)).
  { unfold st1. rewrite mem_store, upd_other by congruence. reflexivity. }
  assert (He : mem st1 p = e) by (unfold st1; rewrite mem_store; apply upd_same).
  assert (Hm1 : forall x, x <> p -> mem st1 x = mem st x).
  { intros x Hx. unfold st1. rewrite mem_store, upd_other by assumption. reflexivity. }
  assert (Hr1 : refcount st1 = upd (refcount st) pi (refcount st pi + 1)) by reflexivity.
  assert (Hf1 : freelist st1 = freelist st) by reflexivity.
  clearbody st1.
  exists st1. eexists. split; [reflexivity|].
  rewrite (remove_one_page Hok) by assumption.
  rewrite remove_page_present by (rewrite ?Hpde1; assumption).
  rewrite Hpde1. fold p. rewrite He, Ha, phys2pi_pi2phys.
  destruct (Z.eqb_spec (mem_pi2phys pi) PTE_ZERO) as [|_]; [contradiction|].
  split; [reflexivity|].
  rewrite mem_store, refcount_store, freelist_store, decref_free_mem, decref_free_refcount.
  repeat apply conj.
  - apply upd_same.
  - unfold va2pa. cbv zeta. rewrite mem_store, decref_free_mem.
    rewrite (upd_other _ _ _ (pdir + 4 * PDX va)) by congruence.
    rewrite Hpde1.
    destruct (negb (testflag (mem st (pdir + 4 * PDX va)) PTE_P)); [reflexivity|].
    fold p. rewrite upd_same, (PTE_ZERO_not_present Hok). reflexivity.
  - intros x Hx. rewrite upd_other by assumption. apply Hm1, Hx.
  - intros q. rewrite Hr1. unfold upd.
    destruct (Z.eqb_spec q pi) as [-> | _]; [rewrite Z.eqb_refl; lia | reflexivity].
  - unfold mem_decref. cbv zeta. cbn [set_refcount refcount].
    rewrite Hr1. unfold upd. rewrite !Z.eqb_refl.
    destruct (Z.eqb_spec (refcount st pi + 1 - 1) 0) as [H0 | H0];
      destruct (Z.eqb_spec (refcount st pi) 0) as [H1 | H1]; try lia;
      cbn [mem_free set_refcount freelist]; rewrite Hf1; reflexivity.
Qed.

(** X9.  [pmap_insert] without memory.  When the address has no page
    table yet and the free list is empty, [pmap_insert] returns the
    null pointer; memory, counts and the free list are as before: the
    count of the frame that was to be inserted is not raised. *)
Theorem insert_no_memory (pdir pi va perm : Z) (st : kstate) :
  VM_USERLO <= va < VM_USERHI ->
  mem st (pdir + 4 * PDX va) = PTE_ZERO ->
  freelist st = [] ->
  exists st',
    pmap_insert pdir pi va perm st = Done (None, st') /\
    mem st' = mem st /\ refcount st' = refcount st /\ freelist st' = [] /\
    console st' = console st.
Proof.
  intros Hva Hz Hfl. unfold pmap_insert, pmap_walk, assert, mem_alloc.
  destruct (Z.leb_spec VM_USERLO va); [|lia].
  destruct (Z.ltb_spec va VM_USERHI); [|lia].
  cbn [andb]. cbv zeta. rewrite Hz, Z.eqb_refl, Hfl. cbn [bind].
  eexists. split; [reflexivity|]. cbn. auto.
Qed.

(** A walk that has to make a page table, with a free frame [t]. *)
Lemma walk_creates pdir va st t rest :
  VM_USERLO <= va < VM_USERHI ->
  mem st (pdir + 4 * PDX va) = PTE_ZERO ->
  freelist st = t :: rest -> 0 <= t < 2 ^ 20 ->
  pdir mod PAGESIZE = 0 -> mem_phys2pi pdir <> t ->
  exists st',
    pmap_walk pdir va true st = Done (Some (mem_pi2phys t + 4 * PTX va), st') /\
    (forall i, 0 <= i < 1024 -> mem st' (mem_pi2phys t + 4 * i) = PTE_ZERO) /\
    mem st' (pdir + 4 * PDX va) = mem_pi2phys t + 39 /\
    (forall x, x <> pdir + 4 * PDX va -> mem_phys2pi x <> t -> mem st' x = mem st x) /\
    (forall q, refcount st' q = if q =? t then refcount st q + 1 else refcount st q) /\
    freelist st' = rest.
Proof.
  intros Hva Hpde Hfl Ht Hpd Hne.
  assert (Hin : (VM_USERLO <=? va) && (va <? VM_USERHI) = true).
  { apply andb_true_intro; split; [apply Z.leb_le | apply Z.ltb_lt]; lia. }
  unfold pmap_walk, assert. rewrite Hin, Hpde, Z.eqb_refl.
  unfold mem_alloc. rewrite Hfl. cbv zeta.
  assert (Hslot : forall k, 0 <= k < 1024 ->
                    pdir + 4 * PDX va <> mem_pi2ptr t + 4 * k).
  { intros k Hk Heq. apply Hne.
    pose proof (PDX_range va).
    rewrite <- (entry_in_frame pdir (PDX va)) by (unfold PAGESIZE in Hpd; lia).
    rewrite Heq. unfold mem_pi2ptr.
    rewrite entry_in_frame by (try apply pi2phys_aligned; lia).
    apply phys2pi_pi2phys. }
  pose (st2 := mem_incref t (mkState (mem st) (refcount st) rest
                               (S (alloc_calls st)) (console st))).
  assert (Hrc2 : forall q, refcount st2 q = if q =? t then refcount st q + 1 else refcount st q).
  { intros q. unfold st2. cbn [mem_incref set_refcount refcount]. unfold upd.
    destruct (Z.eqb_spec q t) as [-> | _]; reflexivity. }
  assert (Hfl2 : freelist st2 = rest) by reflexivity.
  assert (Hm2 : mem st2 = mem st) by reflexivity.
  change (mem_incref t _) with st2. clearbody st2.
  destruct (store_entries_frame nptentries (mem_pi2ptr t) PTE_ZERO st2)
    as (Hrc3 & Hfl3 & _).
  assert (Hent : forall i, 0 <= i < 1024 ->
            mem (store_entries nptentries (mem_pi2ptr t) PTE_ZERO st2)
                (mem_pi2ptr t + 4 * i) = PTE_ZERO).
  { intros i Hi. apply store_entries_in. rewrite nptentries_Z. lia. }
  assert (Hout : forall x, mem_phys2pi x <> t ->
            mem (store_entries nptentries (mem_pi2ptr t) PTE_ZERO st2) x = mem st x).
  { intros x Hx. rewrite store_entries_out; [now rewrite Hm2|].
    intros k Hk Heq. apply Hx. rewrite Heq. rewrite nptentries_Z in Hk.
    unfold mem_pi2ptr.
    rewrite entry_in_frame by (try apply pi2phys_aligned; lia).
    apply phys2pi_pi2phys. }
  generalize dependent (store_entries nptentries (mem_pi2ptr t) PTE_ZERO st2).
  intros st3 Hrc3 Hfl3 Hent Hout.
  rewrite mem_store, upd_same.
  rewrite flags_PWUA by apply pi2phys_aligned.
  destruct Hok as (_ & _ & _ & _ & _ & Hz & Hza).
  destruct (Z.eqb_spec (mem_pi2phys t + 39) PTE_ZERO) as [Heq | Hneq].
  { exfalso. pose proof (pi2phys_aligned t) as Ha.
    unfold PAGESIZE in Hza. rewrite <- Heq in Hza.
    rewrite Z.add_mod, Ha in Hza by lia. cbn in Hza. lia. }
  cbn [negb].
  eexists. split; [reflexivity|].
  rewrite mem_store, upd_same, refcount_store, freelist_store, Hrc3, Hfl3.
  repeat apply conj; try assumption; try reflexivity.
  - intros i Hi. rewrite upd_other.
    + now apply Hent.
    + intros Heq. apply (Hslot i); [lia | now symmetry].
  - intros x Hx Hxt. rewrite upd_other by assumption. apply Hout, Hxt.
Qed.

(** X10.  [pmap_insert] into a region without a page table, with a
    free frame [t] at hand: [t] becomes the page table, named by the
    PDE, and is counted once; the address then looks up to the frame
    inserted, which is counted once more; the other entries of the new
    table are [PTE_ZERO]; memory outside the new table and the PDE is
    unchanged. *)
Theorem insert_creates_table (pdir pi va perm t : Z) (rest : list Z) (st : kstate) :
  VM_USERLO <= va < VM_USERHI ->
  mem st (pdir + 4 * PDX va) = PTE_ZERO ->
  freelist st = t :: rest -> 0 <= t < 2 ^ 20 ->
  pdir mod PAGESIZE = 0 -> mem_phys2pi pdir <> t ->
  0 <= pi < 2 ^ 20 -> 0 <= perm < 4096 ->
  exists st',
    pmap_insert pdir pi va perm st = Done (Some (mem_pi2phys t + 4 * PTX va), st') /\
    PGADDR (mem st' (pdir + 4 * PDX va)) = mem_pi2phys t /\
    va2pa pdir va st' = mem_pi2phys pi /\
    (forall i, 0 <= i < 1024 -> i <> PTX va -> mem st' (mem_pi2phys t + 4 * i) = PTE_ZERO) /\
    (forall x, x <> pdir + 4 * PDX va -> mem_phys2pi x <> t -> mem st' x = mem st x) /\
    (forall q, refcount st' q =
               refcount st q + (if q =? t then 1 else 0) + (if q =? pi then 1 else 0)) /\
    freelist st' = rest.
Proof.
  intros Hva Hpde Hfl Ht Hpd Hne Hpi Hperm.
  destruct (walk_creates pdir va st t rest Hva Hpde Hfl Ht Hpd Hne)
    as (st1 & Hwalk & Hent & Hpde1 & Hout & Hrc & Hfl1).
  unfold pmap_insert. rewrite Hwalk. cbn [bind].
  set (p := mem_pi2phys t + 4 * PTX va).
  pose proof (PTX_range va) as Hptx. pose proof (PDX_range va) as Hpdx.
  change (mem (mem_incref pi st1) p) with (mem st1 p).
  unfold p at 1. rewrite Hent, Z.eqb_refl by exact Hptx. cbn [negb bind].
  destruct (entry_of_frame pi perm Hpi Hperm) as (Ha & _ & Hpres).
  set (e := Z.lor (Z.lor (mem_pi2phys pi) perm) PTE_P) in *.
  assert (Hpp : p <> pdir + 4 * PDX va).
  { intros Heq. apply Hne.
    rewrite <- (entry_in_frame pdir (PDX va)) by (unfold PAGESIZE in Hpd; lia).
    rewrite <- Heq. unfold p.
    rewrite entry_in_frame by (try apply pi2phys_aligned; lia).
    apply phys2pi_pi2phys. }
  destruct (PGADDR_frame_flags t 39 Ht ltac:(lia)) as [Hta _].
  eexists. split; [reflexivity|].
  rewrite mem_store, refcount_store, freelist_store.
  cbn [mem_incref set_refcount mem refcount freelist].
  repeat apply conj.
  - rewrite upd_other by congruence. rewrite Hpde1. exact Hta.
  - unfold va2pa. cbv zeta. rewrite mem_store.
    cbn [mem_incref set_refcount mem].
    rewrite (upd_other _ _ _ (pdir + 4 * PDX va)) by congruence.
    rewrite Hpde1, Hta.
    replace (testflag (mem_pi2phys t + 39) PTE_P) with true.
    + cbn [negb]. fold p. rewrite upd_same, Hpres. exact Ha.
    + unfold testflag. rewrite <- lor_page_flags by (try apply pi2phys_aligned; lia).
      rewrite land_entry_flag by (try apply pi2phys_aligned; unfold PTE_P; lia).
      reflexivity.
  - intros i Hi Hneq. rewrite upd_other; [apply Hent, Hi|].
    unfold p. lia.
  - intros x Hx Hxt. rewrite upd_other; [apply Hout; assumption|].
    intros Heq. apply Hxt. rewrite Heq. unfold p.
    rewrite entry_in_frame by (try apply pi2phys_aligned; lia).
    apply phys2pi_pi2phys.
  - intros q. unfold upd. rewrite !Hrc.
    destruct (Z.eqb_spec q pi) as [-> | _]; destruct (Z.eqb_spec pi t); lia || idtac.
    all: try (destruct (Z.eqb_spec q t); lia).
  - exact Hfl1.
Qed.

End InsertMore.

(** *** The same on the example machine *)

Lemma insert_lookup_witness :
  exists st',
    pmap_insert (L := pios) ex_pd 0x400 ex_va PTE_U
      (ex_mapped (PTE_ZERO (Layout := pios)) [] []) = Done (Some ex_pte, st') /\
    va2pa ex_pd ex_va st' = 0x400000 /\
    PGOFF (mem st' ex_pte) = Z.lor PTE_U PTE_P.
Proof.
  destruct (insert_lookup (L := pios) pios_ok ex_pd 0x400 ex_va PTE_U
              (ex_mapped (PTE_ZERO (Layout := pios)) [] []))
    as (st' & Hrun & Hpa & Hperm & _).
  - vm_compute; split; [discriminate | reflexivity].
  - reflexivity.
  - reflexivity.
  - vm_compute; discriminate.
  - lia.
  - unfold PTE_U; lia.
  - exists st'. split; [exact Hrun|]. split; [exact Hpa | exact Hperm].
Defined.

Lemma insert_counts_witness :
  exists st',
    pmap_insert (L := pios) ex_pd 0x401 ex_va PTE_U
      (ex_mapped (Z.lor 0x400000 (Z.lor PTE_P PTE_U)) [(0x400, 1)] [])
    = Done (Some ex_pte, st') /\
    refcount st' 0x400 = 0 /\ refcount st' 0x401 = 1 /\ freelist st' = [0x400].
Proof.
  destruct (insert_counts (L := pios) pios_ok ex_pd 0x401 ex_va PTE_U
              (ex_mapped (Z.lor 0x400000 (Z.lor PTE_P PTE_U)) [(0x400, 1)] []))
    as (st' & Hrun & _ & Hrepl).
  - vm_compute; split; [discriminate | reflexivity].
  - reflexivity.
  - vm_compute; discriminate.
  - destruct Hrepl as [Hrc Hfl].
    + vm_compute; discriminate.
    + vm_compute; discriminate.
    + exists st'. split; [exact Hrun|].
      split; [rewrite Hrc; reflexivity|].
      split; [rewrite Hrc; reflexivity | exact Hfl].
Defined.

Lemma remove_page_unmaps_witness :
  exists st',
    pmap_remove (L := pios) ex_pd ex_va PAGESIZE
      (ex_mapped (Z.lor 0x400000 (Z.lor PTE_P PTE_U)) [(0x400, 1)] []) = Done st' /\
    mem st' ex_pte = PTE_ZERO (Layout := pios) /\
    va2pa ex_pd ex_va st' = 4294967295 /\
    refcount st' 0x400 = 0 /\ freelist st' = [0x400].
Proof.
  destruct (remove_page_unmaps (L := pios) pios_ok ex_pd ex_va
              (ex_mapped (Z.lor 0x400000 (Z.lor PTE_P PTE_U)) [(0x400, 1)] []))
    as (st' & Hrun & Hz & Hpa & _ & Hrc & Hfl & _).
  - vm_compute; split; [discriminate | reflexivity].
  - reflexivity.
  - vm_compute; discriminate.
  - vm_compute; discriminate.
  - exists st'. split; [exact Hrun|]. split; [exact Hz|]. split; [exact Hpa|].
    split; [rewrite Hrc; reflexivity | exact Hfl].
Defined.

Lemma insert_then_remove_witness :
  exists st1 st2,
    pmap_insert (L := pios) ex_pd 0x400 ex_va PTE_U
      (ex_mapped (PTE_ZERO (Layout := pios)) [(0x400, 1)] []) = Done (Some ex_pte, st1) /\
    pmap_remove (L := pios) ex_pd ex_va PAGESIZE st1 = Done st2 /\
    mem st2 ex_pte = PTE_ZERO (Layout := pios) /\
    refcount st2 0x400 = 1 /\ freelist st2 = [].
Proof.
  destruct (insert_then_remove (L := pios) pios_ok ex_pd 0x400 ex_va PTE_U
              (ex_mapped (PTE_ZERO (Layout := pios)) [(0x400, 1)] []))
    as (st1 & st2 & Hins & Hrem & Hz & _ & _ & Hrc & Hfl).
  - vm_compute; split; [discriminate | reflexivity].
  - reflexivity.
  - vm_compute; discriminate.
  - vm_compute; discriminate.
  - reflexivity.
  - vm_compute; discriminate.
  - lia.
  - unfold PTE_U; lia.
  - exists st1, st2. split; [exact Hins|]. split; [exact Hrem|]. split; [exact Hz|].
    split; [rewrite Hrc; reflexivity | exact Hfl].
Defined.

Lemma insert_no_memory_witness :
  exists st',
    pmap_insert (L := pios) ex_pd 0x400 ex_va PTE_U (ex_empty []) = Done (None, st') /\
    refcount st' 0x400 = 0.
Proof.
  destruct (insert_no_memory (L := pios) ex_pd 0x400 ex_va PTE_U (ex_empty []))
    as (st' & Hrun & _ & Hrc & _).
  - vm_compute; split; [discriminate | reflexivity].
  - reflexivity.
  - reflexivity.
  - exists st'. split; [exact Hrun|]. rewrite Hrc. reflexivity.
Defined.

Lemma insert_creates_table_witness :
  exists st',
    pmap_insert (L := pios) ex_pd 0x400 ex_va PTE_U (ex_empty [0x300])
    = Done (Some (mem_pi2phys 0x300 + 4 * PTX ex_va), st') /\
    PGADDR (mem st' (ex_pd + 4 * PDX ex_va)) = 0x300000 /\
    va2pa ex_pd ex_va st' = 0x400000 /\
    refcount st' 0x300 = 1 /\ refcount st' 0x400 = 1 /\ freelist st' = [].
Proof.
  destruct (insert_creates_table (L := pios) pios_ok ex_pd 0x400 ex_va PTE_U 0x300 []
              (ex_empty [0x300]))
    as (st' & Hrun & Hpde & Hpa & _ & _ & Hrc & Hfl).
  - vm_compute; split; [discriminate | reflexivity].
  - reflexivity.
  - reflexivity.
  - lia.
  - reflexivity.
  - vm_compute; discriminate.
  - lia.
  - unfold PTE_U; lia.
  - exists st'. split; [exact Hrun|]. split; [exact Hpde|]. split; [exact Hpa|].
    split; [rewrite Hrc; reflexivity|]. split; [rewrite Hrc; reflexivity | exact Hfl].
Defined.

(* ================================================================== *)
(** ** [pmap_merge]: regions without changes, and missing page tables  *)
(* ================================================================== *)

Section Merge.
Context {L : Layout}.
Hypothesis Hok : layout_ok L.
Variables (rpdir spdir sva dpdir dva size : Z).
Hypothesis Hsva : VM_USERLO <= sva < VM_USERHI.
Hypothesis Hssize : 0 <= size <= VM_USERHI - sva.

(** The outer loop steps over [n] regions whose source PDE equals the
    reference PDE without reading anything else. *)
Lemma merge_loop_skip n : forall fuel i st,
  0 <= i -> i + Z.of_nat n * 4194304 <= size ->
  (forall w, sva + i <= w < sva + i + Z.of_nat n * 4194304 ->
     mem st (spdir + 4 * PDX w) = mem st (rpdir + 4 * PDX w)) ->
  merge_loop (n + fuel) rpdir spdir sva dpdir dva size i st
  = merge_loop fuel rpdir spdir sva dpdir dva size (i + Z.of_nat n * 4194304) st.
Proof.
  destruct Hok as (Hlo & Hlohi & Hhi & _).
  unfold PTSIZE, PAGESIZE, NPTENTRIES in Hhi. change (4096 * 1024) with 4194304 in Hhi.
  induction n as [|k IH]; intros fuel i st Hi Hsz Heq.
  - cbn [Nat.add]. f_equal. lia.
  - cbn [Nat.add merge_loop].
    destruct (Z.ltb_spec i size); [|lia].
    rewrite (wrap32_small (sva + i)) by lia.
    rewrite (Heq (sva + i)) by lia. rewrite Z.eqb_refl.
    change PTSIZE with 4194304. rewrite (wrap32_small (i + 4194304)) by lia.
    rewrite IH.
    + f_equal. lia.
    + lia.
    + lia.
    + intros w Hw. apply Heq. lia.
Qed.

Hypothesis Hsal : sva mod PTSIZE = 0.
Hypothesis Hdva : VM_USERLO <= dva < VM_USERHI.
Hypothesis Hdal : dva mod PTSIZE = 0.
Hypothesis Hdsize : size <= VM_USERHI - dva.
Hypothesis Hzal : size mod PTSIZE = 0.

Lemma pmap_merge_unfold st :
  pmap_merge rpdir spdir sva dpdir dva size st
  = (st1 <- merge_loop (Z.to_nat (size / 4194304)) rpdir spdir sva dpdir dva size 0 st ;;
     Done (size, st1)).
Proof.
  destruct Hok as (Hlo & Hlohi & Hhi & _).
  unfold PTSIZE, PAGESIZE, NPTENTRIES in *. change (4096 * 1024) with 4194304 in *.
  unfold pmap_merge, assert.
  rewrite !PTOFF_mod, Hsal, Hdal, Hzal, !Z.eqb_refl.
  destruct (Z.leb_spec VM_USERLO sva); [|lia].
  destruct (Z.ltb_spec sva VM_USERHI); [|lia].
  destruct (Z.leb_spec VM_USERLO dva); [|lia].
  destruct (Z.ltb_spec dva VM_USERHI); [|lia].
  cbn [andb].
  rewrite (wrap32_small (VM_USERHI - sva)), (wrap32_small (VM_USERHI - dva)) by lia.
  destruct (Z.leb_spec size (VM_USERHI - sva)); [|lia].
  destruct (Z.leb_spec size (VM_USERHI - dva)); [|lia].
  reflexivity.
Qed.

(** X11.  A merge over a range in which the source directory still
    has the PDEs of the reference snapshot does nothing: it returns
    [size] with the whole state as it was, whatever the destination
    holds. *)
Theorem merge_unchanged_source (st : kstate) :
  (forall w, sva <= w < sva + size ->
     mem st (spdir + 4 * PDX w) = mem st (rpdir + 4 * PDX w)) ->
  pmap_merge rpdir spdir sva dpdir dva size st = Done (size, st).
Proof.
  intros Heq. rewrite pmap_merge_unfold.
  change PTSIZE with 4194304 in *. divmod size 4194304.
  assert (Hn : Z.of_nat (Z.to_nat (size / 4194304)) * 4194304 = size) by lia.
  replace (Z.to_nat (size / 4194304)) with (Z.to_nat (size / 4194304) + 0)%nat by lia.
  rewrite merge_loop_skip.
  - rewrite Z.add_0_l, Hn. cbn [merge_loop]. rewrite Z.ltb_irrefl. reflexivity.
  - lia.
  - lia.
  - intros w Hw. apply Heq. lia.
Qed.

(** X12.  A merge that meets a region whose source PDE differs from
    the reference PDE walks the three directories without creating
    page tables and reads through the three results unchecked: if one
    of the three PDEs of region [k] is [PTE_ZERO] (say the source got
    its page table after the snapshot was taken), the merge
    dereferences a null pointer. *)
Theorem merge_missing_table (k : nat) (st : kstate) :
  (Z.of_nat k + 1) * PTSIZE <= size ->
  (forall w, sva <= w < sva + Z.of_nat k * PTSIZE ->
     mem st (spdir + 4 * PDX w) = mem st (rpdir + 4 * PDX w)) ->
  let off := Z.of_nat k * PTSIZE in
  mem st (spdir + 4 * PDX (sva + off)) <> mem st (rpdir + 4 * PDX (sva + off)) ->
  mem st (rpdir + 4 * PDX (sva + off)) = PTE_ZERO \/
  mem st (spdir + 4 * PDX (sva + off)) = PTE_ZERO \/
  mem st (dpdir + 4 * PDX (dva + off)) = PTE_ZERO ->
  pmap_merge rpdir spdir sva dpdir dva size st = NullDeref.
Proof.
  intros Hk Heq off Hdiff Hzero. rewrite pmap_merge_unfold.
  pose proof Hok as (Hlo & Hlohi & Hhi & _).
  unfold PTSIZE, PAGESIZE, NPTENTRIES in *. change (4096 * 1024) with 4194304 in *.
  divmod size 4194304.
  replace (Z.to_nat (size / 4194304))
    with (k + S (Z.to_nat (size / 4194304) - k - 1))%nat by lia.
  rewrite merge_loop_skip by (try lia; intros w Hw; apply Heq; lia).
  rewrite Z.add_0_l. fold off.
  cbn [merge_loop].
  destruct (Z.ltb_spec off size); [|unfold off in *; lia].
  rewrite (wrap32_small (sva + off)) by (unfold off in *; lia).
  destruct (Z.eqb_spec (mem st (spdir + 4 * PDX (sva + off)))
              (mem st (rpdir + 4 * PDX (sva + off)))) as [|_]; [contradiction|].
  assert (Hn : nptentries = S (Nat.pred nptentries)) by reflexivity.
  rewrite Hn. cbn [merge_slots]. unfold merge_slot.
  rewrite (wrap32_small (sva + off)), (wrap32_small (dva + off)) by (unfold off in *; lia).
  assert (Hws : VM_USERLO <= sva + off < VM_USERHI) by (unfold off in *; lia).
  assert (Hwd : VM_USERLO <= dva + off < VM_USERHI) by (unfold off in *; lia).
  destruct (Z.eq_dec (mem st (rpdir + 4 * PDX (sva + off))) PTE_ZERO) as [Hr | Hr];
    [rewrite (walk_absent rpdir _ st Hws Hr) | rewrite (walk_present rpdir _ false st Hws Hr)];
    cbn [bind];
    (destruct (Z.eq_dec (mem st (spdir + 4 * PDX (sva + off))) PTE_ZERO) as [Hs | Hs];
     [rewrite (walk_absent spdir _ st Hws Hs) | rewrite (walk_present spdir _ false st Hws Hs)];
     cbn [bind]);
    (destruct (Z.eq_dec (mem st (dpdir + 4 * PDX (dva + off))) PTE_ZERO) as [Hd | Hd];
     [rewrite (walk_absent dpdir _ st Hwd Hd) | rewrite (walk_present dpdir _ false st Hwd Hd)];
     cbn [bind]);
    try reflexivity.
  exfalso. destruct Hzero as [? | [? | ?]]; contradiction.
Qed.

End Merge.

Lemma merge_unchanged_source_witness :
  pmap_merge (L := pios) ex_pd2 ex_pd 0x40400000 ex_pd 0x40400000 (2 * PTSIZE)
    (ex_snap (Z.lor 0x400000 (Z.lor PTE_P PTE_U)))
  = Done (2 * PTSIZE, ex_snap (Z.lor 0x400000 (Z.lor PTE_P PTE_U))).
Proof.
  apply (merge_unchanged_source (L := pios) pios_ok).
  - vm_compute; split; [discriminate | reflexivity].
  - vm_compute; split; discriminate.
  - reflexivity.
  - vm_compute; split; [discriminate | reflexivity].
  - reflexivity.
  - vm_compute; discriminate.
  - reflexivity.
  - intros w Hw. change (2 * PTSIZE) with 8388608 in Hw.
    rewrite PDX_small by lia.
    assert (Hq : w / 4194304 = 257 \/ w / 4194304 = 258) by (divmod w 4194304; lia).
    destruct Hq as [-> | ->]; reflexivity.
Defined.

Lemma merge_missing_table_witness :
  pmap_merge (L := pios) ex_pd2 ex_pd 0x40000000 ex_pd 0x40000000 PTSIZE
    (ex_snap (Z.lor 0x400000 (Z.lor PTE_P PTE_U)))
  = NullDeref.
Proof.
  apply (merge_missing_table (L := pios) pios_ok ex_pd2 ex_pd 0x40000000 ex_pd 0x40000000
           PTSIZE) with (k := 0%nat).
  - vm_compute; split; [discriminate | reflexivity].
  - vm_compute; split; discriminate.
  - reflexivity.
  - vm_compute; split; [discriminate | reflexivity].
  - reflexivity.
  - vm_compute; discriminate.
  - reflexivity.
  - vm_compute; discriminate.
  - intros w Hw. change (Z.of_nat 0 * PTSIZE) with 0 in Hw. lia.
  - vm_compute; discriminate.
  - left. reflexivity.
Defined.

Lemma PGADDR_set_flag x F : 0 <= F < 4096 -> PGADDR (Z.lor x F) = PGADDR x.
Proof.
  intros HF. unfold PGADDR. rewrite Z.land_lor_distr_l.
  rewrite (Z.land_comm F), (land_page_flags 4294963200 F) by (reflexivity || assumption).
  apply Z.lor_0_r.
Qed.

Lemma PGADDR_clear_W x : PGADDR (Z.land x (not32 PTE_W)) = PGADDR x.
Proof. unfold PGADDR. rewrite <- Z.land_assoc. reflexivity. Qed.

Lemma testflag_clear_W x : testflag (Z.land x (not32 PTE_W)) PTE_W = false.
Proof.
  unfold testflag. rewrite <- Z.land_assoc.
  change (Z.land (not32 PTE_W) PTE_W) with 0. rewrite Z.land_0_r. reflexivity.
Qed.

Lemma testflag_clear_W_other x F :
  Z.land (not32 PTE_W) F = F -> testflag (Z.land x (not32 PTE_W)) F = testflag x F.
Proof. intros HF. unfold testflag. rewrite <- Z.land_assoc, HF. reflexivity. Qed.

Section MergeSlot.
Context {L : Layout}.


End MergeSlot.


(* ================================================================== *)
(** ** Page faults that are not copy-on-write faults                   *)
(* ================================================================== *)

Section PagefaultMore.
Context {L : Layout}.

Lemma pagefault_present pdir fva tf st :
  VM_USERLO <= fva < VM_USERHI ->
  mem st (pdir + 4 * PDX fva) <> PTE_ZERO ->
  let p := PGADDR (mem st (pdir + 4 * PDX fva)) + 4 * PTX fva in
  let e := mem st p in
  negb (testflag e PTE_W) && testflag e SYS_WRITE = false ->
  pmap_pagefault pdir fva tf st
  = if tf_eip tf =? 1050952
    then Done (TrapReturn (set_trapno T_PGFLT tf), store p (Z.lor e (Z.lor PTE_P PTE_W)) st)
    else Done (Returned (set_trapno T_PGFLT tf),
               cprintf (msg_badperm (Z.land (PGOFF e) PTE_W) (Z.land (PGOFF e) SYS_WRITE)) st).
Proof.
  intros Hva Hpde p e Hnc. unfold pmap_pagefault. cbv zeta.
  destruct (Z.ltb_spec fva VM_USERLO); [lia|].
  destruct (Z.geb_spec fva VM_USERHI); [lia|].
  cbn [orb]. rewrite walk_present by assumption. cbn [bind]. fold p. fold e.
  rewrite !testflag_PGOFF by reflexivity. rewrite Hnc.
  reflexivity.
Qed.



End PagefaultMore.



Section PagefaultTable.
Context {L : Layout}.
Hypothesis Hok : layout_ok L.

(** X16.  A fault in a region without a page table.  The handler
    walks in create mode before it looks at the permissions: with a
    free frame [t] at the head of the free list, other than the frame
    of the page-aligned directory, a fault on an address of the user
    window whose PDE is [PTE_ZERO], taken by an instruction that is
    not at 0x100948 (the address the handler treats apart), turns [t]
    into an empty page table, named by the PDE and counted once, and
    is then left to the dispatcher: the address still looks up to
    nothing. *)
Theorem pagefault_makes_table (pdir fva t : Z) (rest : list Z) (tf : trapframe)
    (st : kstate) :
  VM_USERLO <= fva < VM_USERHI ->
  mem st (pdir + 4 * PDX fva) = PTE_ZERO ->
  freelist st = t :: rest -> 0 <= t < 2 ^ 20 ->
  pdir mod PAGESIZE = 0 -> mem_phys2pi pdir <> t ->
  tf_eip tf <> 1050952 ->
  exists st',
    pmap_pagefault pdir fva tf st = Done (Returned (set_trapno T_PGFLT tf), st') /\
    PGADDR (mem st' (pdir + 4 * PDX fva)) = mem_pi2phys t /\
    (forall i, 0 <= i < 1024 -> mem st' (mem_pi2phys t + 4 * i) = PTE_ZERO) /\
    va2pa pdir fva st' = 4294967295 /\
    refcount st' t = refcount st t + 1 /\
    freelist st' = rest.
Proof.
  intros Hva Hpde Hfl Ht Hpd Hne Heip.
  destruct (walk_creates Hok pdir fva st t rest Hva Hpde Hfl Ht Hpd Hne)
    as (st1 & Hwalk & Hent & Hpde1 & _ & Hrc & Hfl1).
  unfold pmap_pagefault. cbv zeta.
  destruct (Z.ltb_spec fva VM_USERLO); [lia|].
  destruct (Z.geb_spec fva VM_USERHI); [lia|].
  cbn [orb]. rewrite Hwalk. cbn [bind].
  pose proof (PTX_range fva) as Hptx.
  rewrite Hent by exact Hptx.
  rewrite !testflag_PGOFF by reflexivity.
  destruct Hok as (_ & _ & _ & _ & _ & Hz & Hza).
  assert (HSW : testflag PTE_ZERO SYS_WRITE = false).
  { unfold testflag. rewrite land_page_flags by (assumption || (unfold SYS_WRITE; lia)).
    reflexivity. }
  rewrite HSW, andb_false_r.
  change (tf_eip (set_trapno T_PGFLT tf)) with (tf_eip tf).
  destruct (Z.eqb_spec (tf_eip tf) 1050952); [contradiction|].
  destruct (PGADDR_frame_flags t 39 Ht ltac:(lia)) as [Hta _].
  eexists. split; [reflexivity|].
  cbn [cprintf mem refcount freelist].
  repeat apply conj.
  - rewrite Hpde1. exact Hta.
  - exact Hent.
  - unfold va2pa. cbv zeta. cbn [cprintf mem]. rewrite Hpde1, Hta.
    replace (testflag (mem_pi2phys t + 39) PTE_P) with true.
    + cbn [negb]. rewrite Hent by exact Hptx.
      unfold testflag. rewrite land_page_flags by (assumption || (unfold PTE_P; lia)).
      reflexivity.
    + unfold testflag. rewrite <- lor_page_flags by (try apply pi2phys_aligned; lia).
      rewrite land_entry_flag by (try apply pi2phys_aligned; unfold PTE_P; lia).
      reflexivity.
  - rewrite Hrc, Z.eqb_refl. reflexivity.
  - exact Hfl1.
Qed.

End PagefaultTable.

Lemma pagefault_makes_table_witness :
  exists st',
    pmap_pagefault (L := pios) ex_pd ex_va ex_tf (ex_empty [0x300])
    = Done (Returned (set_trapno T_PGFLT ex_tf), st') /\
    PGADDR (mem st' (ex_pd + 4 * PDX ex_va)) = 0x300000 /\
    refcount st' 0x300 = 1 /\ freelist st' = [].
Proof.
  destruct (pagefault_makes_table (L := pios) pios_ok ex_pd ex_va 0x300 [] ex_tf
              (ex_empty [0x300]))
    as (st' & Hrun & Hpde & _ & _ & Hrc & Hfl).
  - vm_compute; split; [discriminate | reflexivity].
  - reflexivity.
  - reflexivity.
  - lia.
  - reflexivity.
  - vm_compute; discriminate.
  - vm_compute; discriminate.
  - exists st'. split; [exact Hrun|]. split; [exact Hpde|]. split; [exact Hrc | exact Hfl].
Defined.

(* ================================================================== *)
(** ** [pmap_setperm] on a range with page tables                      *)
(* ================================================================== *)

Lemma same_slot a v :
  0 <= a -> a mod 4096 = 0 -> a <= v < a + 4096 ->
  PDX v = PDX a /\ PTX v = PTX a.
Proof.
  intros Ha Hal Hv. rewrite !PDX_eq, !PTX_eq.
  divmod a 4096. divmod v 4096.
  assert (Hq : v / 4096 = a / 4096) by lia.
  change 4194304 with (4096 * 1024).
  rewrite <- !Z.div_div by lia. rewrite Hq. split; reflexivity.
Qed.

Lemma nominal_perm_range perm :
  0 <= perm < 2 ^ 32 -> Z.land perm (not32 SYS_RW) = 0 ->
  0 <= perm < 4096 /\ Z.land perm PTE_P = 0 /\ Z.land perm PTE_W = 0.
Proof.
  intros Hr Hz.
  assert (Hp : perm = Z.land perm SYS_RW).
  { rewrite <- (Z.mod_small perm (2 ^ 32)) at 1 by lia.
    rewrite <- Z.land_ones by lia.
    change (Z.ones 32) with (Z.lor (not32 SYS_RW) SYS_RW).
    rewrite Z.land_lor_distr_r, Hz. reflexivity. }
  assert (Hm : Z.land perm SYS_RW = Z.land perm SYS_RW mod 4096).
  { rewrite <- PGOFF_mod. unfold PGOFF. rewrite <- Z.land_assoc. reflexivity. }
  rewrite Hp. repeat apply conj.
  - rewrite Hm. apply Z.mod_pos_bound. lia.
  - rewrite Hm. apply Z.mod_pos_bound. lia.
  - rewrite <- Z.land_assoc. change (Z.land SYS_RW PTE_P) with 0. apply Z.land_0_r.
  - rewrite <- Z.land_assoc. change (Z.land SYS_RW PTE_W) with 0. apply Z.land_0_r.
Qed.

Section Setperm.
Context {L : Layout}.
Hypothesis Hok : layout_ok L.
Variables (pdir va size perm : Z) (st0 : kstate).
Hypothesis Hva : VM_USERLO <= va < VM_USERHI.
Hypothesis Hsize : 0 <= size <= VM_USERHI - va.
Hypothesis Hperm : 0 <= perm < 4096.
Hypothesis Hpde : forall v, va <= v < va + size -> mem st0 (pde_slot pdir v) <> PTE_ZERO.

Lemma flags_not_zero x : Z.lor x (Z.lor perm PTE_U) <> PTE_ZERO.
Proof.
  destruct Hok as (_ & _ & _ & _ & _ & Hz & Hza).
  intros Heq.
  assert (H4 : Z.land (Z.lor x (Z.lor perm PTE_U)) PTE_U = 0).
  { rewrite Heq. apply land_page_flags; [assumption | unfold PTE_U; lia]. }
  rewrite !Z.land_lor_distr_l in H4.
  apply Z.lor_eq_0_iff in H4. destruct H4 as [_ H4].
  apply Z.lor_eq_0_iff in H4. destruct H4 as [_ H4]. discriminate.
Qed.

Lemma setperm_loop_ok fuel : forall a cur,
  setperm_inv st0 pdir va perm a cur -> va <= a <= va + size -> a mod 4096 = 0 ->
  (va + size) mod 4096 = 0 ->
  va + size - a <= 4096 * Z.of_nat fuel ->
  exists cur',
    setperm_loop fuel pdir a (va + size) perm cur = Done cur' /\
    setperm_inv st0 pdir va perm (va + size) cur'.
Proof.
  pose proof Hok as (Hlo & Hlohi & Hhi & _).
  unfold PTSIZE, PAGESIZE, NPTENTRIES in Hhi. change (4096 * 1024) with 4194304 in Hhi.
  assert (Hc : 0 <= Z.lor perm PTE_U < 4096)
    by (apply lor_flags_range; [assumption | unfold PTE_U; lia]).
  induction fuel as [|f IH]; intros a cur Hinv Ha Hal Htal Hfuel.
  - assert (a = va + size) by lia. subst a.
    cbn [setperm_loop]. rewrite Z.ltb_irrefl. exists cur. auto.
  - cbn [setperm_loop].
    destruct (Z.ltb_spec a (va + size)) as [Hlt | Hge].
    2:{ assert (a = va + size) by lia. subst a. exists cur. auto. }
    destruct Hinv as (Hmem & Hdone & Hrc & Hfl & Hac).
    assert (Hpa : mem cur (pdir + 4 * PDX a) <> PTE_ZERO /\
                  PGADDR (mem cur (pdir + 4 * PDX a)) = PGADDR (mem st0 (pdir + 4 * PDX a))).
    { destruct (Hmem (pdir + 4 * PDX a)) as [-> | ->].
      - split; [apply (Hpde a); lia | reflexivity].
      - split; [apply flags_not_zero | apply PGADDR_set_flag, Hc]. }
    destruct Hpa as [Hnz Hpg].
    rewrite walk_present by (assumption || lia). cbn [bind].
    rewrite Hpg. fold (pde_slot pdir a). fold (pte_slot st0 pdir a).
    set (p := pte_slot st0 pdir a).
    unfold PAGESIZE. rewrite (wrap32_small (a + 4096)) by lia.
    assert (Hnew : Z.lor (mem cur p) (Z.lor perm PTE_U)
                   = Z.lor (mem st0 p) (Z.lor perm PTE_U)).
    { destruct (Hmem p) as [-> | ->]; [reflexivity|].
      rewrite <- Z.lor_assoc, Z.lor_diag. reflexivity. }
    rewrite Hnew.
    divmod a 4096. divmod (va + size) 4096.
    apply IH.
    + repeat apply conj; try assumption.
      * intros x. rewrite mem_store. unfold upd.
        destruct (Z.eqb_spec x p) as [-> | _]; [now right | apply Hmem].
      * intros v Hv. rewrite mem_store. unfold upd.
        destruct (Z.eqb_spec (pte_slot st0 pdir v) p) as [-> | Hx]; [reflexivity|].
        destruct (Z_lt_le_dec v a) as [Hlt' | Hge']; [apply Hdone; lia|].
        exfalso. apply Hx. unfold p, pte_slot, pde_slot.
        destruct (same_slot a v ltac:(lia) Hal ltac:(lia)) as [-> ->]. reflexivity.
    + lia.
    + rewrite Z.add_mod, Hal by lia. reflexivity.
    + exact Htal.
    + lia.
Qed.

End Setperm.

Section SetpermTheorem.
Context {L : Layout}.
Hypothesis Hok : layout_ok L.

(** X17.  [pmap_setperm] over a range whose page tables exist
    returns [size]; the PTE of every page of the range has gained the
    flags [perm | PTE_U]; every cell of memory is as it was or has
    gained those flags, so no frame address and no P or W bit changes
    anywhere and no flag is ever taken away (a call with [perm = 0]
    revokes nothing); counts and the free list are untouched and no
    frame is allocated. *)
Theorem setperm_adds_flags (pdir va size perm : Z) (st : kstate) :
  VM_USERLO <= va < VM_USERHI -> 0 <= size <= VM_USERHI - va ->
  va mod PAGESIZE = 0 -> size mod PAGESIZE = 0 ->
  0 <= perm < 2 ^ 32 -> Z.land perm (not32 SYS_RW) = 0 ->
  (forall v, va <= v < va + size -> mem st (pde_slot pdir v) <> PTE_ZERO) ->
  exists st',
    pmap_setperm pdir va size perm st = Done (size, st') /\
    (forall v, va <= v < va + size ->
       mem st' (pte_slot st pdir v)
       = Z.lor (mem st (pte_slot st pdir v)) (Z.lor perm PTE_U)) /\
    (forall x, mem st' x = mem st x \/ mem st' x = Z.lor (mem st x) (Z.lor perm PTE_U)) /\
    (forall x, PGADDR (mem st' x) = PGADDR (mem st x) /\
               testflag (mem st' x) PTE_P = testflag (mem st x) PTE_P /\
               testflag (mem st' x) PTE_W = testflag (mem st x) PTE_W) /\
    refcount st' = refcount st /\ freelist st' = freelist st /\
    alloc_calls st' = alloc_calls st.
Proof.
  intros Hva Hsize Hal Hsal Hp32 Hpz Hpde.
  destruct (nominal_perm_range perm Hp32 Hpz) as (Hperm & HpP & HpW).
  pose proof Hok as (Hlo & Hlohi & Hhi & _).
  unfold PTSIZE, PAGESIZE, NPTENTRIES in *. change (4096 * 1024) with 4194304 in *.
  divmod va 4096. divmod size 4096.
  unfold pmap_setperm, assert.
  rewrite !PGOFF_mod, Hal, Hsal, Hpz, !Z.eqb_refl.
  destruct (Z.leb_spec VM_USERLO va); [|lia].
  destruct (Z.ltb_spec va VM_USERHI); [|lia].
  cbn [andb]. rewrite (wrap32_small (VM_USERHI - va)) by lia.
  destruct (Z.leb_spec size (VM_USERHI - va)); [|lia].
  rewrite (wrap32_small (va + size)) by lia.
  destruct (setperm_loop_ok Hok pdir va size perm st Hva Hsize Hperm Hpde
              (Z.to_nat (size / PAGESIZE)) va st)
    as (st' & Hrun & Hmem & Hdone & Hrc & Hfl & Hac).
  { repeat apply conj; auto. intros v Hv. lia. }
  { lia. }
  { exact Hal. }
  { rewrite Z.add_mod, Hal, Hsal by lia. reflexivity. }
  { unfold PAGESIZE. lia. }
  unfold PAGESIZE in *. rewrite Hrun. cbn [bind].
  exists st'. split; [reflexivity|].
  repeat apply conj; try assumption.
  intros x. destruct (Hmem x) as [-> | ->]; [repeat apply conj; reflexivity|].
  repeat apply conj.
  - apply PGADDR_set_flag. apply lor_flags_range; [assumption | unfold PTE_U; lia].
  - unfold testflag. rewrite !Z.land_lor_distr_l, HpP.
    change (Z.land PTE_U PTE_P) with 0. rewrite !Z.lor_0_r. reflexivity.
  - unfold testflag. rewrite !Z.land_lor_distr_l, HpW.
    change (Z.land PTE_U PTE_W) with 0. rewrite !Z.lor_0_r. reflexivity.
Qed.

End SetpermTheorem.

Lemma setperm_adds_flags_witness :
  exists st',
    pmap_setperm (L := pios) ex_pd ex_va (2 * PAGESIZE) SYS_READ
      (ex_mapped (Z.lor 0x400000 (Z.lor PTE_P PTE_W)) [(0x400, 1)] [])
    = Done (2 * PAGESIZE, st') /\
    mem st' ex_pte = Z.lor (Z.lor 0x400000 (Z.lor PTE_P PTE_W)) (Z.lor SYS_READ PTE_U) /\
    freelist st' = [].
Proof.
  destruct (setperm_adds_flags (L := pios) pios_ok ex_pd ex_va (2 * PAGESIZE) SYS_READ
              (ex_mapped (Z.lor 0x400000 (Z.lor PTE_P PTE_W)) [(0x400, 1)] []))
    as (st' & Hrun & Hdone & _ & _ & _ & Hfl & _).
  - vm_compute; split; [discriminate | reflexivity].
  - vm_compute; split; discriminate.
  - reflexivity.
  - reflexivity.
  - vm_compute; split; [discriminate | reflexivity].
  - reflexivity.
  - intros v Hv. change (ex_va + 2 * PAGESIZE) with 1073754112 in Hv.
    change ex_va with 1073745920 in Hv.
    unfold pde_slot. rewrite PDX_small by lia.
    replace (v / 4194304) with 256 by (divmod v 4194304; lia).
    vm_compute; discriminate.
  - exists st'. split; [exact Hrun|]. split; [|exact Hfl].
    apply (Hdone ex_va). vm_compute; split; [discriminate | reflexivity].
Defined.

(* ================================================================== *)
(** ** [usercopy]: out and back in                                     *)
(* ================================================================== *)

Section UsercopyRoundTrip.
Context {L : Layout}.


End UsercopyRoundTrip.


(* ================================================================== *)
(** ** Freeing a page table; copying a region and dropping the copy    *)
(* ================================================================== *)

Section CopyTeardown.
Context {L : Layout}.
Hypothesis Hok : layout_ok L.

Lemma refs_to_ext m1 m2 T1 T2 f n :
  (forall i, 0 <= i < Z.of_nat n -> PGADDR (m1 (T1 + 4 * i)) = PGADDR (m2 (T2 + 4 * i))) ->
  refs_to L m1 T1 f n = refs_to L m2 T2 f n.
Proof.
  induction n as [|k IH]; intros Heq; [reflexivity|].
  cbn [refs_to]. rewrite IH by (intros i Hi; apply Heq; lia).
  rewrite (Heq (Z.of_nat k)) by lia. reflexivity.
Qed.

Lemma freeptab_entries_counts n T st f :
  refcount (freeptab_entries n T st) f = refcount st f - refs_to L (mem st) T f n.
Proof.
  induction n as [|k IH]; [cbn; lia|].
  cbn [freeptab_entries refs_to]. cbv zeta.
  destruct (freeptab_entries_frame k T st) as [Hm _]. rewrite Hm.
  rewrite (PTE_ZERO_fixed Hok).
  destruct (Z.eqb_spec (PGADDR (mem st (T + 4 * Z.of_nat k))) PTE_ZERO) as [_ | _];
    cbn [negb andb]; [lia|].
  rewrite decref_free_refcount. unfold upd.
  destruct (Z.eqb_spec f (mem_phys2pi (PGADDR (mem st (T + 4 * Z.of_nat k))))) as [-> | Hne].
  - rewrite Z.eqb_refl, IH. lia.
  - destruct (Z.eqb_spec (mem_phys2pi (PGADDR (mem st (T + 4 * Z.of_nat k)))) f);
      [congruence | lia].
Qed.

(** X19.  [pmap_freeptab] takes, from the count of every frame, one
    for each entry of the table that maps it (entries over the zero
    frame are not counted); it puts the table's frame at the head of
    the free list, leaves memory as it is and allocates nothing. *)
Theorem freeptab_counts (ptabpi : Z) (st : kstate) :
  let st' := pmap_freeptab ptabpi st in
  mem st' = mem st /\
  (forall f, refcount st' f
             = refcount st f - refs_to L (mem st) (mem_pi2ptr ptabpi) f nptentries) /\
  (exists fl, freelist st' = ptabpi :: fl) /\
  alloc_calls st' = alloc_calls st.
Proof.
  intros st'. subst st'. unfold pmap_freeptab.
  destruct (freeptab_entries_frame nptentries (mem_pi2ptr ptabpi) st) as [Hm Ha].
  pose proof (freeptab_entries_counts nptentries (mem_pi2ptr ptabpi) st) as Hc.
  generalize dependent (freeptab_entries nptentries (mem_pi2ptr ptabpi) st).
  intros st1 Hm Ha Hc.
  cbn [mem_free mem refcount freelist alloc_calls].
  repeat apply conj; try assumption.
  eexists; reflexivity.
Qed.

(** Unmapping exactly one page table runs the body of the bulk loop
    once. *)
Lemma remove_one_table pdir va st :
  VM_USERLO <= va < VM_USERHI -> va mod PTSIZE = 0 ->
  pmap_remove pdir va PTSIZE st = Done (remove_ptab pdir va st).
Proof.
  intros Hva Hal.
  pose proof Hok as (Hlo & Hlohi & Hhi & Hloal & Hhial & Hz & Hza).
  unfold PTSIZE, PAGESIZE, NPTENTRIES in *. change (4096 * 1024) with 4194304 in *.
  divmod va 4194304. divmod VM_USERHI 4194304.
  assert (Hal12 : va mod 4096 = 0).
  { replace va with (va / 4194304 * 1024 * 4096) by lia. apply Z.mod_mul. lia. }
  unfold pmap_remove, assert.
  rewrite !PGOFF_mod, Hal12. change (4194304 mod 4096) with 0. rewrite !Z.eqb_refl.
  destruct (Z.leb_spec VM_USERLO va); [|lia].
  destruct (Z.ltb_spec va VM_USERHI); [|lia].
  cbn [andb]. rewrite (wrap32_small (VM_USERHI - va)) by lia.
  destruct (Z.leb_spec 4194304 (VM_USERHI - va)); [|lia].
  cbv zeta. rewrite (wrap32_small (va + 4194304)) by lia.
  change (Z.to_nat (4194304 / PAGESIZE)) with (S (Z.to_nat 1023)).
  cbn [remove_head]. unfold ROUNDUP, ROUNDDOWN, PTSIZE, PAGESIZE, NPTENTRIES.
  change (4096 * 1024) with 4194304.
  rewrite (wrap32_small (va + 4194304 - 1)) by lia.
  replace ((va + 4194304 - 1) mod 4194304) with 4194303.
  2:{ apply (Z.mod_unique_pos _ _ (va / 4194304)); lia. }
  destruct (Z.ltb_spec va (va + 4194304 - 1 - 4194303)); [lia|].
  cbn [andb bind remove_bulk]. unfold ROUNDDOWN, PTSIZE, PAGESIZE, NPTENTRIES.
  change (4096 * 1024) with 4194304.
  rewrite (wrap32_small (va + 4194304)) by lia.
  replace ((va + 4194304) mod 4194304) with 0.
  2:{ apply (Z.mod_unique_pos _ _ (va / 4194304 + 1)); lia. }
  destruct (Z.leb_spec (va + 4194304) (va + 4194304 - 0)); [|lia].
  replace (va + 4194304 - va) with 4194304 by lia.
  change (wrap32 4194304 >=? 4194304) with true. cbv iota.
  rewrite (wrap32_small (va + 4194304 + 4194304)) by lia.
  destruct (Z.leb_spec (va + 4194304 + 4194304) (va + 4194304 - 0)); [lia|].
  cbn [bind remove_tail]. rewrite Z.ltb_irrefl. reflexivity.
Qed.

(** Copying exactly one region runs the body of the loop once. *)
Lemma copy_one_region spdir sva dpdir dva st :
  VM_USERLO <= sva < VM_USERHI -> VM_USERLO <= dva < VM_USERHI ->
  sva mod PTSIZE = 0 -> dva mod PTSIZE = 0 ->
  pmap_copy spdir sva dpdir dva PTSIZE st
  = ('(ok, st') <- copy_pde (spdir + 4 * PDX sva) (dpdir + 4 * PDX dva) st ;;
     if ok then Done (1, st') else Done (0, st')).
Proof.
  intros Hsva Hdva Hsal Hdal.
  pose proof Hok as (Hlo & Hlohi & Hhi & Hloal & Hhial & Hz & Hza).
  unfold PTSIZE, PAGESIZE, NPTENTRIES in *. change (4096 * 1024) with 4194304 in *.
  divmod sva 4194304. divmod dva 4194304. divmod VM_USERHI 4194304.
  unfold pmap_copy, assert.
  rewrite !PTOFF_mod, Hsal, Hdal. change (4194304 mod 4194304) with 0.
  rewrite !Z.eqb_refl.
  destruct (Z.leb_spec VM_USERLO sva); [|lia].
  destruct (Z.ltb_spec sva VM_USERHI); [|lia].
  destruct (Z.leb_spec VM_USERLO dva); [|lia].
  destruct (Z.ltb_spec dva VM_USERHI); [|lia].
  cbn [andb].
  rewrite (wrap32_small (VM_USERHI - sva)), (wrap32_small (VM_USERHI - dva)) by lia.
  destruct (Z.leb_spec 4194304 (VM_USERHI - sva)); [|lia].
  destruct (Z.leb_spec 4194304 (VM_USERHI - dva)); [|lia].
  rewrite (wrap32_small (sva + 4194304)) by lia.
  change (Z.to_nat (4194304 / PTSIZE)) with 1%nat.
  cbn [copy_loop].
  destruct (Z.ltb_spec sva (sva + 4194304)); [|lia].
  destruct (copy_pde (spdir + 4 * PDX sva) (dpdir + 4 * PDX dva) st)
    as [[ok st'] | | |]; cbn [bind]; try reflexivity.
  destruct ok; [|reflexivity].
  unfold PTSIZE, PAGESIZE, NPTENTRIES. change (4096 * 1024) with 4194304.
  rewrite (wrap32_small (sva + 4194304)) by lia.
  rewrite Z.ltb_irrefl. reflexivity.
Qed.

(** X20.  Copy a region, then drop the copy.  After [pmap_copy] of one
    4 MiB region whose page table exists, with a free frame [t] for
    the new table, [pmap_remove] of the destination region undoes the
    accounting of the copy: the destination PDE is [PTE_ZERO] again,
    the count of every frame other than [t] is what it was before the
    copy, and [t] is back at the head of the free list. *)
Theorem copy_then_remove (spdir sva dpdir dva t : Z) (rest : list Z) (st : kstate) :
  VM_USERLO <= sva < VM_USERHI -> VM_USERLO <= dva < VM_USERHI ->
  sva mod PTSIZE = 0 -> dva mod PTSIZE = 0 ->
  let sp := spdir + 4 * PDX sva in
  let dp := dpdir + 4 * PDX dva in
  let T := PGADDR (mem st sp) in
  T <> PTE_ZERO ->
  freelist st = t :: rest -> 0 <= t < 2 ^ 20 -> mem_pi2phys t <> PTE_ZERO ->
  mem_phys2pi T <> t -> sp <> dp ->
  mem_phys2pi sp <> t -> mem_phys2pi dp <> t ->
  mem_phys2pi sp <> mem_phys2pi T -> mem_phys2pi dp <> mem_phys2pi T ->
  exists st1 st2,
    pmap_copy spdir sva dpdir dva PTSIZE st = Done (1, st1) /\
    pmap_remove dpdir dva PTSIZE st1 = Done st2 /\
    mem st2 dp = PTE_ZERO /\
    (forall x, x <> dp -> mem st2 x = mem st1 x) /\
    (forall f, f <> t -> refcount st2 f = refcount st f) /\
    (exists fl, freelist st2 = t :: fl).
Proof.
  intros Hsva Hdva Hsal Hdal sp dp T HT Hfl Ht Htz HTt Hsd Hst Hdt HsT HdT.
  destruct (copy_pde_table sp dp st t rest HT Hfl Ht HTt Hsd Hst Hdt HsT HdT)
    as (st1 & Hrun & Hrc1 & Hdp & _ & Hent & Hnew & Hrefs & _).
  fold T in Hent, Hnew, Hrefs.
  rewrite copy_one_region by assumption. fold sp dp. rewrite Hrun. cbn [bind].
  exists st1. eexists. split; [reflexivity|].
  rewrite remove_one_table by assumption.
  split; [reflexivity|].
  unfold remove_ptab. fold dp. cbv zeta. rewrite Hdp.
  assert (Hpa : PGADDR (Z.lor (mem_pi2phys t) (PGOFF (mem st sp))) = mem_pi2phys t).
  { rewrite lor_page_flags by (apply pi2phys_aligned || apply PGOFF_range).
    apply PGADDR_frame_flags; [assumption | apply PGOFF_range]. }
  destruct (Z.eqb_spec (Z.lor (mem_pi2phys t) (PGOFF (mem st sp))) PTE_ZERO) as [Heq | _].
  { exfalso. apply Htz. rewrite <- Hpa, Heq. apply (PTE_ZERO_fixed Hok). }
  rewrite Hpa, phys2pi_pi2phys.
  unfold mem_decref. cbv zeta. cbn [set_refcount refcount].
  rewrite upd_same, Hrc1. change (1 - 1 =? 0) with true. cbv iota.
  set (st1' := set_refcount t (1 - 1) st1).
  destruct (freeptab_counts t st1') as (Hm & Hc & Hfl2 & _).
  generalize dependent (pmap_freeptab t st1'). intros st2 Hm Hc Hfl2.
  rewrite mem_store, refcount_store, freelist_store.
  repeat apply conj.
  - apply upd_same.
  - intros x Hx. rewrite upd_other by assumption. rewrite Hm. reflexivity.
  - intros f Hf. rewrite Hc. unfold st1'. cbn [set_refcount refcount mem].
    rewrite upd_other by assumption. rewrite Hrefs by assumption.
    rewrite (refs_to_ext (mem st1) (mem st) (mem_pi2ptr t) T f nptentries); [lia|].
    intros i Hi. rewrite nptentries_Z in Hi. unfold mem_pi2ptr.
    rewrite Hnew, Hent by assumption.
    destruct (PGADDR (mem st (T + 4 * i)) =? PGADDR PTE_ZERO); [reflexivity|].
    apply cow_entry_facts.
  - exact Hfl2.
Qed.

End CopyTeardown.

Lemma freeptab_counts_witness :
  let st := ex_mapped (Z.lor 0x400000 (Z.lor PTE_P PTE_U)) [(0x400, 1)] [] in
  refcount (pmap_freeptab (L := pios) 0x201 st) 0x400 = 0 /\
  exists fl, freelist (pmap_freeptab (L := pios) 0x201 st) = 0x201 :: fl.
Proof.
  intros st.
  destruct (freeptab_counts (L := pios) pios_ok 0x201 st) as (_ & Hc & Hfl & _).
  split; [|exact Hfl].
  rewrite Hc. vm_compute. reflexivity.
Defined.

Lemma copy_then_remove_witness :
  exists st1 st2,
    pmap_copy (L := pios) ex_pd 0x40000000 ex_pd2 0x40000000 PTSIZE
      (ex_mapped (Z.lor 0x400000 (Z.lor (Z.lor PTE_P PTE_U) PTE_W)) [(0x400, 1)] [0x300])
    = Done (1, st1) /\
    pmap_remove (L := pios) ex_pd2 0x40000000 PTSIZE st1 = Done st2 /\
    mem st2 (ex_pd2 + 4 * PDX 0x40000000) = PTE_ZERO (Layout := pios) /\
    refcount st2 0x400 = 1 /\
    exists fl, freelist st2 = 0x300 :: fl.
Proof.
  destruct (copy_then_remove (L := pios) pios_ok ex_pd 0x40000000 ex_pd2 0x40000000 0x300 []
              (ex_mapped (Z.lor 0x400000 (Z.lor (Z.lor PTE_P PTE_U) PTE_W))
                 [(0x400, 1)] [0x300]))
    as (st1 & st2 & Hcopy & Hrem & Hz & _ & Hrc & Hfl).
  - vm_compute; split; [discriminate | reflexivity].
  - vm_compute; split; [discriminate | reflexivity].
  - reflexivity.
  - reflexivity.
  - vm_compute; discriminate.
  - reflexivity.
  - lia.
  - vm_compute; discriminate.
  - vm_compute; discriminate.
  - vm_compute; discriminate.
  - vm_compute; discriminate.
  - vm_compute; discriminate.
  - vm_compute; discriminate.
  - vm_compute; discriminate.
  - exists st1, st2. split; [exact Hcopy|]. split; [exact Hrem|]. split; [exact Hz|].
    split; [|exact Hfl]. rewrite Hrc by discriminate. reflexivity.
Defined.

(* ================================================================== *)
(** ** The permission block of [do_put] and [do_get]                   *)
(* ================================================================== *)

Section SysPermFacts.
Context {L : Layout}.

(** X21.  The permission block does not validate its range.  With an
    address outside the user window and a size that is not zero (and
    does not wrap), its first walk fails the assertion of [pmap_walk]:
    the kernel panics, whatever the flags and the state. *)
Theorem sys_perm_outside_panics (pdir dva size flags : Z) (st : kstate) :
  dva < VM_USERLO \/ VM_USERHI <= dva ->
  0 <= dva -> 0 < size -> dva + size < 2 ^ 32 ->
  sys_perm pdir dva size flags st = Panic "va >= VM_USERLO && va < VM_USERHI".
Proof.
  intros Hout Hd Hs Hw. unfold sys_perm. cbv zeta. cbn [perm_loop].
  rewrite wrap32_small by lia.
  destruct (Z.ltb_spec dva (dva + size)); [|lia].
  unfold pmap_walk, assert.
  replace ((VM_USERLO <=? dva) && (dva <? VM_USERHI)) with false; [reflexivity|].
  symmetry. apply andb_false_iff.
  destruct Hout; [left; apply Z.leb_gt | right; apply Z.ltb_ge]; lia.
Qed.

Hypothesis Hok : layout_ok L.

(** X22.  The permission block on one page whose page table exists.
    The entry is rewritten in place and nothing else changes.  With
    [SYS_READ] among the flags the entry gains P and U besides the
    nominal bits asked for; with [SYS_WRITE] alone it gains only that
    nominal bit; with neither, every flag of the entry is cleared and
    only the frame address stays.  The W bit is never set. *)
Theorem sys_perm_one_page (pdir dva flags : Z) (st : kstate) :
  VM_USERLO <= dva < VM_USERHI ->
  mem st (pdir + 4 * PDX dva) <> PTE_ZERO ->
  let p := PGADDR (mem st (pdir + 4 * PDX dva)) + 4 * PTX dva in
  let e := mem st p in
  let nom := Z.land flags SYS_RW in
  exists st',
    sys_perm pdir dva PAGESIZE flags st = Done st' /\
    (testflag flags SYS_READ = true ->
       mem st' p = Z.lor e (Z.lor nom (Z.lor PTE_P PTE_U)) /\
       testflag (mem st' p) PTE_P = true /\ testflag (mem st' p) PTE_U = true) /\
    (testflag flags SYS_READ = false -> testflag flags SYS_WRITE = true ->
       mem st' p = Z.lor e SYS_WRITE /\
       testflag (mem st' p) PTE_P = testflag e PTE_P) /\
    (testflag flags SYS_READ = false -> testflag flags SYS_WRITE = false ->
       mem st' p = PGADDR e /\ PGOFF (mem st' p) = 0) /\
    PGADDR (mem st' p) = PGADDR e /\
    testflag (mem st' p) PTE_W = (testflag e PTE_W && (testflag flags SYS_READ || testflag flags SYS_WRITE)) /\
    (forall x, x <> p -> mem st' x = mem st x) /\
    refcount st' = refcount st /\ freelist st' = freelist st /\
    alloc_calls st' = alloc_calls st.
Proof.
  intros Hva Hpde p e nom.
  pose proof Hok as (Hlo & Hlohi & Hhi & _).
  unfold PTSIZE, PAGESIZE, NPTENTRIES in *. change (4096 * 1024) with 4194304 in *.
  unfold sys_perm. cbv zeta. fold nom.
  unfold PAGESIZE. change (Z.to_nat (4096 / 4096)) with 1%nat.
  cbn [perm_loop]. unfold PAGESIZE.
  rewrite (wrap32_small (dva + 4096)) by lia.
  destruct (Z.ltb_spec dva (dva + 4096)); [|lia].
  rewrite walk_present by assumption. cbn [bind]. fold p. fold e.
  rewrite Z.ltb_irrefl.
  assert (HnR : Z.land nom SYS_READ = Z.land flags SYS_READ).
  { unfold nom. rewrite <- Z.land_assoc. reflexivity. }
  assert (HnW : Z.land nom SYS_WRITE = Z.land flags SYS_WRITE).
  { unfold nom. rewrite <- Z.land_assoc. reflexivity. }
  assert (Hnom : nom = Z.lor (Z.land flags SYS_READ) (Z.land flags SYS_WRITE)).
  { unfold nom. rewrite <- Z.land_lor_distr_r. reflexivity. }
  assert (HnP : Z.land nom PTE_P = 0 /\ Z.land nom PTE_W = 0 /\ 0 <= nom < 4096).
  { unfold nom. rewrite <- !Z.land_assoc.
    change (Z.land SYS_RW PTE_P) with 0. change (Z.land SYS_RW PTE_W) with 0.
    rewrite Z.land_0_r. repeat apply conj; try reflexivity.
    - apply Z.land_nonneg. right. unfold SYS_RW. lia.
    - assert (Hm : Z.land flags SYS_RW = Z.land flags SYS_RW mod 4096).
      { rewrite <- PGOFF_mod. unfold PGOFF. rewrite <- Z.land_assoc. reflexivity. }
      rewrite Hm. apply Z.mod_pos_bound. lia. }
  destruct HnP as (HnP & HnWb & Hnr).
  rewrite HnR.
  unfold testflag.
  destruct (Z.eqb_spec (Z.land flags SYS_READ) 0) as [HR | HR]; cbn [negb].
  - (* no SYS_READ *)
    destruct (Z.eqb_spec (Z.land flags SYS_WRITE) 0) as [HW | HW]; cbn [negb].
    + assert (Hn0 : nom = 0) by (rewrite Hnom, HR, HW; reflexivity).
      rewrite Hn0. cbn [Z.eqb negb].
      eexists. split; [reflexivity|].
      rewrite mem_store, upd_same.
      assert (Hoff : PGOFF (PGADDR e) = 0).
      { rewrite PGOFF_mod. apply PGADDR_range. }
      assert (Hidem : PGADDR (PGADDR e) = PGADDR e).
      { apply PGADDR_aligned; apply PGADDR_range. }
      repeat apply conj; try reflexivity; try discriminate; auto.
      * rewrite (land_page_flags (PGADDR e) PTE_W)
          by (apply PGADDR_range || (unfold PTE_W; lia)).
        rewrite andb_false_r. reflexivity.
      * intros x Hx. rewrite upd_other by assumption. reflexivity.
    + assert (Hn : nom = Z.land flags SYS_WRITE) by (rewrite Hnom, HR; reflexivity).
      assert (Hn1 : nom = SYS_WRITE).
      { rewrite Hn. unfold SYS_WRITE in *. change 1024 with (2 ^ 10) in *.
        destruct (Z.testbit flags 10) eqn:Hb.
        - apply Z.bits_inj'. intros k Hk. rewrite Z.land_spec, Z.pow2_bits_eqb by lia.
          destruct (Z.eqb_spec 10 k) as [<- | _]; [now rewrite Hb | apply andb_false_r].
        - exfalso. apply HW. apply Z.bits_inj'. intros k Hk.
          rewrite Z.land_spec, Z.pow2_bits_eqb, Z.bits_0 by lia.
          destruct (Z.eqb_spec 10 k) as [<- | _]; [now rewrite Hb | apply andb_false_r]. }
      rewrite Hn1. change (negb (SYS_WRITE =? 0)) with true. cbv iota.
      eexists. split; [reflexivity|].
      rewrite mem_store, upd_same.
      repeat apply conj; try reflexivity; try discriminate; auto.
      * intros _ _. split; [reflexivity|].
        rewrite Z.land_lor_distr_l. change (Z.land SYS_WRITE PTE_P) with 0.
        rewrite Z.lor_0_r. reflexivity.
      * apply PGADDR_set_flag. unfold SYS_WRITE. lia.
      * rewrite Z.land_lor_distr_l. change (Z.land SYS_WRITE PTE_W) with 0.
        rewrite Z.lor_0_r, andb_true_r. reflexivity.
      * intros x Hx. rewrite upd_other by assumption. reflexivity.
  - (* SYS_READ *)
    assert (Hc : 0 <= Z.lor nom (Z.lor PTE_P PTE_U) < 4096)
      by (apply lor_flags_range; [assumption | cbn; lia]).
    destruct (Z.eqb_spec (Z.lor nom (Z.lor PTE_P PTE_U)) 0) as [H0 | _].
    { apply Z.lor_eq_0_iff in H0. destruct H0 as [_ H0]. discriminate. }
    cbn [negb].
    eexists. split; [reflexivity|].
    rewrite mem_store, upd_same.
    assert (Hbit : forall F, Z.land (Z.lor PTE_P PTE_U) F <> 0 ->
              negb (Z.land (Z.lor e (Z.lor nom (Z.lor PTE_P PTE_U))) F =? 0) = true).
    { intros F HF. rewrite !Z.land_lor_distr_l.
      destruct (Z.eqb_spec (Z.lor (Z.land e F)
                  (Z.lor (Z.land nom F) (Z.lor (Z.land PTE_P F) (Z.land PTE_U F)))) 0)
        as [H0 | _]; [|reflexivity].
      apply Z.lor_eq_0_iff in H0. destruct H0 as [_ H0].
      apply Z.lor_eq_0_iff in H0. destruct H0 as [_ H0].
      rewrite <- Z.land_lor_distr_l in H0. contradiction. }
    repeat apply conj; try reflexivity; try discriminate; auto.
    + intros _. repeat apply conj; [reflexivity | apply Hbit; discriminate
                                    | apply Hbit; discriminate].
    + apply PGADDR_set_flag. exact Hc.
    + rewrite !Z.land_lor_distr_l, HnWb.
      change (Z.land (Z.lor PTE_P PTE_U) PTE_W) with 0.
      rewrite !Z.lor_0_r, andb_true_r. reflexivity.
    + intros x Hx. rewrite upd_other by assumption. reflexivity.
Qed.

End SysPermFacts.

Lemma sys_perm_outside_panics_witness :
  sys_perm (L := pios) ex_pd 0x1000 0x1000 SYS_READ (ex_empty [])
  = Panic "va >= VM_USERLO && va < VM_USERHI".
Proof.
  apply (sys_perm_outside_panics (L := pios)).
  - left. vm_compute. reflexivity.
  - lia.
  - lia.
  - vm_compute. reflexivity.
Defined.

Lemma sys_perm_one_page_witness :
  exists st',
    sys_perm (L := pios) ex_pd ex_va PAGESIZE SYS_READ
      (ex_mapped (PTE_ZERO (Layout := pios)) [] []) = Done st' /\
    testflag (mem st' ex_pte) PTE_P = true /\
    testflag (mem st' ex_pte) PTE_W = false /\
    PGADDR (mem st' ex_pte) = PTE_ZERO (Layout := pios).
Proof.
  destruct (sys_perm_one_page (L := pios) pios_ok ex_pd ex_va SYS_READ
              (ex_mapped (PTE_ZERO (Layout := pios)) [] []))
    as (st' & Hrun & Hread & _ & _ & HA & HW & _).
  - vm_compute; split; [discriminate | reflexivity].
  - vm_compute; discriminate.
  - destruct (Hread eq_refl) as (_ & HP & _).
    exists st'. split; [exact Hrun|]. split; [exact HP|]. split; [exact HW | exact HA].
Defined.

(* ================================================================== *)
(** ** The text display                                                *)
(* ================================================================== *)

Lemma shift_right_spec n : forall i t buf x,
  shift_right n i t buf x
  = if (i <=? x) && (x <? i + Z.of_nat n)
    then (if x =? i then t else buf (x - 1)) else buf x.
Proof.
  induction n as [|k IH]; intros i t buf x.
  - cbn [shift_right]. destruct (Z.leb_spec i x); destruct (Z.ltb_spec x (i + Z.of_nat 0));
      cbn [andb]; try reflexivity; lia.
  - cbn [shift_right]. rewrite IH. unfold upd.
    destruct (Z.leb_spec (i + 1) x); destruct (Z.ltb_spec x (i + 1 + Z.of_nat k));
      destruct (Z.leb_spec i x); destruct (Z.ltb_spec x (i + Z.of_nat (S k)));
      cbn [andb]; try lia;
      destruct (Z.eqb_spec x (i + 1)); destruct (Z.eqb_spec x i);
      destruct (Z.eqb_spec (x - 1) i); try lia; try reflexivity.
    subst x. f_equal. lia.
Qed.

Lemma shift_left_spec n : forall i buf x,
  shift_left n i buf x
  = if (i <=? x) && (x <? i + Z.of_nat n) then buf (x + 1) else buf x.
Proof.
  induction n as [|k IH]; intros i buf x.
  - cbn [shift_left]. destruct (Z.leb_spec i x); destruct (Z.ltb_spec x (i + Z.of_nat 0));
      cbn [andb]; try reflexivity; lia.
  - cbn [shift_left]. rewrite IH. unfold upd.
    destruct (Z.leb_spec (i + 1) x); destruct (Z.ltb_spec x (i + 1 + Z.of_nat k));
      destruct (Z.leb_spec i x); destruct (Z.ltb_spec x (i + Z.of_nat (S k)));
      cbn [andb]; try lia;
      destruct (Z.eqb_spec (x + 1) i); destruct (Z.eqb_spec x i);
      try lia; try reflexivity.
    subst x. reflexivity.
Qed.

Lemma blank_cells_spec n : forall i buf x,
  blank_cells n i buf x
  = if (i <=? x) && (x <? i + Z.of_nat n) then 1824 else buf x.
Proof.
  induction n as [|k IH]; intros i buf x.
  - cbn [blank_cells]. destruct (Z.leb_spec i x); destruct (Z.ltb_spec x (i + Z.of_nat 0));
      cbn [andb]; try reflexivity; lia.
  - cbn [blank_cells]. rewrite IH. unfold upd.
    destruct (Z.leb_spec (i + 1) x); destruct (Z.ltb_spec x (i + 1 + Z.of_nat k));
      destruct (Z.leb_spec i x); destruct (Z.ltb_spec x (i + Z.of_nat (S k)));
      cbn [andb]; try lia; destruct (Z.eqb_spec x i); try lia; reflexivity.
Qed.

(** Giving a character the default attribute leaves its low byte. *)
Lemma attr_low_byte c :
  Z.land (if Z.land c (-256) =? 0 then Z.lor c 1792 else c) 255 = Z.land c 255.
Proof.
  destruct (Z.land c (-256) =? 0); [|reflexivity].
  rewrite Z.land_lor_distr_l. change (Z.land 1792 255) with 0. apply Z.lor_0_r.
Qed.

Lemma wrap16_small x : 0 <= x < 2 ^ 16 -> wrap16 x = x.
Proof. intros H. unfold wrap16. apply Z.mod_small. exact H. Qed.

Lemma scroll_none s : crt_pos s < CRT_SIZE -> scroll s = s.
Proof. intros H. unfold scroll. destruct (Z.geb_spec (crt_pos s) CRT_SIZE); [lia | reflexivity]. Qed.

(** [video_putc] on a character that is not a tab: one pass through
    the switch, the scroll check and the cursor update. *)
Lemma video_putc_rec_plain d c s :
  Z.land c 255 <> 9 ->
  video_putc_rec (S d) c s
  = let c := if Z.land c (-256) =? 0 then Z.lor c 1792 else c in
    let s1 :=
      if Z.land c 255 =? 8 then
        if blk_pos s >? line_pos s then
          mkVstate
            (shift_left (Z.to_nat (crt_pos s - (blk_pos s - 1))) (blk_pos s - 1)
               (upd (crt_buf s) (blk_pos s - 1) (wrap16 (Z.lor (Z.land c (-256)) 32))))
            (wrap16 (crt_pos s - 1)) (wrap16 (blk_pos s - 1))
            (line_pos s) (addr_6845 s) (ports s)
        else s
      else if Z.land c 255 =? 10 then
        mkVstate (crt_buf s)
          (wrap16 (wrap16 (crt_pos s + CRT_COLS) - wrap16 (crt_pos s + CRT_COLS) mod CRT_COLS))
          (wrap16 (wrap16 (crt_pos s + CRT_COLS) - wrap16 (crt_pos s + CRT_COLS) mod CRT_COLS))
          (wrap16 (wrap16 (wrap16 (crt_pos s + CRT_COLS)
                           - wrap16 (crt_pos s + CRT_COLS) mod CRT_COLS) + 2))
          (addr_6845 s) (ports s)
      else if Z.land c 255 =? 13 then
        mkVstate (crt_buf s)
          (wrap16 (crt_pos s - crt_pos s mod CRT_COLS))
          (wrap16 (crt_pos s - crt_pos s mod CRT_COLS))
          (wrap16 (wrap16 (crt_pos s - crt_pos s mod CRT_COLS) + 2))
          (addr_6845 s) (ports s)
      else
        mkVstate
          (shift_right (Z.to_nat (crt_pos s + 1 - (blk_pos s + 1))) (blk_pos s + 1)
             (crt_buf s (blk_pos s)) (upd (crt_buf s) (blk_pos s) (wrap16 c)))
          (wrap16 (crt_pos s + 1)) (wrap16 (blk_pos s + 1))
          (line_pos s) (addr_6845 s) (ports s) in
    set_cursor_pos (blk_pos (scroll s1)) (scroll s1).
Proof.
  intros H9. cbn [video_putc_rec]. cbv zeta.
  rewrite attr_low_byte.
  destruct (Z.eqb_spec (Z.land c 255) 8); [reflexivity|].
  destruct (Z.eqb_spec (Z.land c 255) 10); [reflexivity|].
  destruct (Z.eqb_spec (Z.land c 255) 13); [reflexivity|].
  destruct (Z.eqb_spec (Z.land c 255) 9); [contradiction | reflexivity].
Qed.

(** [video_putc] on a tab: five blanks, then the cursor goes to the
    end of the text. *)
Lemma video_putc_rec_tab d c s :
  Z.land c 255 = 9 ->
  video_putc_rec (S d) c s
  = let s5 := video_putc_rec d 32 (video_putc_rec d 32 (video_putc_rec d 32
                (video_putc_rec d 32 (video_putc_rec d 32 s)))) in
    let s1 := mkVstate (crt_buf s5) (crt_pos s5) (crt_pos s5) (line_pos s5)
                (addr_6845 s5) (ports s5) in
    set_cursor_pos (blk_pos (scroll s1)) (scroll s1).
Proof.
  intros H9. cbn [video_putc_rec]. cbv zeta.
  rewrite attr_low_byte, H9. reflexivity.
Qed.

(** The effect of [video_putc] on an ordinary character, on a screen
    with room for it. *)
Lemma putc_inserts (c : Z) (s : vstate) :
  video_ok s -> crt_pos s + 1 < CRT_SIZE ->
  Z.land c 255 <> 8 -> Z.land c 255 <> 9 -> Z.land c 255 <> 10 -> Z.land c 255 <> 13 ->
  let c' := if Z.land c (-256) =? 0 then Z.lor c 1792 else c in
  let s' := video_putc c s in
  crt_pos s' = crt_pos s + 1 /\ blk_pos s' = blk_pos s + 1 /\ line_pos s' = line_pos s /\
  crt_buf s' (blk_pos s) = wrap16 c' /\
  (forall i, blk_pos s < i <= crt_pos s -> crt_buf s' i = crt_buf s (i - 1)) /\
  (forall i, i < blk_pos s \/ crt_pos s < i -> crt_buf s' i = crt_buf s i) /\
  ports s' = (addr_6845 s + 1, (blk_pos s + 1) mod 256) :: (addr_6845 s, 15)
             :: (addr_6845 s + 1, (blk_pos s + 1) / 256) :: (addr_6845 s, 14)
             :: ports s.
Proof.
  intros (Hl & Hb & Hc) Hroom H8 H9 H10 H13 c' s'.
  unfold CRT_SIZE, CRT_ROWS, CRT_COLS in *. change (25 * 80) with 2000 in *.
  subst s'. unfold video_putc. rewrite video_putc_rec_plain by assumption.
  cbv zeta. fold c'.
  assert (Hlow : Z.land c' 255 = Z.land c 255) by apply attr_low_byte.
  rewrite Hlow.
  destruct (Z.eqb_spec (Z.land c 255) 8); [contradiction|].
  destruct (Z.eqb_spec (Z.land c 255) 10); [contradiction|].
  destruct (Z.eqb_spec (Z.land c 255) 13); [contradiction|].
  rewrite (wrap16_small (crt_pos s + 1)), (wrap16_small (blk_pos s + 1)) by lia.
  rewrite scroll_none by (cbn [crt_pos]; unfold CRT_SIZE, CRT_ROWS, CRT_COLS; lia).
  cbn [set_cursor_pos outb crt_buf crt_pos blk_pos line_pos addr_6845 ports].
  change (14 mod 256) with 14. change (15 mod 256) with 15.
  rewrite (Z.shiftr_div_pow2 (blk_pos s + 1) 8) by lia. change (2 ^ 8) with 256.
  rewrite (Z.mod_small ((blk_pos s + 1) / 256) 256)
    by (split; [apply Z.div_pos; lia | apply Z.div_lt_upper_bound; lia]).
  repeat apply conj; try reflexivity.
  - rewrite shift_right_spec. unfold upd.
    destruct (Z.leb_spec (blk_pos s + 1) (blk_pos s)); [lia|]. cbn [andb].
    rewrite Z.eqb_refl. reflexivity.
  - intros i Hi. rewrite shift_right_spec. unfold upd.
    destruct (Z.leb_spec (blk_pos s + 1) i); [|lia].
    destruct (Z.ltb_spec i (blk_pos s + 1 +
                Z.of_nat (Z.to_nat (crt_pos s + 1 - (blk_pos s + 1))))); [|lia].
    cbn [andb].
    destruct (Z.eqb_spec i (blk_pos s + 1)) as [-> | Hne].
    + f_equal. lia.
    + destruct (Z.eqb_spec (i - 1) (blk_pos s)); [lia | reflexivity].
  - intros i Hi. rewrite shift_right_spec. unfold upd.
    destruct (Z.leb_spec (blk_pos s + 1) i);
      destruct (Z.ltb_spec i (blk_pos s + 1 +
                  Z.of_nat (Z.to_nat (crt_pos s + 1 - (blk_pos s + 1))))); cbn [andb];
      try lia; destruct (Z.eqb_spec i (blk_pos s)); try lia; reflexivity.
Qed.

(** X23.  Typing a character at the cursor.  For a character other
    than backspace, tab, newline and return, on a screen in order and
    not yet full, [video_putc] stores the character (with attribute
    0x0700 when it carries none) in the cursor's cell, moves the text
    from the cursor to its end one cell to the right, leaves every
    other cell alone, advances the cursor and the end of the text by
    one, and sends the new cursor position to the controller: register
    14 and the high byte of the position, then register 15 and its low
    byte. *)
Theorem video_putc_inserts (c : Z) (s : vstate) :
  video_ok s -> crt_pos s + 1 < CRT_SIZE ->
  Z.land c 255 <> 8 -> Z.land c 255 <> 9 -> Z.land c 255 <> 10 -> Z.land c 255 <> 13 ->
  let c' := if Z.land c (-256) =? 0 then Z.lor c 1792 else c in
  let s' := video_putc c s in
  crt_pos s' = crt_pos s + 1 /\ blk_pos s' = blk_pos s + 1 /\ line_pos s' = line_pos s /\
  crt_buf s' (blk_pos s) = wrap16 c' /\
  (forall i, blk_pos s < i <= crt_pos s -> crt_buf s' i = crt_buf s (i - 1)) /\
  (forall i, i < blk_pos s \/ crt_pos s < i -> crt_buf s' i = crt_buf s i) /\
  ports s' = (addr_6845 s + 1, (blk_pos s + 1) mod 256) :: (addr_6845 s, 15)
             :: (addr_6845 s + 1, (blk_pos s + 1) / 256) :: (addr_6845 s, 14)
             :: ports s.
Proof. exact (putc_inserts c s). Qed.

Lemma scroll_ok s :
  0 <= line_pos s -> 0 <= blk_pos s <= crt_pos s -> crt_pos s < CRT_SIZE + CRT_COLS ->
  video_ok (scroll s) /\
  (forall i, ~ (0 <= i < CRT_SIZE) -> crt_buf (scroll s) i = crt_buf s i).
Proof.
  unfold video_ok, scroll, CRT_SIZE, CRT_ROWS, CRT_COLS. change (25 * 80) with 2000.
  intros Hl Hb Hc.
  destruct (Z.geb_spec (crt_pos s) 2000) as [Hge | Hlt].
  - cbv zeta. cbn [crt_buf crt_pos blk_pos line_pos].
    rewrite (wrap16_small (crt_pos s - 80)) by lia.
    rewrite (wrap16_small (crt_pos s - 80 + 2)) by lia.
    split; [lia|].
    intros i Hi. rewrite blank_cells_spec. unfold memmove_mem.
    change (Z.of_nat (Z.to_nat (2000 - (2000 - 80)))) with 80.
    destruct (Z.leb_spec (2000 - 80) i); destruct (Z.ltb_spec i (2000 - 80 + 80));
      cbn [andb]; try lia;
      destruct (Z.leb_spec 0 i); destruct (Z.ltb_spec i (0 + (2000 - 80)));
      cbn [andb]; try lia; reflexivity.
  - split; [lia | reflexivity].
Qed.

(** One level of [video_putc] keeps the screen in order and writes
    inside the screen only, provided the calls it makes do. *)
Lemma putc_step d :
  (forall s0, video_ok s0 ->
     video_ok (video_putc_rec d 32 s0) /\
     (forall i, ~ (0 <= i < CRT_SIZE) -> crt_buf (video_putc_rec d 32 s0) i = crt_buf s0 i)) ->
  forall c s, video_ok s ->
    video_ok (video_putc_rec (S d) c s) /\
    (forall i, ~ (0 <= i < CRT_SIZE) -> crt_buf (video_putc_rec (S d) c s) i = crt_buf s i).
Proof.
  intros Hrec c s Hok.
  assert (Hfin : forall s1,
            0 <= line_pos s1 -> 0 <= blk_pos s1 <= crt_pos s1 ->
            crt_pos s1 < CRT_SIZE + CRT_COLS ->
            (forall i, ~ (0 <= i < CRT_SIZE) -> crt_buf s1 i = crt_buf s i) ->
            video_ok (set_cursor_pos (blk_pos (scroll s1)) (scroll s1)) /\
            (forall i, ~ (0 <= i < CRT_SIZE) ->
               crt_buf (set_cursor_pos (blk_pos (scroll s1)) (scroll s1)) i = crt_buf s i)).
  { intros s1 Hl Hb Hc Hfr. destruct (scroll_ok s1 Hl Hb Hc) as [Hok1 Hfr1].
    split; [exact Hok1|]. intros i Hi.
    change (crt_buf (set_cursor_pos (blk_pos (scroll s1)) (scroll s1))) with (crt_buf (scroll s1)).
    rewrite Hfr1 by assumption. apply Hfr, Hi. }
  destruct (Z.eq_dec (Z.land c 255) 9) as [H9 | H9].
  - rewrite video_putc_rec_tab by assumption. cbv zeta.
    destruct (Hrec s Hok) as [Hok1 Hf1].
    destruct (Hrec _ Hok1) as [Hok2 Hf2].
    destruct (Hrec _ Hok2) as [Hok3 Hf3].
    destruct (Hrec _ Hok3) as [Hok4 Hf4].
    destruct (Hrec _ Hok4) as [Hok5 Hf5].
    generalize dependent (video_putc_rec d 32 s). intros s1 Hok1 Hf1 Hok2 Hf2.
    generalize dependent (video_putc_rec d 32 s1). intros s2 Hok2 Hf2 Hok3 Hf3.
    generalize dependent (video_putc_rec d 32 s2). intros s3 Hok3 Hf3 Hok4 Hf4.
    generalize dependent (video_putc_rec d 32 s3). intros s4 Hok4 Hf4 Hok5 Hf5.
    generalize dependent (video_putc_rec d 32 s4). intros s5 Hok5 Hf5.
    destruct Hok5 as (Hl5 & Hb5 & Hc5).
    unfold CRT_SIZE, CRT_ROWS, CRT_COLS in *. change (25 * 80) with 2000 in *.
    apply Hfin; cbn [crt_buf crt_pos blk_pos line_pos]; try lia.
    intros i Hi. rewrite Hf5, Hf4, Hf3, Hf2, Hf1 by assumption. reflexivity.
  - rewrite video_putc_rec_plain by assumption. cbv zeta.
    destruct Hok as (Hl & Hb & Hc).
    unfold CRT_SIZE, CRT_ROWS, CRT_COLS in *. change (25 * 80) with 2000 in *.
    destruct (Z.land _ 255 =? 8).
    { destruct (Z.gtb_spec (blk_pos s) (line_pos s)) as [Hgt | Hle].
      - apply Hfin; cbn [crt_buf crt_pos blk_pos line_pos];
          rewrite ?(wrap16_small (crt_pos s - 1)), ?(wrap16_small (blk_pos s - 1)) by lia;
          try lia.
        intros i Hi. rewrite shift_left_spec. unfold upd.
        destruct (Z.leb_spec (blk_pos s - 1) i);
          destruct (Z.ltb_spec i (blk_pos s - 1
                      + Z.of_nat (Z.to_nat (crt_pos s - (blk_pos s - 1)))));
          cbn [andb]; try lia.
        all: destruct (Z.eqb_spec i (blk_pos s - 1)); try lia; reflexivity.
      - apply Hfin; try lia; reflexivity. }
    destruct (Z.land _ 255 =? 10).
    { rewrite (wrap16_small (crt_pos s + 80)) by lia.
      pose proof (Z.mod_pos_bound (crt_pos s + 80) 80 ltac:(lia)) as Hm.
      rewrite (wrap16_small (crt_pos s + 80 - (crt_pos s + 80) mod 80)) by lia.
      pose proof (Z.mod_pos_bound (crt_pos s + 80 - (crt_pos s + 80) mod 80 + 2) (2 ^ 16)
                    ltac:(lia)) as Hw.
      apply Hfin; cbn [crt_buf crt_pos blk_pos line_pos]; unfold wrap16; try lia;
        reflexivity. }
    destruct (Z.land _ 255 =? 13).
    { divmod (crt_pos s) 80.
      rewrite (wrap16_small (crt_pos s - crt_pos s mod 80)) by lia.
      pose proof (Z.mod_pos_bound (crt_pos s - crt_pos s mod 80 + 2) (2 ^ 16)
                    ltac:(lia)) as Hw.
      apply Hfin; cbn [crt_buf crt_pos blk_pos line_pos]; unfold wrap16; try lia;
        reflexivity. }
    rewrite (wrap16_small (crt_pos s + 1)), (wrap16_small (blk_pos s + 1)) by lia.
    apply Hfin; cbn [crt_buf crt_pos blk_pos line_pos]; try lia.
    intros i Hi. rewrite shift_right_spec. unfold upd.
    destruct (Z.leb_spec (blk_pos s + 1) i);
      destruct (Z.ltb_spec i (blk_pos s + 1
                  + Z.of_nat (Z.to_nat (crt_pos s + 1 - (blk_pos s + 1)))));
      cbn [andb]; try lia.
    all: destruct (Z.eqb_spec i (blk_pos s)); try lia; reflexivity.
Qed.

Lemma video_putc_keeps_screen_aux (c : Z) (s : vstate) :
  video_ok s ->
  video_ok (video_putc c s) /\
  (forall i, ~ (0 <= i < CRT_SIZE) -> crt_buf (video_putc c s) i = crt_buf s i).
Proof.
  intros Hok. unfold video_putc.
  apply putc_step; [|exact Hok].
  apply putc_step.
  intros s0 H0. cbn [video_putc_rec]. split; [exact H0 | reflexivity].
Qed.

(** X24.  The display keeps the screen in order and stays inside it.
    If the cursor is inside the text and the text inside the 25 x 80
    cells, then after [video_putc] of any character, tab and scrolling
    included, they still are, and no cell outside the screen buffer
    was written; [blk_left] and [blk_right] move the cursor inside the
    text only and write no cell at all. *)
Theorem video_keeps_screen (c : Z) (s : vstate) :
  video_ok s ->
  (video_ok (video_putc c s) /\
   (forall i, ~ (0 <= i < CRT_SIZE) -> crt_buf (video_putc c s) i = crt_buf s i)) /\
  (video_ok (blk_left s) /\ crt_buf (blk_left s) = crt_buf s) /\
  (video_ok (blk_right s) /\ crt_buf (blk_right s) = crt_buf s).
Proof.
  intros Hok. split; [exact (video_putc_keeps_screen_aux c s Hok)|].
  destruct Hok as (Hl & Hb & Hc).
  unfold video_ok, blk_left, blk_right, CRT_SIZE, CRT_ROWS, CRT_COLS in *.
  change (25 * 80) with 2000 in *.
  destruct (Z.gtb_spec (blk_pos s) (line_pos s));
    destruct (Z.ltb_spec (blk_pos s) (crt_pos s));
    cbv zeta; cbn [set_cursor_pos outb crt_buf crt_pos blk_pos line_pos];
    rewrite ?(wrap16_small (blk_pos s - 1)), ?(wrap16_small (blk_pos s + 1)) by lia;
    repeat apply conj; try reflexivity; lia.
Qed.

(** The effect of [video_putc] on a backspace. *)
Lemma putc_backspace (c : Z) (s : vstate) :
  video_ok s -> Z.land c 255 = 8 ->
  let s' := video_putc c s in
  (blk_pos s > line_pos s ->
     crt_pos s' = crt_pos s - 1 /\ blk_pos s' = blk_pos s - 1 /\
     line_pos s' = line_pos s /\
     (forall i, blk_pos s - 1 <= i < crt_pos s -> crt_buf s' i = crt_buf s (i + 1)) /\
     (forall i, i < blk_pos s - 1 \/ crt_pos s <= i -> crt_buf s' i = crt_buf s i)) /\
  (blk_pos s <= line_pos s ->
     crt_pos s' = crt_pos s /\ blk_pos s' = blk_pos s /\ line_pos s' = line_pos s /\
     crt_buf s' = crt_buf s).
Proof.
  intros (Hl & Hb & Hc) H8 s'.
  unfold CRT_SIZE, CRT_ROWS, CRT_COLS in *. change (25 * 80) with 2000 in *.
  subst s'. unfold video_putc.
  rewrite video_putc_rec_plain by (rewrite H8; discriminate).
  cbv zeta. rewrite attr_low_byte, H8. cbn [Z.eqb Pos.eqb].
  split.
  - intros Hgt. destruct (Z.gtb_spec (blk_pos s) (line_pos s)); [|lia].
    rewrite (wrap16_small (crt_pos s - 1)), (wrap16_small (blk_pos s - 1)) by lia.
    rewrite scroll_none by (cbn [crt_pos]; unfold CRT_SIZE, CRT_ROWS, CRT_COLS; lia).
    cbn [set_cursor_pos outb crt_buf crt_pos blk_pos line_pos addr_6845 ports].
    repeat apply conj; try reflexivity.
    + intros i Hi. rewrite shift_left_spec. unfold upd.
      destruct (Z.leb_spec (blk_pos s - 1) i); [|lia].
      destruct (Z.ltb_spec i (blk_pos s - 1
                  + Z.of_nat (Z.to_nat (crt_pos s - (blk_pos s - 1))))); [|lia].
      cbn [andb]. destruct (Z.eqb_spec (i + 1) (blk_pos s - 1)); [lia | reflexivity].
    + intros i Hi. rewrite shift_left_spec. unfold upd.
      destruct (Z.leb_spec (blk_pos s - 1) i);
        destruct (Z.ltb_spec i (blk_pos s - 1
                    + Z.of_nat (Z.to_nat (crt_pos s - (blk_pos s - 1)))));
        cbn [andb]; try lia.
      all: destruct (Z.eqb_spec i (blk_pos s - 1)); try lia; reflexivity.
  - intros Hle. destruct (Z.gtb_spec (blk_pos s) (line_pos s)); [lia|].
    rewrite scroll_none by (unfold CRT_SIZE, CRT_ROWS, CRT_COLS; lia).
    cbn [set_cursor_pos outb crt_buf crt_pos blk_pos line_pos]. auto.
Qed.

(** X25.  Backspace.  On a screen in order, with the cursor past the
    start of the line, [video_putc] of a backspace removes the cell
    before the cursor: the cells from the cursor up to and including
    the one at the end of the text move one place to the left, the
    cursor and the end of the text go back by one, and no other cell
    changes.  With the cursor at or before the start of the line it
    changes neither the buffer nor the positions. *)
Theorem video_putc_backspace (c : Z) (s : vstate) :
  video_ok s -> Z.land c 255 = 8 ->
  let s' := video_putc c s in
  (blk_pos s > line_pos s ->
     crt_pos s' = crt_pos s - 1 /\ blk_pos s' = blk_pos s - 1 /\
     line_pos s' = line_pos s /\
     (forall i, blk_pos s - 1 <= i < crt_pos s -> crt_buf s' i = crt_buf s (i + 1)) /\
     (forall i, i < blk_pos s - 1 \/ crt_pos s <= i -> crt_buf s' i = crt_buf s i)) /\
  (blk_pos s <= line_pos s ->
     crt_pos s' = crt_pos s /\ blk_pos s' = blk_pos s /\ line_pos s' = line_pos s /\
     crt_buf s' = crt_buf s).
Proof. exact (putc_backspace c s). Qed.

(** X26.  Type, then backspace.  On a screen in order with room for
    one more character and the cursor at or after the start of the
    line being edited, typing an ordinary character (not backspace,
    tab, newline or return) at the cursor and taking it back with a
    backspace restores the cursor, the end of the text and every cell
    of the buffer but one: the cell at the end of the text takes the
    value of the cell after it. *)
Theorem video_type_backspace (c : Z) (s : vstate) :
  video_ok s -> crt_pos s + 1 < CRT_SIZE -> line_pos s <= blk_pos s ->
  Z.land c 255 <> 8 -> Z.land c 255 <> 9 -> Z.land c 255 <> 10 -> Z.land c 255 <> 13 ->
  let s' := video_putc 8 (video_putc c s) in
  crt_pos s' = crt_pos s /\ blk_pos s' = blk_pos s /\ line_pos s' = line_pos s /\
  (forall i, i <> crt_pos s -> crt_buf s' i = crt_buf s i) /\
  crt_buf s' (crt_pos s) = crt_buf s (crt_pos s + 1).
Proof.
  intros Hok Hroom Hline H8 H9 H10 H13. cbv zeta.
  pose proof (putc_inserts c s Hok Hroom H8 H9 H10 H13) as Hins. cbv zeta in Hins.
  destruct (video_putc_keeps_screen_aux c s Hok) as [Hok1 _].
  remember (video_putc c s) as s1 eqn:E1. clear E1.
  destruct Hins as (Hc1 & Hb1 & Hl1 & Hat & Hmid & Hout & _).
  destruct (putc_backspace 8 s1 Hok1 eq_refl) as [Hbs _].
  remember (video_putc 8 s1) as s2 eqn:E2. clear E2.
  destruct Hok as (Hl & Hb & Hc).
  destruct Hbs as (Hc2 & Hb2 & Hl2 & Hmid2 & Hout2); [lia|].
  repeat apply conj; try lia.
  - intros i Hi.
    destruct (Z_lt_le_dec i (blk_pos s)) as [Hlt | Hge].
    + rewrite Hout2 by lia. apply Hout. lia.
    + destruct (Z_lt_le_dec i (crt_pos s)) as [Hlt' | Hge'].
      * rewrite Hmid2 by lia. rewrite Hmid by lia. f_equal. lia.
      * rewrite Hout2 by lia. apply Hout. lia.
  - rewrite Hmid2 by lia. apply Hout. lia.
Qed.

(** X27.  Scrolling.  When an ordinary character is typed with the
    text ending in the last cell of the screen, the screen moves up by
    one row after the insertion: every cell of the first 24 rows takes
    the value that the cell one row below had with the character
    inserted, the last row is blank (0x0720), and the cursor and the
    end of the text both go to the start of the last row. *)
Theorem video_putc_scrolls (c : Z) (s : vstate) :
  video_ok s -> crt_pos s = CRT_SIZE - 1 ->
  Z.land c 255 <> 8 -> Z.land c 255 <> 9 -> Z.land c 255 <> 10 -> Z.land c 255 <> 13 ->
  let c' := if Z.land c (-256) =? 0 then Z.lor c 1792 else c in
  let s' := video_putc c s in
  crt_pos s' = CRT_SIZE - CRT_COLS /\ blk_pos s' = CRT_SIZE - CRT_COLS /\
  line_pos s' = CRT_SIZE - CRT_COLS + 2 /\
  (forall i, 0 <= i < CRT_SIZE - CRT_COLS ->
     crt_buf s' i =
       if i + CRT_COLS <? blk_pos s then crt_buf s (i + CRT_COLS)
       else if i + CRT_COLS =? blk_pos s then wrap16 c'
       else crt_buf s (i + CRT_COLS - 1)) /\
  (forall i, CRT_SIZE - CRT_COLS <= i < CRT_SIZE -> crt_buf s' i = 1824) /\
  (forall i, ~ (0 <= i < CRT_SIZE) -> crt_buf s' i = crt_buf s i).
Proof.
  intros (Hl & Hb & Hc) Hlast H8 H9 H10 H13 c' s'.
  unfold CRT_SIZE, CRT_ROWS, CRT_COLS in *. change (25 * 80) with 2000 in *.
  subst s'. unfold video_putc. rewrite video_putc_rec_plain by assumption.
  cbv zeta. fold c'.
  assert (Hlow : Z.land c' 255 = Z.land c 255) by apply attr_low_byte.
  rewrite Hlow.
  destruct (Z.eqb_spec (Z.land c 255) 8); [contradiction|].
  destruct (Z.eqb_spec (Z.land c 255) 10); [contradiction|].
  destruct (Z.eqb_spec (Z.land c 255) 13); [contradiction|].
  rewrite (wrap16_small (crt_pos s + 1)), (wrap16_small (blk_pos s + 1)) by lia.
  unfold scroll. cbn [crt_pos]. unfold CRT_SIZE, CRT_ROWS, CRT_COLS.
  change (25 * 80) with 2000.
  destruct (Z.geb_spec (crt_pos s + 1) 2000); [|lia].
  cbv zeta. cbn [set_cursor_pos outb crt_buf crt_pos blk_pos line_pos addr_6845 ports].
  rewrite (wrap16_small (crt_pos s + 1 - 80)) by lia.
  rewrite (wrap16_small (crt_pos s + 1 - 80 + 2)) by lia.
  change (Z.of_nat (Z.to_nat (2000 - (2000 - 80)))) with 80.
  repeat apply conj; try lia.
  - intros i Hi. rewrite blank_cells_spec. unfold memmove_mem.
    change (Z.of_nat (Z.to_nat (2000 - (2000 - 80)))) with 80.
    destruct (Z.leb_spec (2000 - 80) i); [lia|]. cbn [andb].
    destruct (Z.leb_spec 0 i); [|lia].
    destruct (Z.ltb_spec i (0 + (2000 - 80))); [|lia]. cbn [andb].
    rewrite shift_right_spec. unfold upd.
    replace (80 + (i - 0)) with (i + 80) by lia.
    destruct (Z.ltb_spec (i + 80) (blk_pos s)) as [Hlt | Hge].
    + destruct (Z.leb_spec (blk_pos s + 1) (i + 80)); [lia|]. cbn [andb].
      destruct (Z.eqb_spec (i + 80) (blk_pos s)); [lia | reflexivity].
    + destruct (Z.eqb_spec (i + 80) (blk_pos s)) as [Heq | Hne].
      * destruct (Z.leb_spec (blk_pos s + 1) (i + 80)); [lia|]. reflexivity.
      * destruct (Z.leb_spec (blk_pos s + 1) (i + 80)); [|lia].
        destruct (Z.ltb_spec (i + 80)
                    (blk_pos s + 1 + Z.of_nat (Z.to_nat (crt_pos s + 1 - (blk_pos s + 1)))));
          [|lia].
        cbn [andb].
        destruct (Z.eqb_spec (i + 80) (blk_pos s + 1)) as [Heq | Hne'].
        -- replace (i + 80 - 1) with (blk_pos s) by lia. reflexivity.
        -- destruct (Z.eqb_spec (i + 80 - 1) (blk_pos s)); [lia | reflexivity].
  - intros i Hi. rewrite blank_cells_spec.
    change (Z.of_nat (Z.to_nat (2000 - (2000 - 80)))) with 80.
    destruct (Z.leb_spec (2000 - 80) i); [|lia].
    destruct (Z.ltb_spec i (2000 - 80 + 80)); [|lia]. reflexivity.
  - intros i Hi. rewrite blank_cells_spec. unfold memmove_mem.
    change (Z.of_nat (Z.to_nat (2000 - (2000 - 80)))) with 80.
    destruct (Z.leb_spec (2000 - 80) i); destruct (Z.ltb_spec i (2000 - 80 + 80));
      cbn [andb]; try lia;
      destruct (Z.leb_spec 0 i); destruct (Z.ltb_spec i (0 + (2000 - 80)));
      cbn [andb]; try lia.
    all: rewrite shift_right_spec; unfold upd;
      destruct (Z.leb_spec (blk_pos s + 1) i);
      destruct (Z.ltb_spec i
                  (blk_pos s + 1 + Z.of_nat (Z.to_nat (crt_pos s + 1 - (blk_pos s + 1)))));
      cbn [andb]; try lia;
      destruct (Z.eqb_spec i (blk_pos s)); try lia; reflexivity.
Qed.

Lemma delete_loop_spec n : forall s,
  Z.of_nat n <= crt_pos s < 2 ^ 16 ->
  let s' := delete_loop n s in
  crt_pos s' = crt_pos s - Z.of_nat n /\ blk_pos s' = blk_pos s /\
  line_pos s' = line_pos s /\
  (forall i, crt_pos s - Z.of_nat n <= i < crt_pos s -> crt_buf s' i = 32) /\
  (forall i, i < crt_pos s - Z.of_nat n \/ crt_pos s <= i -> crt_buf s' i = crt_buf s i).
Proof.
  induction n as [|k IH]; intros s Hn s'.
  - subst s'. cbn [delete_loop]. repeat apply conj; try reflexivity; try lia.
  - subst s'. cbn [delete_loop]. cbv zeta.
    change (wrap16 (Z.lor (Z.land 8 (-256)) 32)) with 32.
    rewrite (wrap16_small (crt_pos s - 1)) by lia.
    destruct (IH (mkVstate (upd (crt_buf s) (crt_pos s - 1) 32) (crt_pos s - 1)
                    (blk_pos s) (line_pos s) (addr_6845 s) (ports s)))
      as (Hc & Hb & Hl & Hin & Hout).
    { cbn [crt_pos]. lia. }
    cbn [crt_pos blk_pos line_pos crt_buf] in Hc, Hb, Hl, Hin, Hout.
    repeat apply conj; try assumption; try lia.
    + intros i Hi. destruct (Z.eq_dec i (crt_pos s - 1)) as [-> | Hne].
      * rewrite Hout by lia. apply upd_same.
      * apply Hin. lia.
    + intros i Hi. rewrite Hout by lia. apply upd_other. lia.
Qed.

Lemma delete_loop_blanks n : forall s i,
  crt_buf (delete_loop n s) i = crt_buf s i \/ crt_buf (delete_loop n s) i = 32.
Proof.
  induction n as [|k IH]; intros s i; [now left|].
  cbn [delete_loop]. cbv zeta.
  change (wrap16 (Z.lor (Z.land 8 (-256)) 32)) with 32.
  destruct (IH (mkVstate (upd (crt_buf s) (wrap16 (crt_pos s - 1)) 32)
                  (wrap16 (crt_pos s - 1)) (blk_pos s) (line_pos s)
                  (addr_6845 s) (ports s)) i) as [H | H].
  - rewrite H. cbn [crt_buf]. unfold upd.
    destruct (i =? wrap16 (crt_pos s - 1)); [now right | now left].
  - now right.
Qed.

Lemma delete_loop_app a : forall b s,
  delete_loop (a + b) s = delete_loop b (delete_loop a s).
Proof. induction a as [|k IH]; intros b s; [reflexivity | apply IH]. Qed.

(** X28.  [delete_chars(n)] returns [n].  With [n] no larger than the
    length of the text it blanks the last [n] cells of the text and
    moves the end of the text and the cursor back to the first of
    them, leaving the other cells alone.  With [n] larger than that
    the position wraps below zero and cell 65535, far outside the
    2000 cells of the screen, is written. *)
Theorem delete_chars_spec (n : Z) (s : vstate) :
  0 <= crt_pos s < 2 ^ 16 ->
  fst (delete_chars n s) = n /\
  (0 <= n <= crt_pos s ->
     let s' := snd (delete_chars n s) in
     crt_pos s' = crt_pos s - n /\ blk_pos s' = crt_pos s - n /\
     line_pos s' = line_pos s /\
     (forall i, crt_pos s - n <= i < crt_pos s -> crt_buf s' i = 32) /\
     (forall i, i < crt_pos s - n \/ crt_pos s <= i -> crt_buf s' i = crt_buf s i)) /\
  (crt_pos s < n -> crt_buf (snd (delete_chars n s)) 65535 = 32).
Proof.
  intros Hc. split; [reflexivity|]. split.
  - intros Hn s'. subst s'. unfold delete_chars. cbn [snd crt_buf crt_pos blk_pos line_pos].
    destruct (delete_loop_spec (Z.to_nat n) s ltac:(lia)) as (Hc' & _ & Hl & Hin & Hout).
    rewrite Z2Nat.id in Hc', Hin, Hout by lia.
    repeat apply conj; assumption.
  - intros Hn. unfold delete_chars. cbn [snd crt_buf].
    replace (Z.to_nat n)
      with (Z.to_nat (crt_pos s) + S (Z.to_nat n - Z.to_nat (crt_pos s) - 1))%nat by lia.
    rewrite delete_loop_app.
    destruct (delete_loop_spec (Z.to_nat (crt_pos s)) s ltac:(lia)) as (Hc' & _).
    rewrite Z2Nat.id in Hc' by lia.
    generalize dependent (delete_loop (Z.to_nat (crt_pos s)) s). intros s1 Hc'.
    cbn [delete_loop]. cbv zeta.
    change (wrap16 (Z.lor (Z.land 8 (-256)) 32)) with 32.
    replace (crt_pos s1) with 0 by lia. change (wrap16 (0 - 1)) with 65535.
    match goal with
    | |- crt_buf (delete_loop ?m ?st) _ = _ =>
        destruct (delete_loop_blanks m st 65535) as [H | H]
    end.
    + rewrite H. cbn [crt_buf]. apply upd_same.
    + exact H.
Qed.

(* ================================================================== *)
(** ** The console: input ring and output path                         *)
(* ================================================================== *)

Lemma cons_writec_spec c b :
  0 <= wpos b < 512 ->
  wpos (cons_writec c b) = (wpos b + 1) mod 512 /\
  rpos (cons_writec c b) = rpos b /\
  cbuf (cons_writec c b) = upd (cbuf b) (wpos b) (c mod 256).
Proof.
  intros Hw. unfold cons_writec, CONSBUFSIZE. cbv zeta. cbn [wpos rpos cbuf].
  rewrite wrap32_small by lia.
  destruct (Z.eqb_spec (wpos b + 1) 512) as [Heq | Hne]; cbn [wpos rpos cbuf].
  - rewrite Heq. repeat apply conj; reflexivity.
  - rewrite Z.mod_small by lia. repeat apply conj; reflexivity.
Qed.

Lemma ring_next_apart w k :
  0 <= w < 512 -> 0 <= k < 511 -> w <> ((w + 1) mod 512 + k) mod 512.
Proof.
  intros Hw Hk. rewrite Z.add_mod_idemp_l by lia.
  divmod (w + 1 + k) 512. lia.
Qed.

Lemma cons_writes_spec l : forall b,
  0 <= wpos b < 512 -> Z.of_nat (List.length l) <= 512 ->
  let b' := cons_writes l b in
  wpos b' = (wpos b + Z.of_nat (List.length l)) mod 512 /\
  rpos b' = rpos b /\
  (forall k, (k < List.length l)%nat ->
     cbuf b' ((wpos b + Z.of_nat k) mod 512) = nth k l 0 mod 256) /\
  (forall x, (forall k, 0 <= k < Z.of_nat (List.length l) -> x <> (wpos b + k) mod 512) ->
     cbuf b' x = cbuf b x).
Proof.
  induction l as [|c rest IH]; intros b Hw Hlen b'.
  - subst b'. cbn [cons_writes List.length]. rewrite Z.add_0_r, Z.mod_small by lia.
    repeat apply conj; try reflexivity. intros k Hk. inversion Hk.
  - subst b'. cbn [cons_writes].
    destruct (cons_writec_spec c b Hw) as (Hw1 & Hr1 & Hb1).
    cbn [List.length] in Hlen.
    destruct (IH (cons_writec c b)) as (Hw2 & Hr2 & Hin & Hout).
    { rewrite Hw1. apply Z.mod_pos_bound. lia. }
    { lia. }
    rewrite Hw1 in Hw2, Hin, Hout. rewrite Hr1 in Hr2. rewrite Hb1 in Hout.
    cbn [List.length]. repeat apply conj.
    + rewrite Hw2, Z.add_mod_idemp_l by lia. f_equal. lia.
    + exact Hr2.
    + intros k Hk. destruct k as [|k'].
      * cbn [nth]. rewrite Z.add_0_r, Z.mod_small by lia.
        rewrite Hout; [apply upd_same|].
        intros k Hk'. apply ring_next_apart; lia.
      * cbn [nth]. rewrite <- (Hin k') by lia.
        f_equal. rewrite Z.add_mod_idemp_l by lia. f_equal. lia.
    + intros x Hx. rewrite Hout.
      * apply upd_other. specialize (Hx 0 ltac:(lia)).
        rewrite Z.add_0_r, Z.mod_small in Hx by lia. exact Hx.
      * intros k Hk. rewrite Z.add_mod_idemp_l by lia.
        replace (wpos b + 1 + k) with (wpos b + (k + 1)) by lia. apply Hx. lia.
Qed.

Lemma cons_getc_some b :
  0 <= rpos b < 512 -> rpos b <> wpos b ->
  cons_getc b = (cbuf b (rpos b), mkConsbuf (cbuf b) ((rpos b + 1) mod 512) (wpos b)).
Proof.
  intros Hr Hne. unfold cons_getc, CONSBUFSIZE. cbv zeta. cbn [wpos rpos cbuf].
  destruct (Z.eqb_spec (rpos b) (wpos b)); [contradiction|]. cbn [negb].
  rewrite wrap32_small by lia.
  destruct (Z.eqb_spec (rpos b + 1) 512) as [Heq | Hn].
  - rewrite Heq. reflexivity.
  - rewrite Z.mod_small by lia. reflexivity.
Qed.

Lemma cons_reads_spec n : forall b,
  0 <= rpos b < 512 -> 0 <= wpos b < 512 ->
  Z.of_nat n <= (wpos b - rpos b) mod 512 ->
  cons_reads n b
  = (map (fun k => cbuf b ((rpos b + Z.of_nat k) mod 512)) (seq 0 n),
     mkConsbuf (cbuf b) ((rpos b + Z.of_nat n) mod 512) (wpos b)).
Proof.
  induction n as [|k IH]; intros b Hr Hw Hn.
  - cbn [cons_reads seq map]. rewrite Z.add_0_r, Z.mod_small by lia.
    destruct b; reflexivity.
  - cbn [cons_reads].
    assert (Hne : rpos b <> wpos b).
    { intros Heq. rewrite Heq, Z.sub_diag in Hn. cbn in Hn. lia. }
    rewrite cons_getc_some by assumption.
    pose proof (Z.mod_pos_bound (rpos b + 1) 512 ltac:(lia)) as Hr1.
    rewrite IH; cbn [rpos wpos cbuf]; try assumption.
    + cbn [seq map]. rewrite <- seq_shift, map_map.
      f_equal; [f_equal|].
      * f_equal. rewrite Z.add_0_r, Z.mod_small by lia. reflexivity.
      * apply map_ext. intros j. f_equal.
        rewrite Z.add_mod_idemp_l by lia. f_equal. lia.
      * f_equal. rewrite Z.add_mod_idemp_l by lia. f_equal. lia.
    + rewrite Zminus_mod_idemp_r.
      divmod (wpos b - rpos b) 512. divmod (wpos b - (rpos b + 1)) 512. lia.
Qed.

Lemma map_nth_all (l : list Z) :
  map (fun k => nth k l 0) (seq 0 (List.length l)) = l.
Proof.
  induction l as [|a rest IH]; [reflexivity|].
  cbn [List.length seq map nth]. f_equal.
  rewrite <- seq_shift, map_map. exact IH.
Qed.

(** X29.  The input ring is first in, first out, up to 511 bytes.
    From an empty ring, the bytes given to [cons_writec] come back
    from [cons_getc] in the order written, wherever in the ring the
    positions stand, and the ring is empty again ([cons_getc] gives
    0).  A 512th byte written without a read in between is one too
    many: the write position catches up with the read position, the
    ring reads as empty, and all 512 bytes are lost. *)
Theorem cons_ring_fifo (l : list Z) (b : consbuf) :
  0 <= wpos b < 512 -> rpos b = wpos b ->
  Forall (fun c => 0 <= c < 256) l ->
  ((List.length l < 512)%nat ->
     exists b',
       cons_reads (List.length l) (cons_writes l b) = (l, b') /\
       rpos b' = wpos b' /\ cons_getc b' = (0, b')) /\
  (List.length l = 512%nat ->
     cons_getc (cons_writes l b) = (0, cons_writes l b)).
Proof.
  intros Hw Hempty Hbytes. split.
  - intros Hlen.
    destruct (cons_writes_spec l b Hw ltac:(lia)) as (Hw1 & Hr1 & Hin & _).
    rewrite cons_reads_spec.
    + rewrite Hr1, Hempty.
      eexists. split; [|split].
      * f_equal. rewrite <- (map_nth_all l) at 2.
        apply map_ext_in. intros k Hk. apply in_seq in Hk.
        rewrite Hin by lia. apply Z.mod_small.
        rewrite Forall_forall in Hbytes. apply Hbytes. apply nth_In. lia.
      * cbn [rpos wpos]. rewrite Hw1. reflexivity.
      * unfold cons_getc. cbn [rpos wpos]. rewrite Hw1, Z.eqb_refl. reflexivity.
    + rewrite Hr1, Hempty. lia.
    + rewrite Hw1. apply Z.mod_pos_bound. lia.
    + rewrite Hw1, Hr1, Hempty, Zminus_mod_idemp_l.
      replace (wpos b + Z.of_nat (List.length l) - wpos b) with (Z.of_nat (List.length l)) by lia.
      rewrite Z.mod_small by lia. lia.
  - intros Hlen.
    destruct (cons_writes_spec l b Hw ltac:(lia)) as (Hw1 & Hr1 & _).
    unfold cons_getc. rewrite Hr1, Hw1, Hempty, Hlen.
    change (Z.of_nat 512) with 512.
    replace ((wpos b + 512) mod 512) with (wpos b).
    + rewrite Z.eqb_refl. reflexivity.
    + replace (wpos b + 512) with (wpos b + 1 * 512) by lia.
      rewrite Z.mod_add, Z.mod_small by lia. reflexivity.
Qed.

Lemma land_byte_attr a c : a mod 256 = 0 -> 0 <= c < 256 -> Z.land a c = 0.
Proof.
  intros Ha Hc.
  apply Z.bits_inj'. intros n Hn. rewrite Z.land_spec, Z.bits_0.
  destruct (Z_lt_ge_dec n 8) as [Hlt | Hge].
  - assert (Z.testbit a n = false) as ->; [|reflexivity].
    rewrite <- (Z.mod_pow2_bits_low a 8 n) by lia.
    change (2 ^ 8) with 256. rewrite Ha. apply Z.bits_0.
  - assert (Z.testbit c n = false) as ->; [|apply andb_false_r].
    destruct (Z.eq_dec c 0) as [-> | Hnz]; [apply Z.bits_0|].
    apply Z.bits_above_log2; [lia|].
    assert (Z.log2 c < 8); [|lia].
    apply Z.log2_lt_pow2; lia.
Qed.

(** A character with a colour: the low byte is the character, the
    rest the attribute. *)
Lemma char_with_colour c k :
  0 <= c < 256 -> 0 <= k ->
  Z.lor c (Z.shiftl k 8) = c + 256 * k /\
  Z.land (Z.lor c (Z.shiftl k 8)) 255 = c /\
  Z.land (Z.lor c (Z.shiftl k 8)) (-256) = 256 * k.
Proof.
  intros Hc Hk. rewrite Z.shiftl_mul_pow2 by lia. change (2 ^ 8) with 256.
  assert (Ha : (k * 256) mod 256 = 0) by (apply Z.mod_mul; lia).
  assert (Hd : Z.land (k * 256) c = 0) by (apply land_byte_attr; assumption).
  assert (Hlow : Z.land c 255 = c).
  { change 255 with (Z.ones 8). rewrite Z.land_ones by lia. apply Z.mod_small. exact Hc. }
  assert (Hhigh : Z.land (k * 256) 255 = 0).
  { change 255 with (Z.ones 8). rewrite Z.land_ones by lia. exact Ha. }
  assert (Hsplit : forall x, x = Z.lor (Z.land x 255) (Z.land x (-256))).
  { intros x. rewrite <- Z.land_lor_distr_r. change (Z.lor 255 (-256)) with (-1).
    symmetry. apply Z.land_m1_r. }
  repeat apply conj.
  - pose proof (Z.add_lor_land (k * 256) c) as Hadd. rewrite Hd in Hadd.
    rewrite Z.lor_comm. lia.
  - rewrite Z.land_lor_distr_l, Hlow, Hhigh. apply Z.lor_0_r.
  - rewrite Z.land_lor_distr_l.
    assert (Hc0 : Z.land c (-256) = 0).
    { rewrite <- Hlow, <- Z.land_assoc. change (Z.land 255 (-256)) with 0. apply Z.land_0_r. }
    rewrite Hc0, Z.lor_0_l.
    pose proof (Hsplit (k * 256)) as Hs. rewrite Hhigh, Z.lor_0_l in Hs.
    rewrite <- Hs. lia.
Qed.

(** X30.  Colours on the console.  On a console that is not in the
    middle of an escape, whose screen is in order and has room for one
    more character: [cons_putc] of ESC and of a colour byte [k] from 1
    to 255 prints nothing, neither on the serial line nor on the
    screen; the next character [c], a byte other than ESC, backspace,
    tab, newline and return, goes to the serial line and to
    [video_putc] with [k] as its attribute byte, so that it lands in
    the cursor's cell as [c + 256 * k], and the colour stays in
    force. *)
Theorem cons_putc_colour (k c : Z) (o : conout) :
  esc_flag o <= 0 -> 1 <= k < 256 -> 0 <= c < 256 ->
  c <> 27 -> c <> 8 -> c <> 9 -> c <> 10 -> c <> 13 ->
  video_ok (screen o) -> crt_pos (screen o) + 1 < CRT_SIZE ->
  let o2 := cons_putc k (cons_putc 27 o) in
  let o3 := cons_putc c o2 in
  serial_out o2 = serial_out o /\ screen o2 = screen o /\
  serial_out o3 = (c + 256 * k) :: serial_out o /\
  screen o3 = video_putc (c + 256 * k) (screen o) /\
  crt_buf (screen o3) (blk_pos (screen o)) = c + 256 * k /\
  blk_pos (screen o3) = blk_pos (screen o) + 1 /\
  color_mask o3 = 256 * k /\ esc_flag o3 = 0.
Proof.
  intros Hesc Hk Hc H27 H8 H9 H10 H13 Hok Hroom o2 o3.
  destruct (char_with_colour c k Hc ltac:(lia)) as (Hsum & Hlow & Hhigh).
  assert (Hmask : Z.shiftl k 8 = 256 * k).
  { rewrite Z.shiftl_mul_pow2 by lia. change (2 ^ 8) with 256. lia. }
  assert (H1 : cons_putc 27 o = mkConout 1 (color_mask o) (serial_out o) (screen o)).
  { unfold cons_putc. destruct (Z.gtb_spec (esc_flag o) 0); [lia | reflexivity]. }
  assert (H2 : forall m sl v, cons_putc k (mkConout 1 m sl v)
                              = mkConout 0 (Z.shiftl k 8) sl v) by reflexivity.
  assert (H3 : forall m sl v, cons_putc c (mkConout 0 m sl v)
                 = mkConout 0 m (Z.lor c m :: sl) (video_putc (Z.lor c m) v)).
  { intros m sl v. unfold cons_putc. cbn [esc_flag Z.gtb Z.compare].
    destruct (Z.eqb_spec c 27); [contradiction | reflexivity]. }
  subst o3 o2. rewrite H1, H2, H3.
  cbn [esc_flag serial_out screen color_mask].
  rewrite Hsum, Hmask.
  repeat apply conj; try reflexivity.
  - destruct (putc_inserts (c + 256 * k) (screen o) Hok Hroom)
      as (_ & _ & _ & Hat & _); try (rewrite <- Hsum, Hlow; assumption).
    cbv zeta in Hat. rewrite Hat.
    rewrite <- Hsum, Hhigh.
    destruct (Z.eqb_spec (256 * k) 0); [lia|].
    rewrite Hsum. apply wrap16_small. lia.
  - destruct (putc_inserts (c + 256 * k) (screen o) Hok Hroom)
      as (_ & Hb & _); try (rewrite <- Hsum, Hlow; assumption).
    exact Hb.
Qed.

(** *** The same on an example screen and ring *)

Lemma ex_screen_ok : video_ok ex_screen.
Proof. unfold video_ok, ex_screen, CRT_SIZE, CRT_ROWS, CRT_COLS. cbn. lia. Qed.

Lemma video_putc_inserts_witness :
  crt_buf (video_putc 88 ex_screen) 3 = 1792 + 88 /\
  crt_buf (video_putc 88 ex_screen) 4 = crt_buf ex_screen 3 /\
  crt_pos (video_putc 88 ex_screen) = 6 /\ blk_pos (video_putc 88 ex_screen) = 4 /\
  ports (video_putc 88 ex_long) = [(981, 45); (980, 15); (981, 1); (980, 14)].
Proof.
  destruct (video_putc_inserts 88 ex_screen ex_screen_ok)
    as (Hc & Hb & _ & Hat & Hmid & _).
  - vm_compute. reflexivity.
  - vm_compute; discriminate.
  - vm_compute; discriminate.
  - vm_compute; discriminate.
  - vm_compute; discriminate.
  - split; [exact Hat|]. split; [|split; [exact Hc | split; [exact Hb|]]].
    + apply (Hmid 4). cbn. lia.
    + apply (video_putc_inserts 88 ex_long).
      * vm_compute. repeat split; discriminate.
      * vm_compute. reflexivity.
      * vm_compute; discriminate.
      * vm_compute; discriminate.
      * vm_compute; discriminate.
      * vm_compute; discriminate.
Defined.

Lemma video_keeps_screen_witness :
  video_ok (video_putc 9 ex_screen) /\
  crt_buf (video_putc 9 ex_screen) 2000 = crt_buf ex_screen 2000 /\
  video_ok (blk_left ex_screen) /\ video_ok (blk_right ex_screen).
Proof.
  destruct (video_keeps_screen 9 ex_screen ex_screen_ok)
    as ([Hok Hfr] & [Hleft _] & [Hright _]).
  split; [exact Hok|]. split; [|split; [exact Hleft | exact Hright]].
  apply Hfr. unfold CRT_SIZE, CRT_ROWS, CRT_COLS. lia.
Defined.

Lemma video_putc_backspace_witness :
  crt_pos (video_putc 8 ex_screen) = 4 /\ blk_pos (video_putc 8 ex_screen) = 2 /\
  crt_buf (video_putc 8 ex_screen) 2 = crt_buf ex_screen 3.
Proof.
  destruct (video_putc_backspace 8 ex_screen ex_screen_ok eq_refl) as [Hdel _].
  destruct Hdel as (Hc & Hb & _ & Hmid & _).
  - cbn. lia.
  - split; [exact Hc|]. split; [exact Hb|]. apply (Hmid 2). cbn. lia.
Defined.

Lemma video_type_backspace_witness :
  crt_pos (video_putc 8 (video_putc 88 ex_screen)) = 5 /\
  blk_pos (video_putc 8 (video_putc 88 ex_screen)) = 3 /\
  crt_buf (video_putc 8 (video_putc 88 ex_screen)) 3 = crt_buf ex_screen 3.
Proof.
  destruct (video_type_backspace 88 ex_screen ex_screen_ok)
    as (Hc & Hb & _ & Hbuf & _).
  - vm_compute. reflexivity.
  - cbn. lia.
  - vm_compute; discriminate.
  - vm_compute; discriminate.
  - vm_compute; discriminate.
  - vm_compute; discriminate.
  - split; [exact Hc|]. split; [exact Hb|]. apply Hbuf. cbn. lia.
Defined.

Lemma video_putc_scrolls_witness :
  crt_pos (video_putc 88 ex_full) = 1920 /\
  crt_buf (video_putc 88 ex_full) 1919 = 1792 + 88 /\
  crt_buf (video_putc 88 ex_full) 1920 = 1824.
Proof.
  destruct (video_putc_scrolls 88 ex_full) as (Hc & _ & _ & Hup & Hlast & _).
  - unfold video_ok, ex_full, CRT_SIZE, CRT_ROWS, CRT_COLS. cbn. lia.
  - reflexivity.
  - vm_compute; discriminate.
  - vm_compute; discriminate.
  - vm_compute; discriminate.
  - vm_compute; discriminate.
  - split; [exact Hc|]. split.
    + apply (Hup 1919). unfold CRT_SIZE, CRT_ROWS, CRT_COLS. lia.
    + apply (Hlast 1920). unfold CRT_SIZE, CRT_ROWS, CRT_COLS. lia.
Defined.

Lemma delete_chars_spec_witness :
  crt_pos (snd (delete_chars 2 ex_screen)) = 3 /\
  crt_buf (snd (delete_chars 2 ex_screen)) 4 = 32 /\
  crt_buf (snd (delete_chars 7 ex_screen)) 65535 = 32.
Proof.
  destruct (delete_chars_spec 2 ex_screen) as (_ & Hin & _); [cbn; lia|].
  destruct (delete_chars_spec 7 ex_screen) as (_ & _ & Hout); [cbn; lia|].
  destruct Hin as (Hc & _ & _ & Hbl & _); [cbn; lia|].
  split; [exact Hc|]. split; [apply (Hbl 4); cbn; lia|].
  apply Hout. cbn. lia.
Defined.

Lemma cons_ring_fifo_witness :
  exists b',
    cons_reads 3 (cons_writes [104; 105; 10] ex_ring) = ([104; 105; 10], b') /\
    rpos b' = wpos b'.
Proof.
  destruct (cons_ring_fifo [104; 105; 10] ex_ring) as [Hfifo _].
  - cbn. lia.
  - reflexivity.
  - repeat constructor; lia.
  - destruct Hfifo as (b' & Hrun & Hempty & _); [cbn; lia|].
    exists b'. split; [exact Hrun | exact Hempty].
Defined.

Lemma cons_putc_colour_witness :
  serial_out (cons_putc 88 (cons_putc 4 (cons_putc 27 ex_conout))) = [88 + 256 * 4] /\
  crt_buf (screen (cons_putc 88 (cons_putc 4 (cons_putc 27 ex_conout)))) 3 = 88 + 256 * 4.
Proof.
  destruct (cons_putc_colour 4 88 ex_conout) as (_ & _ & Hser & _ & Hcell & _).
  - cbn. lia.
  - lia.
  - lia.
  - discriminate.
  - discriminate.
  - discriminate.
  - discriminate.
  - discriminate.
  - exact ex_screen_ok.
  - vm_compute. reflexivity.
  - split; [exact Hser | exact Hcell].
Defined.
